(** * Daily management-fee calculator (BTG): a shallow embedding

    The development follows [app_caclculo_taxa_BTG.py], class
    [CalculandoTaxadeGestao]: the two loaders, the fee engine and the
    pieces of the Python and pandas libraries they call.

    Conventions of the embedding.
    - A pandas [DataFrame] is an ordered list of labelled columns; a column
      ([Series]) carries its dtype: [object] holding text, [float64] or
      [datetime64].  A missing value (NaN, NaT, None) is [None].
    - A [float64] cell holds a real number ([R]); infinities are left out.
      The daily rate of line 75 and the sums of the report are computed
      with the operations of [R], which idealises their rounding errors.
      The fee amount of line 76 and the rounding of [Total] are computed as
      binary64 computes them: the product, the quotient and [round(x, 2)]
      round their result to the nearest float, a tie going to the even one.
      What real numbers cannot express (a power of a negative base, which
      numpy answers with NaN) is written out as a missing value.
    - A method of the class is a computation over the session object, the
      list of messages shown with [st.error], and an outcome that is either
      a returned value or a raised exception.
    - A string is held as the bytes of its UTF-8 encoding.  In a file name
      the digits of the date tag are the decimal digits of Unicode, as the
      pattern [\d] of Python matches them. *)

From Stdlib Require Import String Ascii List ZArith Bool Lia.
From Stdlib Require Import Reals Lra Permutation Sorting.Mergesort Orders.
Import ListNotations.

Local Open Scope string_scope.
Local Open Scope Z_scope.

(** ** Python strings *)

Module PyStr.

Definition byte (c : ascii) : N := N_of_ascii c.

(** A byte [10xxxxxx], which continues a character. *)
Definition continuation (c : ascii) : bool :=
  ((128 <=? byte c) && (byte c <=? 191))%N.

(** The last character taken off a string given back to front: its
    continuation bytes and the byte that starts it. *)
Fixpoint chop (reversed : list ascii) : list ascii :=
  match reversed with
  | [] => []
  | c :: r => if continuation c then chop r else r
  end.

(** [s[:-2]]: the string without its last two characters (empty when the
    string has at most two). *)
Definition drop_last2 (s : string) : string :=
  string_of_list_ascii (rev (chop (chop (rev (list_ascii_of_string s))))).

Definition payload (c : ascii) : N := (byte c - 128)%N.

(** The character at the head of a UTF-8 sequence: its code point, its
    bytes and the rest of the input.  Bytes that encode no character
    (a stray continuation byte, an overlong form, a surrogate) give
    [None]. *)
Definition decode (s : list ascii) : option (N * list ascii * list ascii) :=
  match s with
  | [] => None
  | a :: r =>
      let n := byte a in
      if (n <? 128)%N then Some (n, [a], r)
      else if ((194 <=? n) && (n <=? 223))%N then
        match r with
        | b :: r' =>
            if continuation b
            then Some (((n - 192) * 64 + payload b)%N, [a; b], r')
            else None
        | _ => None
        end
      else if ((224 <=? n) && (n <=? 239))%N then
        match r with
        | b :: c :: r' =>
            let cp := ((n - 224) * 4096 + payload b * 64 + payload c)%N in
            if continuation b && continuation c && (2048 <=? cp)%N
               && negb ((55296 <=? cp) && (cp <=? 57343))%N
            then Some (cp, [a; b; c], r')
            else None
        | _ => None
        end
      else if ((240 <=? n) && (n <=? 244))%N then
        match r with
        | b :: c :: d :: r' =>
            let cp := ((n - 240) * 262144 + payload b * 4096
                       + payload c * 64 + payload d)%N in
            if continuation b && continuation c && continuation d
               && (65536 <=? cp)%N && (cp <=? 1114111)%N
            then Some (cp, [a; b; c; d], r')
            else None
        | _ => None
        end
      else None
  end.

(** The digit zero of every run of decimal digits (general category Nd) of
    the Unicode character database, version 14.0, which CPython 3.11
    carries: each is followed by its digits one to nine.  The first three
    are the ASCII, the Arabic-Indic and the extended Arabic-Indic digits;
    65296 is the fullwidth zero. *)
Definition decimal_zeros : list N :=
  [48; 1632; 1776; 1984; 2406; 2534; 2662; 2790; 2918; 3046; 3174; 3302;
   3430; 3558; 3664; 3792; 3872; 4160; 4240; 6112; 6160; 6470; 6608; 6784;
   6800; 6992; 7088; 7232; 7248; 42528; 43216; 43264; 43472; 43504; 43600;
   44016; 65296; 66720; 68912; 69734; 69872; 69942; 70096; 70384; 70736;
   70864; 71248; 71360; 71472; 71904; 72016; 72784; 73040; 73120; 92768;
   92864; 93008; 120782; 120792; 120802; 120812; 120822; 123200; 123632;
   125264; 130032]%N.

(** [unicodedata.decimal]: the value of a decimal digit, which is what
    [int] reads it as. *)
Definition decimal (cp : N) : option Z :=
  match find (fun z => (z <=? cp) && (cp <? z + 10))%N decimal_zeros with
  | Some z => Some (Z.of_N (cp - z))
  | None => None
  end.

(** [\d] at the head of the input: the value of the digit, its bytes and
    the rest. *)
Definition digit (s : list ascii) : option (Z * list ascii * list ascii) :=
  match decode s with
  | Some (cp, bytes, r) =>
      match decimal cp with
      | Some v => Some (v, bytes, r)
      | None => None
      end
  | None => None
  end.

Definition digit_val (c : ascii) : Z := Z.of_nat (nat_of_ascii c) - 48.

Definition digit_char (d : Z) : ascii := ascii_of_nat (Z.to_nat (d + 48)).

(** ["%02d"] for a number below 100. *)
Definition two_digits (n : Z) : string :=
  String (digit_char (n / 10)) (String (digit_char (n mod 10)) EmptyString).

Definition in_range (lo hi : ascii) (c : ascii) : bool :=
  (nat_of_ascii lo <=? nat_of_ascii c)%nat && (nat_of_ascii c <=? nat_of_ascii hi)%nat.

End PyStr.

(** ** Calendar dates ([datetime.datetime], time of day left out) *)

Record datetime : Type := mk_dt { year : Z; month : Z; day : Z }.

Module Calendar.

Definition is_leap (y : Z) : bool :=
  ((y mod 4 =? 0) && negb (y mod 100 =? 0)) || (y mod 400 =? 0).

Definition days_in_month (y m : Z) : Z :=
  if m =? 2 then (if is_leap y then 29 else 28)
  else if (m =? 4) || (m =? 6) || (m =? 9) || (m =? 11) then 30
  else 31.

(** The constructor [datetime(y, m, d)]: [None] stands for its
    [ValueError]. *)
Definition new (y m d : Z) : option datetime :=
  if (1 <=? y) && (y <=? 9999) && (1 <=? m) && (m <=? 12)
     && (1 <=? d) && (d <=? days_in_month y m)
  then Some (mk_dt y m d) else None.

(** [dt.replace(year=y)]. *)
Definition replace_year (dt : datetime) (y : Z) : option datetime :=
  new y (month dt) (day dt).

(** [dt.strftime('%d.%m')]. *)
Definition strftime_dm (dt : datetime) : string :=
  PyStr.two_digits (day dt) ++ "." ++ PyStr.two_digits (month dt).

End Calendar.

(** ** DateTagExtractor: [re.search] and [datetime.strptime] *)

Module DateTag.
Import PyStr.

(** The pattern [PL Total - (\d{2}\.\d{2})] matched at the head of [s];
    the result is group 1. *)
Definition match_here (s : string) : option string :=
  if prefix "PL Total - " s then
    match digit (skipn 11 (list_ascii_of_string s)) with
    | Some (_, d1, s1) =>
        match digit s1 with
        | Some (_, d2, s2) =>
            match s2 with
            | p :: s3 =>
                if Ascii.eqb p "." then
                  match digit s3 with
                  | Some (_, m1, s4) =>
                      match digit s4 with
                      | Some (_, m2, _) =>
                          Some (string_of_list_ascii
                                  (d1 ++ d2 ++ p :: m1 ++ m2)%list)
                      | None => None
                      end
                  | None => None
                  end
                else None
            | [] => None
            end
        | None => None
        end
    | None => None
    end
  else None.

(** [re.search(pattern, s)]: the leftmost position where the pattern
    matches. *)
Fixpoint search (s : string) : option string :=
  match match_here s with
  | Some g => Some g
  | None =>
      match s with
      | EmptyString => None
      | String _ s' => search s'
      end
  end.

(** The alternatives of [%d] in [_strptime]'s regular expression,
    [3[0-1]|[1-2]\d|0[1-9]|[1-9]| [1-9]], in the order the regex engine
    tries them: each gives the day read (by [int]) and the rest of the
    input.  Only the [\d] of the second alternative takes a digit that is
    not ASCII. *)
Definition directive_d (s : list ascii) : list (Z * list ascii) :=
  (match s with
   | a :: b :: r =>
       if Ascii.eqb a "3" && in_range "0" "1" b
       then [(30 + digit_val b, r)] else []
   | _ => []
   end)
  ++ (match s with
      | a :: s' =>
          if in_range "1" "2" a then
            match digit s' with
            | Some (v, _, r) => [(10 * digit_val a + v, r)]
            | None => []
            end
          else []
      | _ => []
      end)
  ++ (match s with
      | a :: b :: r =>
          if Ascii.eqb a "0" && in_range "1" "9" b
          then [(digit_val b, r)] else []
      | _ => []
      end)
  ++ (match s with
      | a :: r => if in_range "1" "9" a then [(digit_val a, r)] else []
      | _ => []
      end)
  ++ (match s with
      | a :: b :: r =>
          if Ascii.eqb a " " && in_range "1" "9" b
          then [(digit_val b, r)] else []
      | _ => []
      end).

(** The alternatives of [%m]: [1[0-2]|0[1-9]|[1-9]]. *)
Definition directive_m (s : list ascii) : list (Z * list ascii) :=
  (match s with
   | a :: b :: r =>
       (if Ascii.eqb a "1" && in_range "0" "2" b
        then [(10 + digit_val b, r)] else [])
       ++ (if Ascii.eqb a "0" && in_range "1" "9" b
           then [(digit_val b, r)] else [])
   | _ => []
   end)
  ++ (match s with
      | a :: r => if in_range "1" "9" a then [(digit_val a, r)] else []
      | _ => []
      end).

(** The first way to match [%d\.%m] at the head of the input, with
    backtracking over the alternatives of [%d]. *)
Fixpoint first_match (ds : list (Z * list ascii))
  : option (Z * Z * list ascii) :=
  match ds with
  | [] => None
  | (d, r) :: ds' =>
      match r with
      | dot :: r' =>
          if Ascii.eqb dot "." then
            match directive_m r' with
            | (m, rest) :: _ => Some (d, m, rest)
            | [] => first_match ds'
            end
          else first_match ds'
      | [] => first_match ds'
      end
  end.

(** [datetime.datetime.strptime(s, '%d.%m')].  A match that leaves input
    over is the [ValueError] "unconverted data remains".  No year is
    given, so the date is built in 1900 (for 29.02 [_strptime] computes
    with 1904 and then puts 1900 back), and [datetime(1900, m, d)] raises
    when the day does not exist in that year. *)
Definition strptime_dm (s : string) : option datetime :=
  match first_match (directive_d (list_ascii_of_string s)) with
  | Some (d, m, []) => Calendar.new 1900 m d
  | _ => None
  end.

(** Lines 36-46 of [load_pl_file]: the date of a snapshot file. *)
Inductive failure : Type := MissingDateTag | InvalidDateTag.

Definition extract (current_year : Z) (file_name : string)
  : datetime + failure :=
  match search file_name with
  | None => inr MissingDateTag
  | Some date_str =>
      match strptime_dm date_str with
      | None => inr InvalidDateTag
      | Some dt =>
          match Calendar.replace_year dt current_year with
          | None => inr InvalidDateTag
          | Some date => inl date
          end
      end
  end.

End DateTag.

(** ** float64 arithmetic *)

Module Float.
Local Open Scope R_scope.

(** [calculo_diario = 1/252] (line 68). *)
Definition calculo_diario : R := 1 / 252.

(** [x ** y] of numpy for a positive exponent that is not a whole number,
    as [calculo_diario] is: a negative base gives NaN, zero gives zero. *)
Definition power (x y : R) : option R :=
  if Rlt_dec 0 x then Some (Rpower x y)
  else if Req_dec_T x 0 then Some 0
  else None.

(** [numpy.rint]: the nearest whole number, a tie going to the even one. *)
Definition rint (x : R) : R :=
  let n := Int_part x in
  let f := frac_part x in
  if Rlt_dec f (1 / 2) then IZR n
  else if Rlt_dec (1 / 2) f then IZR (n + 1)
  else if Z.even n then IZR n else IZR (n + 1).

(** The binary exponent of a float64 number: the whole part of the base-2
    logarithm, held at -1022 in the subnormal range. *)
Definition exponent (x : R) : Z :=
  Z.max (Int_part (ln (Rabs x) / ln 2)) (-1022).

(** The distance between the neighbouring float64 numbers around [x]; the
    significand has 53 bits. *)
Definition ulp (x : R) : R := powerRZ 2 (exponent x - 52).

(** The float64 number nearest to [x], a tie going to the one whose
    significand is even.  A result beyond the largest float64, which is
    [inf] in numpy, is not told apart. *)
Definition fl (x : R) : R := rint (x / ulp x) * ulp x.

(** A power of two, as a quotient of whole numbers. *)
Definition bpow (e : Z) : R :=
  if (0 <=? e)%Z then IZR (2 ^ e) else / IZR (2 ^ (- e)).

(** [x * y] and [x / y] on float64. *)
Definition mul (x y : R) : R := fl (x * y).
Definition div (x y : R) : R := fl (x / y).

(** [round(x, 2)] on a float64 column, which numpy computes as
    [rint(x * 100) / 100]. *)
Definition round2 (x : R) : R := div (rint (mul x 100)) 100.

(** Sum of a list of cells that skips the missing ones ([skipna=True],
    [min_count=0]). *)
Definition nansum (l : list (option R)) : R :=
  fold_right (fun c acc => match c with Some x => x + acc | None => acc end) 0 l.

End Float.

(** ** pandas: Series and DataFrame *)

Inductive Series : Type :=
| ObjectS (v : list (option string))
| FloatS (v : list (option R))
| DatetimeS (v : list (option datetime)).

Definition DataFrame : Type := list (string * Series).

Module Pandas.

Definition size (s : Series) : nat :=
  match s with
  | ObjectS v => length v
  | FloatS v => length v
  | DatetimeS v => length v
  end.

(** [len(df)]: the number of rows. *)
Definition len (df : DataFrame) : nat :=
  match df with
  | [] => 0%nat
  | (_, s) :: _ => size s
  end.

(** [df.empty]: one of the two axes has length 0. *)
Definition empty (df : DataFrame) : bool :=
  match df with
  | [] => true
  | _ => Nat.eqb (len df) 0
  end.

(** [df[label]]; [None] is the [KeyError]. *)
Fixpoint getitem (label : string) (df : DataFrame) : option Series :=
  match df with
  | [] => None
  | (l, s) :: df' => if String.eqb l label then Some s else getitem label df'
  end.

(** [df[label] = s]: replaces the column in place, or adds it last. *)
Fixpoint setitem (label : string) (s : Series) (df : DataFrame) : DataFrame :=
  match df with
  | [] => [(label, s)]
  | (l, s0) :: df' =>
      if String.eqb l label then (l, s) :: df'
      else (l, s0) :: setitem label s df'
  end.

(** [df[[l1; ...; ln]]]; [inr l] is the [KeyError] on label [l]. *)
Fixpoint select (labels : list string) (df : DataFrame) : DataFrame + string :=
  match labels with
  | [] => inl []
  | l :: ls =>
      match getitem l df with
      | None => inr l
      | Some s =>
          match select ls df with
          | inl r => inl ((l, s) :: r)
          | inr k => inr k
          end
      end
  end.

(** [df.rename(columns=mapping)]. *)
Definition rename (mapping : list (string * string)) (df : DataFrame) : DataFrame :=
  map (fun '(l, s) =>
         match find (fun '(old, _) => String.eqb old l) mapping with
         | Some (_, new) => (new, s)
         | None => (l, s)
         end) df.

Fixpoint mask_filter {A : Type} (mask : list bool) (v : list A) : list A :=
  match mask, v with
  | b :: mask', x :: v' => if b then x :: mask_filter mask' v' else mask_filter mask' v'
  | _, _ => []
  end.

(** [df[mask]] with a boolean column [mask]. *)
Definition series_mask (mask : list bool) (s : Series) : Series :=
  match s with
  | ObjectS v => ObjectS (mask_filter mask v)
  | FloatS v => FloatS (mask_filter mask v)
  | DatetimeS v => DatetimeS (mask_filter mask v)
  end.

Definition filter_rows (mask : list bool) (df : DataFrame) : DataFrame :=
  map (fun '(l, s) => (l, series_mask mask s)) df.

(** The positions a mask keeps: the index labels of [df[mask]] when [df]
    has the default index 0, 1, 2, ... *)
Fixpoint kept (i : nat) (mask : list bool) : list nat :=
  match mask with
  | [] => []
  | b :: mask' => if b then i :: kept (S i) mask' else kept (S i) mask'
  end.

(** [df.reset_index()] for a frame whose index labels are [labels]: the
    old index becomes the first column, named [index]. *)
Definition reset_index (labels : list nat) (df : DataFrame) : DataFrame :=
  ("index", FloatS (map (fun i => Some (INR i)) labels)) :: df.

(** A column of [n] missing values of the dtype of [like]. *)
Definition blank (like : Series) (n : nat) : Series :=
  match like with
  | ObjectS _ => ObjectS (repeat None n)
  | FloatS _ => FloatS (repeat None n)
  | DatetimeS _ => DatetimeS (repeat None n)
  end.

(** One column under another.  In this program the two always have the
    same dtype; a pair of different dtypes, which pandas widens to
    [object] with mixed cells, is not among the columns modelled and is
    answered with blanks under the first. *)
Definition under (a b : Series) : Series :=
  match a, b with
  | ObjectS u, ObjectS v => ObjectS (u ++ v)
  | FloatS u, FloatS v => FloatS (u ++ v)
  | DatetimeS u, DatetimeS v => DatetimeS (u ++ v)
  | _, _ =>
      match a with
      | ObjectS u => ObjectS (u ++ repeat None (size b))
      | FloatS u => FloatS (u ++ repeat None (size b))
      | DatetimeS u => DatetimeS (u ++ repeat None (size b))
      end
  end.

(** [pd.concat([a, b])]: the rows of [b] under the rows of [a]; the
    columns are those of [a] followed by those only [b] has, and a column
    one frame lacks is filled with missing values there. *)
Definition concat2 (a b : DataFrame) : DataFrame :=
  (map (fun '(l, s) =>
          match getitem l b with
          | Some t => (l, under s t)
          | None => (l, under s (blank s (len b)))
          end) a
   ++ flat_map (fun '(l, t) =>
                  match getitem l a with
                  | Some _ => []
                  | None => [(l, under (blank t (len a)) t)]
                  end) b)%list.

(** [s.isin(values)] on a text column. *)
Definition isin (values : list string) (v : list (option string)) : list bool :=
  map (fun c => match c with
                | Some x => existsb (String.eqb x) values
                | None => false
                end) v.

(** [df.select_dtypes(include=[np.number]).columns]. *)
Definition numeric_columns (df : DataFrame) : list (string * list (option R)) :=
  flat_map (fun '(l, s) => match s with FloatS v => [(l, v)] | _ => [] end) df.

End Pandas.

(** ** The session object and the effects of its methods *)

(** The attributes of [CalculandoTaxadeGestao] as [__init__] declares
    them. *)
Record CalculandoTaxadeGestao : Type := mk_self {
  planilha_controle : option DataFrame;
  pl_data : list DataFrame
}.

Definition init : CalculandoTaxadeGestao := mk_self None [].

Inductive exn : Type :=
| KeyError (label : string)
| ValueError
| TypeError
| ReadError.

(** What [st.error] shows, by the call that shows it. *)
Inductive Message : Type :=
| ReferenceLoadError (e : exn)                              (* line 30 *)
| DateTagError (f : DateTag.failure) (file_name : string)   (* lines 38, 45 *)
| SnapshotLoadError (file_name : string) (e : exn)          (* line 53 *)
| InsufficientInputError.                                   (* line 63 *)

Inductive outcome (A : Type) : Type :=
| Returned (a : A)
| Raised (e : exn).
Arguments Returned {A} a.
Arguments Raised {A} e.

Record World : Type := mk_world {
  self : CalculandoTaxadeGestao;
  shown : list Message
}.

Definition method (A : Type) : Type := World -> World * outcome A.

Module Py.

Definition ret {A} (a : A) : method A := fun w => (w, Returned a).

Definition raise {A} (e : exn) : method A := fun w => (w, Raised e).

Definition bind {A B} (c : method A) (k : A -> method B) : method B :=
  fun w =>
    match c w with
    | (w', Returned a) => k a w'
    | (w', Raised e) => (w', Raised e)
    end.

(** [try: body  except Exception as e: handler(e)]: what the body did to
    the session before it raised stays done. *)
Definition try_except {A} (body : method A) (handler : exn -> method A) : method A :=
  fun w =>
    match body w with
    | (w', Returned a) => (w', Returned a)
    | (w', Raised e) => handler e w'
    end.

Definition st_error (m : Message) : method unit :=
  fun w => (mk_world (self w) (shown w ++ [m]), Returned tt).

Definition get_planilha_controle : method (option DataFrame) :=
  fun w => (w, Returned (planilha_controle (self w))).

Definition set_planilha_controle (v : option DataFrame) : method unit :=
  fun w => (mk_world (mk_self v (pl_data (self w))) (shown w), Returned tt).

Definition get_pl_data : method (list DataFrame) :=
  fun w => (w, Returned (pl_data (self w))).

(** [self.pl_data.append(pl)]. *)
Definition pl_data_append (pl : DataFrame) : method unit :=
  fun w => (mk_world (mk_self (planilha_controle (self w)) (pl_data (self w) ++ [pl]))
                     (shown w), Returned tt).

(** An attribute that has to hold a frame for the next operation. *)
Definition frame (v : option DataFrame) : method DataFrame :=
  match v with
  | Some df => ret df
  | None => raise TypeError
  end.

(** [pd.read_excel(uploaded, ...)]: the sheet pandas reads from the
    upload, or [None] when it cannot (no such sheet, not a workbook). *)
Definition read_excel (uploaded : option DataFrame) : method DataFrame :=
  match uploaded with
  | Some df => ret df
  | None => raise ReadError
  end.

Definition getitem (label : string) (df : DataFrame) : method Series :=
  match Pandas.getitem label df with
  | Some s => ret s
  | None => raise (KeyError label)
  end.

Definition select (labels : list string) (df : DataFrame) : method DataFrame :=
  match Pandas.select labels df with
  | inl r => ret r
  | inr l => raise (KeyError l)
  end.

End Py.

Declare Scope py_scope.
Delimit Scope py_scope with py.
Notation "x <- c ;; k" := (Py.bind c (fun x => k))
  (at level 61, c at next level, right associativity) : py_scope.
Notation "c ;; k" := (Py.bind c (fun _ => k))
  (at level 61, right associativity) : py_scope.

(** ** ReferenceTableLoader *)

(** Lines 21-24. *)
Definition contas_3_zeros : list string :=
  [ "00989247"; "00938440"; "00626491"; "00806386";
    "00431814"; "00827730"; "00772433"; "00834301"; "00330949" ].

(** The account normaliser of line 18, [lambda x: '00' + x] after
    [.str[:-2]]. *)
Definition normalize (x : string) : string := "00" ++ PyStr.drop_last2 x.

Section ReferenceTableLoader.

(** Python's [str] of a float64. *)
Variable float_str : R -> string.

Definition iso_date (d : datetime) : string :=
  PyStr.two_digits (year d / 100) ++ PyStr.two_digits (year d mod 100)
  ++ "-" ++ PyStr.two_digits (month d) ++ "-" ++ PyStr.two_digits (day d).

(** [s.astype(str)]. *)
Definition astype_str (s : Series) : list string :=
  match s with
  | ObjectS v => map (fun c => match c with Some x => x | None => "nan" end) v
  | FloatS v => map (fun c => match c with Some x => float_str x | None => "nan" end) v
  | DatetimeS v => map (fun c => match c with Some d => iso_date d | None => "NaT" end) v
  end.

(** [s.apply(lambda x: '0' + x)]: a cell that is not text makes the
    lambda raise [TypeError]. *)
Fixpoint add_zero (v : list (option string)) : option (list (option string)) :=
  match v with
  | [] => Some []
  | Some x :: v' =>
      match add_zero v' with
      | Some r => Some (Some ("0" ++ x) :: r)
      | None => None
      end
  | None :: _ => None
  end.

Definition apply_add_zero (s : Series) : method Series :=
  match s with
  | ObjectS v =>
      match add_zero v with
      | Some r => Py.ret (ObjectS r)
      | None => Py.raise TypeError
      end
  | _ => Py.raise TypeError
  end.

Definition isin_contas (s : Series) : list bool :=
  match s with
  | ObjectS v => Pandas.isin contas_3_zeros v
  | _ => repeat false (Pandas.size s)
  end.

(** Lines 13-30. *)
Definition load_control_file (uploaded_planilha_de_controle : option DataFrame)
  : method unit :=
  (Py.try_except
     ( (* 16 *)
       df <- Py.read_excel uploaded_planilha_de_controle ;;
       Py.set_planilha_controle (Some df) ;;
       (* 18 *)
       pc <- Py.bind Py.get_planilha_controle Py.frame ;;
       conta <- Py.getitem "Conta" pc ;;
       Py.set_planilha_controle
         (Some (Pandas.setitem "Conta"
                  (ObjectS (map (fun x => Some (normalize x)) (astype_str conta))) pc)) ;;
       (* 19 *)
       pc <- Py.bind Py.get_planilha_controle Py.frame ;;
       pc <- Py.select ["Conta"; "Taxa de Gestão"] pc ;;
       Py.set_planilha_controle (Some pc) ;;
       (* 25 *)
       pc <- Py.bind Py.get_planilha_controle Py.frame ;;
       conta <- Py.getitem "Conta" pc ;;
       let mask := isin_contas conta in
       let contas_add_zero :=
         Pandas.reset_index (Pandas.kept 0 mask) (Pandas.filter_rows mask pc) in
       (* 26 *)
       conta0 <- Py.bind (Py.getitem "Conta" contas_add_zero) apply_add_zero ;;
       let contas_add_zero := Pandas.setitem "Conta" conta0 contas_add_zero in
       (* 27 *)
       Py.set_planilha_controle (Some (Pandas.concat2 pc contas_add_zero)) ;;
       (* 28 *)
       pc <- Py.bind Py.get_planilha_controle Py.frame ;;
       Py.set_planilha_controle
         (Some (Pandas.rename [("Taxa de Gestão", "Taxa_de_Gestão"); ("Conta", "conta")] pc)) )
     (fun e => Py.st_error (ReferenceLoadError e)))%py.

End ReferenceTableLoader.

(** ** SnapshotAccumulator *)

(** Lines 32-53; [today_year] is [datetime.date.today().year]. *)
Definition load_pl_file (today_year : Z) (uploaded_pl : option DataFrame)
  (file_name : string) : method unit :=
  (Py.try_except
     ( (* 36-46 *)
       match DateTag.extract today_year file_name with
       | inr f => Py.st_error (DateTagError f file_name)
       | inl date =>
           (* 48 *)
           pl <- Py.read_excel uploaded_pl ;;
           (* 49 *)
           pl <- Py.select ["Conta"; "Valor"] pl ;;
           let pl := Pandas.rename [("Conta", "conta"); ("Valor", "VALOR")] pl in
           (* 50 *)
           let pl := Pandas.setitem "Data"
                       (DatetimeS (repeat (Some date) (Pandas.len pl))) pl in
           (* 51 *)
           Py.pl_data_append pl
       end )
     (fun e => Py.st_error (SnapshotLoadError file_name e)))%py.

(** ** FeeEngine *)

(** The order of the row and column labels of a pivot table: Python's
    order on strings. *)
Module StringOrder <: TotalLeBool.
Definition t : Type := string.
Definition leb : t -> t -> bool := String.leb.
Definition leb_total : forall a b : t, leb a b = true \/ leb b a = true :=
  String.leb_total.
End StringOrder.

Module StringSort := Sort StringOrder.

(** A row of the frame [pd.merge] returns, cut to the four columns of
    line 72. *)
Module Merged.
Record row : Type := mk {
  conta : option string;
  Taxa_de_Gestao : option R;
  VALOR : option R;
  Data : option datetime
}.
End Merged.

(** A row of [tx_gestao] after line 79: [Data] is text by then. *)
Module Tx.
Record row : Type := mk {
  conta : option string;
  Taxa_de_Gestao : option R;
  VALOR : option R;
  Data : option string;
  Tx_Gestao_Diaria : option R;
  Valor_de_cobranca : option R
}.
End Tx.

Module Engine.
Local Open Scope R_scope.

Definition lift {A} (o : outcome A) : method A := fun w => (w, o).

(** The columns of the reference table the engine reads.  The merge key
    has to be text on both sides ([pd.merge] raises [ValueError] on keys
    of different kinds) and the rate a float64 column (text, or a date,
    plus 1 is a [TypeError]). *)
Definition control_rows (pc : DataFrame) : outcome (list (option string * option R)) :=
  match Pandas.getitem "conta" pc with
  | None => Raised (KeyError "conta")
  | Some (ObjectS k) =>
      match Pandas.getitem "Taxa_de_Gestão" pc with
      | None => Raised (KeyError "Taxa_de_Gestão")
      | Some (FloatS t) => Returned (combine k t)
      | Some _ => Raised TypeError
      end
  | Some _ => Raised ValueError
  end.

(** The rows of one accumulated snapshot frame; [load_pl_file] builds
    every frame of [pl_data] with the three columns [conta], [VALOR] and
    [Data], the last one of dates.  The accounts have to be text, as the
    merge key of the reference table is, and the values float64: on a value
    column of dtype object (text cells, or the empty column of a sheet
    without rows) lines 75-76 raise [TypeError]. *)
Definition snapshot_rows (pl : DataFrame)
  : outcome (list (option string * option R * option datetime)) :=
  match Pandas.getitem "conta" pl with
  | None => Raised (KeyError "conta")
  | Some (ObjectS k) =>
      match Pandas.getitem "VALOR" pl with
      | None => Raised (KeyError "VALOR")
      | Some (FloatS v) =>
          match Pandas.getitem "Data" pl with
          | None => Raised (KeyError "Data")
          | Some (DatetimeS d) => Returned (combine (combine k v) d)
          | Some _ => Raised TypeError
          end
      | Some _ => Raised TypeError
      end
  | Some _ => Raised ValueError
  end.

(** Line 67, [pd.concat(self.pl_data, ignore_index=True)]: the rows of
    the frames in the order of the list. *)
Fixpoint concat (frames : list DataFrame)
  : outcome (list (option string * option R * option datetime)) :=
  match frames with
  | [] => Returned []
  | pl :: frames' =>
      match snapshot_rows pl with
      | Raised e => Raised e
      | Returned rows =>
          match concat frames' with
          | Raised e => Raised e
          | Returned rest => Returned (rows ++ rest)%list
          end
      end
  end.

(** Merge keys match when they are the same text; pandas also matches a
    missing key with a missing key. *)
Definition key_eqb (a b : option string) : bool :=
  match a, b with
  | Some x, Some y => String.eqb x y
  | None, None => true
  | _, _ => false
  end.

(** Line 71, [pd.merge(left, right, on='conta', how='outer')]: every pair
    of rows with matching keys, then the left rows without a partner and
    the right rows without a partner, the other side's columns missing.
    pandas orders the result by key; the order does not reach the report,
    which groups the rows again and adds real numbers, so the rows are
    left in the order of the two frames. *)
Definition merge_outer
  (left : list (option string * option R))
  (right : list (option string * option R * option datetime))
  : list Merged.row :=
  (flat_map (fun '(k, t) =>
               match filter (fun '(k', _, _) => key_eqb k k') right with
               | [] => [Merged.mk k t None None]
               | ms => map (fun '(_, v, d) => Merged.mk k t v d) ms
               end) left
   ++ flat_map (fun '(k, v, d) =>
                  if existsb (fun '(k', _) => key_eqb k' k) left then []
                  else [Merged.mk k None v d]) right)%list.

(** [.dropna(subset=['conta'])]. *)
Definition dropna_conta (rows : list Merged.row) : list Merged.row :=
  filter (fun r => match Merged.conta r with Some _ => true | None => false end) rows.

(** Line 75 on one cell. *)
Definition Tx_Gestao_Diaria (Taxa_de_Gestao : option R) : option R :=
  match Taxa_de_Gestao with
  | Some t =>
      match Float.power (t + 1) Float.calculo_diario with
      | Some p => Some ((p - 1) * 100)
      | None => None
      end
  | None => None
  end.

(** Line 76 on one row. *)
Definition Valor_de_cobranca (VALOR Tx_Gestao_Diaria : option R) : option R :=
  match VALOR, Tx_Gestao_Diaria with
  | Some v, Some d => Some (Float.round2 (Float.div (Float.mul v d) 100))
  | _, _ => None
  end.

(** Lines 75-79 on one row. *)
Definition fee_row (r : Merged.row) : Tx.row :=
  let diaria := Tx_Gestao_Diaria (Merged.Taxa_de_Gestao r) in
  Tx.mk (Merged.conta r) (Merged.Taxa_de_Gestao r) (Merged.VALOR r)
        (option_map Calendar.strftime_dm (Merged.Data r))
        diaria
        (Valor_de_cobranca (Merged.VALOR r) diaria).

(** Lines 66-79: the frame [tx_gestao], a typed row per row. *)
Definition tx_gestao (pc : DataFrame) (pls : list DataFrame) : outcome (list Tx.row) :=
  match concat pls with
  | Raised e => Raised e
  | Returned pl_combined =>
      match control_rows pc with
      | Raised e => Raised e
      | Returned reference =>
          Returned (map fee_row (dropna_conta (merge_outer reference pl_combined)))
      end
  end.

(** The rows [pivot_table] groups: [groupby] leaves out a row whose key
    ([conta] or [Data]) is missing. *)
Definition keyed (tx : list Tx.row) : list (string * string * option R) :=
  flat_map (fun r =>
              match Tx.conta r, Tx.Data r with
              | Some c, Some d => [(c, d, Tx.Valor_de_cobranca r)]
              | _, _ => []
              end) tx.

Definition labels (l : list string) : list string :=
  StringSort.sort (nodup string_dec l).

(** [aggfunc='sum'] on the group of an account and a date: the sum skips
    missing fees; a pair without a group is a missing cell. *)
Definition cell (groups : list (string * string * option R)) (c d : string) : option R :=
  match filter (fun '(c', d', _) => String.eqb c' c && String.eqb d' d) groups with
  | [] => None
  | g => Some (Float.nansum (map snd g))
  end.

(** Lines 82-87, [pivot_table(values='Valor_de_cobrança', index='conta',
    columns='Data', aggfunc='sum').reset_index()].  With real numbers a
    group's sum is never missing, so the two [dropna(how='all')] passes
    inside [pivot_table] drop nothing. *)
Definition pivot_table (tx : list Tx.row) : DataFrame :=
  let groups := keyed tx in
  let index := labels (map (fun g => fst (fst g)) groups) in
  let columns := labels (map (fun g => snd (fst g)) groups) in
  ("conta", ObjectS (map Some index))
    :: map (fun d => (d, FloatS (map (fun c => cell groups c d) index))) columns.

(** [df[cols].sum(axis=1)] for a frame of [n] rows. *)
Definition sum_axis1 (n : nat) (cols : list (list (option R))) : list R :=
  map (fun i => Float.nansum (map (fun col => nth i col None) cols)) (seq 0 n).

(** Lines 89-91. *)
Definition with_total (pivot_table : DataFrame) : DataFrame :=
  let numeric_columns := Pandas.numeric_columns pivot_table in
  Pandas.setitem "Total"
    (FloatS (map (fun x => Some (Float.round2 x))
               (sum_axis1 (Pandas.len pivot_table) (map snd numeric_columns))))
    pivot_table.

(** The guard of lines 57-62; the attribute only ever holds [None] or a
    [DataFrame], so the [isinstance] test adds nothing. *)
Definition not_loaded (me : CalculandoTaxadeGestao) : bool :=
  match planilha_controle me with
  | None => true
  | Some pc => Pandas.empty pc || Nat.eqb (length (pl_data me)) 0
  end.

End Engine.

(** Lines 55-93. *)
Definition calculate_daily_fees : method (option DataFrame) :=
  (fun w =>
     (if Engine.not_loaded (self w) then
        (Py.st_error InsufficientInputError ;; Py.ret None)
      else
        (pc <- Py.bind Py.get_planilha_controle Py.frame ;;
         pls <- Py.get_pl_data ;;
         tx_gestao <- Engine.lift (Engine.tx_gestao pc pls) ;;
         let pivot_table := Engine.pivot_table tx_gestao in
         Py.ret (Some (Engine.with_total pivot_table)))) w)%py.

(** * Vocabulary of the properties *)

(** A name contains a tag when the tag is one of its substrings. *)
Definition contains (tag name : string) : Prop :=
  exists pre post, name = pre ++ tag ++ post.

(** What a method does to the session does not depend on the messages
    already shown, and it only adds messages. *)
Definition frames_log {A} (m : method A) : Prop :=
  forall w,
    m w = (mk_world (self (fst (m (mk_world (self w) []))))
                    (shown w ++ shown (fst (m (mk_world (self w) [])))),
           snd (m (mk_world (self w) []))).

(** A method that leaves the accumulator alone. *)
Definition keeps_pl_data {A} (m : method A) : Prop :=
  forall w, pl_data (self (fst (m w))) = pl_data (self w).

(** Membership in the override list. *)
Definition in_override (n : string) : bool :=
  existsb (String.eqb n) contas_3_zeros.

(** The rows the override rule gives one account of the sheet, in the
    words of the specification: the normalised identifier with its rate,
    and for an identifier of the override set a second row with one more
    leading zero. *)
Definition reference_rows_of (r : string * option R)
  : list (option string * option R) :=
  let (n, t) := r in
  if in_override n then [(Some n, t); (Some ("0" ++ n), t)] else [(Some n, t)].

(** The table a readable sheet with both columns is loaded into; [raw] is
    the account column as text. *)
Definition loaded_table (raw : list string) (taxa : Series) : DataFrame :=
  let mask := map (fun x => in_override (normalize x)) raw in
  let padded := map (fun x => Some ("0" ++ normalize x)) (Pandas.mask_filter mask raw) in
  [("conta", ObjectS (map (fun x => Some (normalize x)) raw ++ padded)%list);
   ("Taxa_de_Gestão", Pandas.under taxa (Pandas.series_mask mask taxa));
   ("index",
     FloatS (repeat None (length (map (fun x => Some (normalize x)) raw))
             ++ map (fun i => Some (INR i)) (Pandas.kept 0 mask))%list)].

(** The date columns of a report: every column but [conta] and [Total]. *)
Definition date_columns (report : DataFrame) : DataFrame :=
  filter (fun c => negb (String.eqb (fst c) "conta") && negb (String.eqb (fst c) "Total"))
         report.

(** The cell of a float64 column in row [i]. *)
Definition cell_at (i : nat) (s : Series) : option R :=
  match s with
  | FloatS v => nth i v None
  | _ => None
  end.

Definition null_as_zero (c : option R) : R :=
  match c with
  | Some x => x
  | None => 0%R
  end.

(** The account identifiers, missing ones apart, of the accumulated
    snapshot rows. *)
Definition snapshot_accounts (me : CalculandoTaxadeGestao) : list string :=
  match Engine.concat (pl_data me) with
  | Returned rows =>
      flat_map (fun r => match fst (fst r) with Some c => [c] | None => [] end) rows
  | Raised _ => []
  end.

(** The account identifiers of the reference table. *)
Definition reference_accounts (me : CalculandoTaxadeGestao) : list string :=
  match planilha_controle me with
  | Some pc =>
      match Engine.control_rows pc with
      | Returned rows =>
          flat_map (fun r => match fst r with Some c => [c] | None => [] end) rows
      | Raised _ => []
      end
  | None => []
  end.

(** How often an identifier appears in the index column of a report. *)
Definition occurrences (id : string) (index : list (option string)) : nat :=
  length (filter (fun c => match c with Some x => String.eqb x id | None => false end)
                 index).

(** A snapshot frame as [load_pl_file] leaves it: every row carries the
    date of its file. *)
Definition dated (pl : DataFrame) : Prop :=
  exists date n, Pandas.getitem "Data" pl = Some (DatetimeS (repeat (Some date) n)).

(** The sessions a run of the application goes through. *)
Inductive reachable : World -> Prop :=
| reach_init : reachable (mk_world init [])
| reach_control float_str up w :
    reachable w -> reachable (fst (load_control_file float_str up w))
| reach_pl y up name w :
    reachable w -> reachable (fst (load_pl_file y up name w))
| reach_calculate w :
    reachable w -> reachable (fst (calculate_daily_fees w)).

(** Sheets and sessions used as concrete inputs.  The sheets hold their
    account numbers as text, so no float is ever rendered. *)
Module Sample.
Local Open Scope R_scope.

Definition text_only : R -> string := fun _ => EmptyString.

Definition control_sheet : DataFrame :=
  [("Cliente", ObjectS [Some "A"; Some "B"]);
   ("Conta", ObjectS [Some "989247.0"; Some "555555.0"]);
   ("Taxa de Gestão", FloatS [Some (2 / 100); Some (1 / 100)])].

Definition sheet_without_conta : DataFrame :=
  [("Cliente", ObjectS [Some "A"]); ("Taxa de Gestão", FloatS [Some (2 / 100)])].

Definition one_snapshot : DataFrame :=
  [("Conta", ObjectS [Some "00123"]); ("Valor", FloatS [Some 100000])].

Definition two_snapshots : DataFrame :=
  [("Conta", ObjectS [Some "00989247"; Some "00777777"]);
   ("Valor", FloatS [Some 100000; Some 5])].

(** A sheet with its header row and nothing under it: pandas reads empty
    columns of dtype object. *)
Definition header_only : DataFrame :=
  [("Conta", ObjectS []); ("Valor", ObjectS [])].

(** The same sheet, had its value column come out as float64. *)
Definition header_only_float : DataFrame :=
  [("Conta", ObjectS []); ("Valor", FloatS [])].

Definition fresh : World := mk_world init [].

(** The session after the control sheet. *)
Definition with_control : World :=
  fst (load_control_file text_only (Some control_sheet) fresh).

(** The session after the control sheet and one snapshot file. *)
Definition loaded : World :=
  fst (load_pl_file 2025 (Some two_snapshots) "PL Total - 01.03.xlsx" with_control).

(** The session after the control sheet and a snapshot file without
    rows. *)
Definition loaded_header_only : World :=
  fst (load_pl_file 2025 (Some header_only) "PL Total - 01.03.xlsx" with_control).

Definition loaded_header_only_float : World :=
  fst (load_pl_file 2025 (Some header_only_float) "PL Total - 01.03.xlsx" with_control).

(** The end-to-end scenario of the specification: one account with the
    annual rate 0.02 and one snapshot of 100000 on 01.03. *)
Definition end_to_end : World :=
  fst (load_pl_file 2025 (Some one_snapshot) "PL Total - 01.03.xlsx"
         (fst (load_control_file text_only
                 (Some [("Conta", ObjectS [Some "123.0"]);
                        ("Taxa de Gestão", FloatS [Some (2 / 100)])])
                 fresh))).

Definition reference : DataFrame :=
  [("conta", ObjectS [Some "00989247"; Some "00555555"; Some "000989247"]);
   ("Taxa_de_Gestão", FloatS [Some (2 / 100); Some (1 / 100); Some (2 / 100)]);
   ("index", FloatS [None; None; Some (INR 0)])].

Definition snapshots : list DataFrame :=
  [[("conta", ObjectS [Some "00989247"; Some "00777777"]);
    ("VALOR", FloatS [Some 100000; Some 5]);
    ("Data", DatetimeS [Some (mk_dt 2025 3 1); Some (mk_dt 2025 3 1)])]].

(** The joined row of account 00989247. *)
Definition row : Tx.row :=
  Engine.fee_row
    (Merged.mk (Some "00989247") (Some (2 / 100)) (Some 100000) (Some (mk_dt 2025 3 1))).

(** The joined frame of [loaded]. *)
Definition joined : list Tx.row :=
  [ row;
    Engine.fee_row (Merged.mk (Some "00555555") (Some (1 / 100)) None None);
    Engine.fee_row (Merged.mk (Some "000989247") (Some (2 / 100)) None None);
    Engine.fee_row (Merged.mk (Some "00777777") None (Some 5) (Some (mk_dt 2025 3 1))) ].

Definition report : DataFrame := Engine.with_total (Engine.pivot_table joined).

End Sample.

(** * Vocabulary of the further properties *)

(** The bytes of one decimal digit, as the pattern [\d] takes them. *)
Definition is_digit_char (bytes : list ascii) : Prop :=
  exists v, PyStr.digit bytes = Some (v, bytes, []).

(** A date tag: two digits, a dot, two digits. *)
Definition is_tag (g : string) : Prop :=
  exists d1 d2 m1 m2,
    g = string_of_list_ascii (d1 ++ d2 ++ "."%char :: m1 ++ m2)%list
    /\ is_digit_char d1 /\ is_digit_char d2
    /\ is_digit_char m1 /\ is_digit_char m2.

(** A file name has a date tag when the pattern of line 36 matches
    somewhere in it. *)
Definition has_tag (name : string) : Prop :=
  exists pre g post, is_tag g /\ name = pre ++ "PL Total - " ++ g ++ post.

(** The text [DD.MM] written with four one-byte characters. *)
Definition tag_of (d1 d2 m1 m2 : ascii) : string :=
  String d1 (String d2 (String "." (String m1 (String m2 EmptyString)))).

(** The number a pair of ASCII digits writes. *)
Definition two_digit_val (a b : ascii) : Z := 10 * PyStr.digit_val a + PyStr.digit_val b.

(** The ASCII digits. *)
Definition digits : list ascii :=
  ["0"; "1"; "2"; "3"; "4"; "5"; "6"; "7"; "8"; "9"]%char.

Definition datetime_eqb (a b : datetime) : bool :=
  (year a =? year b) && (month a =? month b) && (day a =? day b).

Definition option_datetime_eqb (a b : option datetime) : bool :=
  match a, b with
  | Some x, Some y => datetime_eqb x y
  | None, None => true
  | _, _ => false
  end.

(** The check, on one tag of ASCII digits, that [strptime] accepts it
    exactly as the calendar of 1900 does, and that an accepted day and
    month are written back as the tag. *)
Definition tag_checked (d1 d2 m1 m2 : ascii) : bool :=
  let d := two_digit_val d1 d2 in
  let m := two_digit_val m1 m2 in
  option_datetime_eqb (DateTag.strptime_dm (tag_of d1 d2 m1 m2)) (Calendar.new 1900 m d)
  && String.eqb (Calendar.strftime_dm (mk_dt 1900 m d)) (tag_of d1 d2 m1 m2).

(** A check on every four elements of a list. *)
Definition forall4b {A : Type} (P : A -> A -> A -> A -> bool) (l : list A) : bool :=
  forallb (fun a => forallb (fun b => forallb (fun c => forallb (fun d =>
    P a b c d) l) l) l) l.

(** The bytes of one character. *)
Definition is_char (c : string) : Prop :=
  exists cp,
    PyStr.decode (list_ascii_of_string c) = Some (cp, list_ascii_of_string c, []).

(** An upload the reference loader can use: a readable workbook whose
    sheet has the two columns lines 18 and 19 ask for. *)
Definition has_columns (uploaded : option DataFrame) : Prop :=
  exists sheet conta taxa,
    uploaded = Some sheet
    /\ Pandas.getitem "Conta" sheet = Some conta
    /\ Pandas.getitem "Taxa de Gestão" sheet = Some taxa.

(** A snapshot date whose label is [d]. *)
Definition label_is (d : string) (dt : option datetime) : bool :=
  match dt with
  | Some x => String.eqb (Calendar.strftime_dm x) d
  | None => false
  end.

(** The rates of the reference rows of account [c]. *)
Definition rates_of (c : string) (reference : list (option string * option R))
  : list (option R) :=
  flat_map (fun '(k, t) => if Engine.key_eqb k (Some c) then [t] else []) reference.

(** The values of the snapshot rows of account [c] whose date is labelled
    [d]. *)
Definition values_of (c d : string)
  (pl_combined : list (option string * option R * option datetime)) : list (option R) :=
  flat_map (fun '(k, v, dt) =>
              if Engine.key_eqb k (Some c) && label_is d dt then [v] else [])
           pl_combined.

(** The fee amounts of account [c] on the date labelled [d]: one for every
    rate of the account and every value of the account on that date. *)
Definition fee_pairs (c d : string)
  (reference : list (option string * option R))
  (pl_combined : list (option string * option R * option datetime)) : list (option R) :=
  flat_map (fun t => map (fun v => Engine.Valor_de_cobranca v (Engine.Tx_Gestao_Diaria t))
                         (values_of c d pl_combined))
           (rates_of c reference).

(** What the report is to show for account [c] under date [d]: nothing
    when the account has no snapshot row on that date, and otherwise the
    sum of its fee amounts, a missing amount counting as zero. *)
Definition pivot_value (c d : string)
  (reference : list (option string * option R))
  (pl_combined : list (option string * option R * option datetime)) : option R :=
  match values_of c d pl_combined with
  | [] => None
  | _ => Some (fold_right Rplus 0%R (map null_as_zero (fee_pairs c d reference pl_combined)))
  end.

(** What a merged row puts into the group of account [c] and date [d]. *)
Definition contribution (c d : string) (m : Merged.row) : list (option R) :=
  match Merged.conta m, Merged.Data m with
  | Some c', Some x =>
      if String.eqb c' c && String.eqb (Calendar.strftime_dm x) d
      then [Engine.Valor_de_cobranca (Merged.VALOR m)
              (Engine.Tx_Gestao_Diaria (Merged.Taxa_de_Gestao m))]
      else []
  | _, _ => []
  end.

(** The columns the engine can compute with: a reference table whose
    accounts are text and whose rates are float64. *)
Definition typed_reference (pc : DataFrame) : Prop :=
  exists k t,
    Pandas.getitem "conta" pc = Some (ObjectS k)
    /\ Pandas.getitem "Taxa_de_Gestão" pc = Some (FloatS t).

(** A snapshot frame whose accounts are text, whose values are float64 and
    whose dates are dates. *)
Definition typed_snapshot (pl : DataFrame) : Prop :=
  exists k v d,
    Pandas.getitem "conta" pl = Some (ObjectS k)
    /\ Pandas.getitem "VALOR" pl = Some (FloatS v)
    /\ Pandas.getitem "Data" pl = Some (DatetimeS d).

(** A snapshot upload the accumulator accepts and the engine can compute
    with: a valid tag in the name, accounts as text, values as float64. *)
Definition good_file (today_year : Z) (file : option DataFrame * string) : Prop :=
  exists date sheet k v,
    DateTag.extract today_year (snd file) = inl date
    /\ fst file = Some sheet
    /\ Pandas.getitem "Conta" sheet = Some (ObjectS k)
    /\ Pandas.getitem "Valor" sheet = Some (FloatS v).

(** The loop of lines 115-116: every uploaded file goes through
    [load_pl_file], in the order of the list. *)
Fixpoint load_pl_files (today_year : Z) (uploaded_pls : list (option DataFrame * string))
  : method unit :=
  match uploaded_pls with
  | [] => Py.ret tt
  | (pl_file, name) :: rest =>
      Py.bind (load_pl_file today_year pl_file name)
              (fun _ => load_pl_files today_year rest)
  end.

(** What one uploaded file leaves in a fresh session: the frame it is
    accumulated as when it is accepted, the message shown when it is
    not. *)
Definition alone (today_year : Z) (file : option DataFrame * string) : World :=
  fst (load_pl_file today_year (fst file) (snd file) (mk_world init [])).

(** * Properties *)

(** Unfolds the plumbing of a method down to matches on what it reads. *)
Ltac py_unfold :=
  unfold Py.try_except, Py.bind, Py.read_excel, Py.select, Py.getitem,
    Py.frame, Py.get_planilha_controle, Py.set_planilha_controle,
    Py.get_pl_data, Py.pl_data_append, Py.st_error, Py.ret, Py.raise,
    Engine.lift.

(** ** Date tags *)

Example extract_31_07 :
  DateTag.extract 2025 "PL Total - 31.07.xlsx" = inl (mk_dt 2025 7 31).
Proof. reflexivity. Qed.

Example strptime_single_digits :
  DateTag.strptime_dm "1.7" = Some (mk_dt 1900 7 1).
Proof. reflexivity. Qed.

Example strptime_month_13 : DateTag.strptime_dm "12.13" = None.
Proof. reflexivity. Qed.

Example strptime_day_00 : DateTag.strptime_dm "00.07" = None.
Proof. reflexivity. Qed.

Example strftime_1_march : Calendar.strftime_dm (mk_dt 2025 3 1) = "01.03".
Proof. reflexivity. Qed.

Lemma strptime_29_02 : DateTag.strptime_dm "29.02" = None.
Proof. reflexivity. Qed.

(** A digit of the tag need not be ASCII: the Arabic-Indic two makes
    "1٢.03" a tag, which [strptime] reads as 12 March. *)
Example extract_arabic_indic_digit :
  DateTag.search "PL Total - 1٢.03 PL Total - 29.02.xlsx" = Some "1٢.03"
  /\ DateTag.extract 2024 "PL Total - 1٢.03 PL Total - 29.02.xlsx"
     = inl (mk_dt 2024 3 12).
Proof. split; reflexivity. Qed.

(** [strptime] takes such a digit only after a day's leading 1 or 2: the
    tags "٢9.02", "12.0٣" and "٣١.07" are found and refused, and so is
    "2٩.02", which reads as 29 February. *)
Example strptime_other_digits :
  DateTag.extract 2024 "PL Total - ٢9.02.xlsx" = inr DateTag.InvalidDateTag
  /\ DateTag.extract 2024 "PL Total - 12.0٣.xlsx" = inr DateTag.InvalidDateTag
  /\ DateTag.extract 2024 "PL Total - ٣١.07.xlsx" = inr DateTag.InvalidDateTag
  /\ DateTag.extract 2024 "PL Total - 2٩.02.xlsx" = inr DateTag.InvalidDateTag.
Proof. repeat split; reflexivity. Qed.

(** [s[:-2]] counts characters, not bytes. *)
Example drop_last2_characters :
  PyStr.drop_last2 "989247.0" = "989247" /\ PyStr.drop_last2 "açã" = "a"
  /\ PyStr.drop_last2 "ab" = "" /\ PyStr.drop_last2 "a" = "".
Proof. repeat split; reflexivity. Qed.

(** A name that begins with the tag has it as its leftmost match, whatever
    follows. *)
Lemma search_head_29_02 (rest : string) :
  DateTag.search ("PL Total - 29.02" ++ rest) = Some "29.02".
Proof. destruct rest; reflexivity. Qed.

Lemma extract_31_07_any_year (y : Z) :
  1 <= y <= 9999 ->
  DateTag.extract y "PL Total - 31.07.xlsx" = inl (mk_dt y 7 31).
Proof.
  intros Hy. unfold DateTag.extract.
  change (DateTag.search "PL Total - 31.07.xlsx") with (Some "31.07").
  change (DateTag.strptime_dm "31.07") with (Some (mk_dt 1900 7 31)).
  unfold Calendar.replace_year, Calendar.new; simpl.
  replace (1 <=? y) with true by (symmetry; apply Z.leb_le; lia).
  replace (y <=? 9999) with true by (symmetry; apply Z.leb_le; lia).
  reflexivity.
Qed.

Lemma load_pl_file_frames_log y up name : frames_log (load_pl_file y up name).
Proof.
  intros [me log]. unfold load_pl_file. py_unfold.
  destruct (DateTag.extract y name) as [date|f]; [|reflexivity].
  destruct up as [df|]; [|reflexivity].
  destruct (Pandas.select ["Conta"; "Valor"] df) as [r|l]; [|reflexivity].
  cbn [fst snd self shown pl_data planilha_controle].
  rewrite app_nil_r. reflexivity.
Qed.

Lemma load_pl_file_rejects y up name f w :
  DateTag.extract y name = inr f ->
  load_pl_file y up name w
  = (mk_world (self w) (shown w ++ [DateTagError f name]), Returned tt).
Proof.
  intros H. unfold load_pl_file, Py.try_except. rewrite H. reflexivity.
Qed.

Lemma load_pl_file_after_reject y up name f w next file :
  DateTag.extract y name = inr f ->
  self (fst (load_pl_file y next file (fst (load_pl_file y up name w))))
  = self (fst (load_pl_file y next file w)).
Proof.
  intros H. rewrite (load_pl_file_rejects y up name f w H). simpl.
  rewrite (load_pl_file_frames_log y next file w).
  rewrite (load_pl_file_frames_log y next file (mk_world _ _)).
  reflexivity.
Qed.

(** C6. Date extraction from a file name: "PL Total - 31.07.xlsx" gives
    day 31, month 7 and the current year; "PL Total - 31.02.xlsx" fails with
    InvalidDateTag and "report.xlsx" with MissingDateTag; in both failure
    cases the file is skipped (the session, and so the accumulator, is as
    before, one message is shown, no exception leaves the method) and a
    file processed next is handled as if the skipped one had not been
    there. *)
Theorem C6_date_extraction (current_year : Z) (uploaded : option DataFrame) (w : World) :
  1 <= current_year <= 9999 ->
  DateTag.extract current_year "PL Total - 31.07.xlsx"
  = inl (mk_dt current_year 7 31)
  /\ load_pl_file current_year uploaded "PL Total - 31.02.xlsx" w
     = (mk_world (self w)
          (shown w ++ [DateTagError DateTag.InvalidDateTag "PL Total - 31.02.xlsx"]),
        Returned tt)
  /\ load_pl_file current_year uploaded "report.xlsx" w
     = (mk_world (self w)
          (shown w ++ [DateTagError DateTag.MissingDateTag "report.xlsx"]),
        Returned tt)
  /\ (forall next file,
        self (fst (load_pl_file current_year next file
                     (fst (load_pl_file current_year uploaded "PL Total - 31.02.xlsx" w))))
        = self (fst (load_pl_file current_year next file w))
        /\ self (fst (load_pl_file current_year next file
                        (fst (load_pl_file current_year uploaded "report.xlsx" w))))
           = self (fst (load_pl_file current_year next file w))).
Proof.
  intros Hy.
  assert (H1 : DateTag.extract current_year "PL Total - 31.02.xlsx"
               = inr DateTag.InvalidDateTag) by reflexivity.
  assert (H2 : DateTag.extract current_year "report.xlsx"
               = inr DateTag.MissingDateTag) by reflexivity.
  split; [apply extract_31_07_any_year; exact Hy|].
  split; [apply load_pl_file_rejects; exact H1|].
  split; [apply load_pl_file_rejects; exact H2|].
  intros next file. split.
  - apply load_pl_file_after_reject with (f := DateTag.InvalidDateTag); exact H1.
  - apply load_pl_file_after_reject with (f := DateTag.MissingDateTag); exact H2.
Qed.

Lemma C6_date_extraction_witness :
  DateTag.extract 2025 "PL Total - 31.07.xlsx" = inl (mk_dt 2025 7 31)
  /\ load_pl_file 2025 (Some Sample.one_snapshot) "PL Total - 31.02.xlsx" Sample.fresh
     = (mk_world init [DateTagError DateTag.InvalidDateTag "PL Total - 31.02.xlsx"],
        Returned tt)
  /\ load_pl_file 2025 (Some Sample.one_snapshot) "report.xlsx" Sample.fresh
     = (mk_world init [DateTagError DateTag.MissingDateTag "report.xlsx"],
        Returned tt)
  /\ (forall next file,
        self (fst (load_pl_file 2025 next file
                     (fst (load_pl_file 2025 (Some Sample.one_snapshot)
                             "PL Total - 31.02.xlsx" Sample.fresh))))
        = self (fst (load_pl_file 2025 next file Sample.fresh))
        /\ self (fst (load_pl_file 2025 next file
                        (fst (load_pl_file 2025 (Some Sample.one_snapshot)
                                "report.xlsx" Sample.fresh))))
           = self (fst (load_pl_file 2025 next file Sample.fresh))).
Proof.
  apply (C6_date_extraction 2025 (Some Sample.one_snapshot) Sample.fresh). lia.
Defined.

(** C10, as amended. For every current year, leap years included, a
    snapshot file name whose leftmost date tag is "PL Total - 29.02" is
    rejected as an invalid date and nothing is appended to the accumulator:
    the day and month are checked in the year 1900, before the current year
    is put in. *)
Theorem C10_feb_29_rejected (current_year : Z) (uploaded : option DataFrame)
  (file_name : string) (w : World) :
  DateTag.search file_name = Some "29.02" ->
  load_pl_file current_year uploaded file_name w
  = (mk_world (self w)
       (shown w ++ [DateTagError DateTag.InvalidDateTag file_name]),
     Returned tt).
Proof.
  intros H. apply load_pl_file_rejects.
  unfold DateTag.extract. rewrite H, strptime_29_02. reflexivity.
Qed.

Lemma C10_feb_29_rejected_witness :
  load_pl_file 2024 (Some Sample.one_snapshot) "PL Total - 29.02.xlsx" Sample.fresh
  = (mk_world init [DateTagError DateTag.InvalidDateTag "PL Total - 29.02.xlsx"],
     Returned tt).
Proof.
  exact (C10_feb_29_rejected 2024 (Some Sample.one_snapshot)
           "PL Total - 29.02.xlsx" Sample.fresh eq_refl).
Defined.

(** The claim as stated fails on a name with two tags: the search takes the
    first one, and in the leap year 2024 the file is accepted with the date
    01.03. *)
Lemma C10_counterexample :
  contains "PL Total - 29.02" "PL Total - 01.03 PL Total - 29.02.xlsx"
  /\ load_pl_file 2024 (Some Sample.one_snapshot)
       "PL Total - 01.03 PL Total - 29.02.xlsx" Sample.fresh
     = (mk_world
          (mk_self None
             [[("conta", ObjectS [Some "00123"]);
               ("VALOR", FloatS [Some 100000%R]);
               ("Data", DatetimeS [Some (mk_dt 2024 3 1)])]])
          [],
        Returned tt).
Proof.
  split.
  - exists "PL Total - 01.03 ", ".xlsx". reflexivity.
  - reflexivity.
Qed.

(** ** Methods that leave the accumulator alone *)

Lemma keeps_ret {A} (a : A) : keeps_pl_data (Py.ret a).
Proof. intros w. reflexivity. Qed.

Lemma keeps_raise {A} (e : exn) : keeps_pl_data (@Py.raise A e).
Proof. intros w. reflexivity. Qed.

Lemma keeps_bind {A B} (c : method A) (k : A -> method B) :
  keeps_pl_data c -> (forall a, keeps_pl_data (k a)) -> keeps_pl_data (Py.bind c k).
Proof.
  intros Hc Hk w. unfold Py.bind. specialize (Hc w).
  destruct (c w) as [w1 [a|e]]; cbn [fst] in *.
  - rewrite (Hk a w1). exact Hc.
  - exact Hc.
Qed.

Lemma keeps_try_except {A} (body : method A) (handler : exn -> method A) :
  keeps_pl_data body -> (forall e, keeps_pl_data (handler e)) ->
  keeps_pl_data (Py.try_except body handler).
Proof.
  intros Hb Hh w. unfold Py.try_except. specialize (Hb w).
  destruct (body w) as [w1 [a|e]]; cbn [fst] in *.
  - exact Hb.
  - rewrite (Hh e w1). exact Hb.
Qed.

Lemma keeps_st_error (m : Message) : keeps_pl_data (Py.st_error m).
Proof. intros w. reflexivity. Qed.

Lemma keeps_get_planilha_controle : keeps_pl_data Py.get_planilha_controle.
Proof. intros w. reflexivity. Qed.

Lemma keeps_set_planilha_controle v : keeps_pl_data (Py.set_planilha_controle v).
Proof. intros w. reflexivity. Qed.

Lemma keeps_frame v : keeps_pl_data (Py.frame v).
Proof. destruct v; intros w; reflexivity. Qed.

Lemma keeps_read_excel up : keeps_pl_data (Py.read_excel up).
Proof. destruct up; intros w; reflexivity. Qed.

Lemma keeps_getitem l df : keeps_pl_data (Py.getitem l df).
Proof. unfold Py.getitem. destruct (Pandas.getitem l df); intros w; reflexivity. Qed.

Lemma keeps_select ls df : keeps_pl_data (Py.select ls df).
Proof. unfold Py.select. destruct (Pandas.select ls df); intros w; reflexivity. Qed.

Lemma keeps_apply_add_zero s : keeps_pl_data (apply_add_zero s).
Proof.
  unfold apply_add_zero. destruct s as [v| |]; try (intros w; reflexivity).
  destruct (add_zero v); intros w; reflexivity.
Qed.

Ltac keeps_step :=
  first [ apply keeps_try_except | apply keeps_bind | apply keeps_ret
        | apply keeps_raise | apply keeps_st_error
        | apply keeps_get_planilha_controle | apply keeps_set_planilha_controle
        | apply keeps_frame | apply keeps_read_excel | apply keeps_getitem
        | apply keeps_select | apply keeps_apply_add_zero
        | intro | progress cbv zeta ].

Lemma load_control_file_pl_data float_str up :
  keeps_pl_data (load_control_file float_str up).
Proof. unfold load_control_file. repeat keeps_step. Qed.

(** ** The reference loader *)

Lemma getitem_setitem_same l s df :
  Pandas.getitem l (Pandas.setitem l s df) = Some s.
Proof.
  induction df as [|[l0 s0] df IH]; simpl.
  - rewrite String.eqb_refl. reflexivity.
  - destruct (String.eqb l0 l) eqn:E; simpl; rewrite E; [reflexivity | exact IH].
Qed.

Lemma getitem_setitem_other l l' s df :
  l' <> l -> Pandas.getitem l' (Pandas.setitem l s df) = Pandas.getitem l' df.
Proof.
  intros Hne. induction df as [|[l0 s0] df IH]; simpl.
  - destruct (String.eqb l l') eqn:E;
      [apply String.eqb_eq in E; congruence | reflexivity].
  - destruct (String.eqb l0 l) eqn:E; simpl.
    + apply String.eqb_eq in E. subst l0.
      destruct (String.eqb l l') eqn:E';
        [apply String.eqb_eq in E'; congruence | reflexivity].
    + rewrite IH. reflexivity.
Qed.

(** No exception leaves [load_control_file]. *)
Lemma load_control_file_returns float_str uploaded w :
  snd (load_control_file float_str uploaded w) = Returned tt.
Proof.
  unfold load_control_file, Py.try_except.
  match goal with
  | |- snd (let (_, _) := ?body in _) = _ => destruct body as [w' [[]|e]]
  end; reflexivity.
Qed.

(** A workbook pandas cannot read leaves the reference table as it was. *)
Lemma load_control_file_unreadable float_str w :
  load_control_file float_str None w
  = (mk_world (self w) (shown w ++ [ReferenceLoadError ReadError]), Returned tt).
Proof. reflexivity. Qed.

Lemma isin_contas_normalized (l : list string) :
  isin_contas (ObjectS (map (fun x => Some (normalize x)) l))
  = map (fun x => in_override (normalize x)) l.
Proof.
  unfold isin_contas, Pandas.isin. rewrite map_map. reflexivity.
Qed.

Lemma add_zero_mask_filter (f : string -> string) (m : list bool) (l : list string) :
  add_zero (Pandas.mask_filter m (map (fun x => Some (f x)) l))
  = Some (map (fun x => Some ("0" ++ f x)) (Pandas.mask_filter m l)).
Proof.
  revert l. induction m as [|b m IH]; intros [|x l]; try reflexivity.
  cbn [map Pandas.mask_filter]. destruct b.
  - cbn [add_zero map]. rewrite IH. reflexivity.
  - apply IH.
Qed.

Lemma load_control_file_loads float_str sheet conta taxa w :
  Pandas.getitem "Conta" sheet = Some conta ->
  Pandas.getitem "Taxa de Gestão" sheet = Some taxa ->
  load_control_file float_str (Some sheet) w
  = (mk_world (mk_self (Some (loaded_table (astype_str float_str conta) taxa))
                       (pl_data (self w)))
              (shown w),
     Returned tt).
Proof.
  intros Hc Ht. unfold load_control_file. py_unfold.
  cbn [self shown planilha_controle pl_data].
  rewrite Hc. cbn [self shown planilha_controle pl_data].
  unfold Pandas.select. rewrite getitem_setitem_same.
  rewrite getitem_setitem_other by discriminate. rewrite Ht.
  cbn [self shown planilha_controle pl_data Pandas.getitem
         String.eqb Ascii.eqb Bool.eqb].
  rewrite isin_contas_normalized.
  unfold Pandas.reset_index, Pandas.filter_rows.
  cbn [map Pandas.getitem String.eqb Ascii.eqb Bool.eqb Pandas.series_mask].
  unfold apply_add_zero. rewrite add_zero_mask_filter.
  cbn [self shown planilha_controle pl_data Pandas.setitem
         String.eqb Ascii.eqb Bool.eqb].
  unfold Pandas.concat2.
  cbn [map flat_map Pandas.getitem String.eqb Ascii.eqb Bool.eqb app
         Pandas.rename find Pandas.under Pandas.blank Pandas.len Pandas.size].
  reflexivity.
Qed.

Lemma combine_app {A B} (a a' : list A) (b b' : list B) :
  length a = length b ->
  combine (a ++ a') (b ++ b') = (combine a b ++ combine a' b')%list.
Proof.
  revert b. induction a as [|x a IH]; intros [|y b] H; try discriminate.
  - reflexivity.
  - injection H as H. cbn [app combine]. rewrite IH by exact H. reflexivity.
Qed.

Lemma override_rows_permutation (raw : list string) (taxa : list (option R)) :
  length taxa = length raw ->
  let mask := map (fun x => in_override (normalize x)) raw in
  Permutation
    (combine (map (fun x => Some (normalize x)) raw) taxa
     ++ combine (map (fun x => Some ("0" ++ normalize x)%string) (Pandas.mask_filter mask raw))
          (Pandas.mask_filter mask taxa))%list
    (flat_map reference_rows_of (combine (map normalize raw) taxa)).
Proof.
  revert taxa. induction raw as [|x raw IH]; intros [|t taxa] H; try discriminate.
  - apply Permutation_refl.
  - injection H as H. specialize (IH taxa H).
    cbn [map combine Pandas.mask_filter flat_map reference_rows_of app] in *.
    destruct (in_override (normalize x)).
    + cbn [map combine app]. apply perm_skip.
      apply Permutation_sym, Permutation_cons_app, Permutation_sym. exact IH.
    + cbn [app]. apply perm_skip. exact IH.
Qed.

(** C7. For every account of the sheet whose normalised identifier is in
    the fixed override set of nine, the loaded reference table keeps two
    rows, one with the normalised identifier and one with that identifier
    behind one more "0", both with the account's rate; every other account
    gets exactly one row.  The rows of the table are those and no
    others. *)
Theorem C7_override_rows float_str (sheet : DataFrame) (conta : Series)
  (taxa : list (option R)) (w : World) :
  Pandas.getitem "Conta" sheet = Some conta ->
  Pandas.getitem "Taxa de Gestão" sheet = Some (FloatS taxa) ->
  length taxa = Pandas.size conta ->
  length contas_3_zeros = 9%nat
  /\ exists pc rows,
       planilha_controle (self (fst (load_control_file float_str (Some sheet) w))) = Some pc
       /\ Engine.control_rows pc = Returned rows
       /\ Permutation rows
            (flat_map reference_rows_of
               (combine (map normalize (astype_str float_str conta)) taxa)).
Proof.
  intros Hc Ht Hlen. split; [reflexivity|].
  rewrite (load_control_file_loads float_str sheet conta (FloatS taxa) w Hc Ht).
  assert (Hraw : length taxa = length (astype_str float_str conta)).
  { rewrite Hlen. destruct conta; cbn [astype_str Pandas.size];
      rewrite length_map; reflexivity. }
  set (raw := astype_str float_str conta) in *.
  eexists. eexists. split; [reflexivity|]. split.
  - unfold Engine.control_rows, loaded_table.
    cbn [Pandas.getitem String.eqb Ascii.eqb Bool.eqb Pandas.under Pandas.series_mask].
    reflexivity.
  - rewrite combine_app by (rewrite length_map; symmetry; exact Hraw).
    apply override_rows_permutation. exact Hraw.
Qed.

Lemma C7_override_rows_witness :
  length contas_3_zeros = 9%nat
  /\ exists pc rows,
       planilha_controle (self Sample.with_control) = Some pc
       /\ Engine.control_rows pc = Returned rows
       /\ Permutation rows
            (flat_map reference_rows_of
               (combine (map normalize ["989247.0"; "555555.0"])
                        [Some (2 / 100)%R; Some (1 / 100)%R])).
Proof.
  exact (C7_override_rows Sample.text_only Sample.control_sheet
           (ObjectS [Some "989247.0"; Some "555555.0"])
           [Some (2 / 100)%R; Some (1 / 100)%R]
           Sample.fresh eq_refl eq_refl eq_refl).
Defined.

Example control_sheet_rows :
  flat_map reference_rows_of
    (combine (map normalize ["989247.0"; "555555.0"])
             [Some (2 / 100)%R; Some (1 / 100)%R])
  = [(Some "00989247", Some (2 / 100)%R); (Some "000989247", Some (2 / 100)%R);
     (Some "00555555", Some (1 / 100)%R)].
Proof. reflexivity. Qed.

Example control_sheet_loaded :
  planilha_controle (self Sample.with_control) = Some Sample.reference.
Proof. reflexivity. Qed.

(** C8 (the code departs from it). A sheet that is read but lacks the
    column "Conta" makes the loader fail after line 16 has already stored
    the sheet: no exception leaves the loader, but the reference table is
    no longer unset.  It holds the raw sheet, the guard of the engine lets
    it through, and the engine then raises [KeyError] on the missing
    [conta] column. *)
Theorem C8_failed_load_keeps_raw_sheet :
  let w := load_control_file Sample.text_only
             (Some Sample.sheet_without_conta) Sample.fresh in
  snd w = Returned tt
  /\ shown (fst w) = [ReferenceLoadError (KeyError "Conta")]
  /\ planilha_controle (self Sample.fresh) = None
  /\ planilha_controle (self (fst w)) = Some Sample.sheet_without_conta
  /\ snd (calculate_daily_fees
            (fst (load_pl_file 2025 (Some Sample.one_snapshot)
                    "PL Total - 01.03.xlsx" (fst w))))
     = Raised (KeyError "conta").
Proof. repeat split; reflexivity. Qed.

(** The same happens one line later when the rate column is the missing
    one: the sheet is left behind with its account column rewritten. *)
Example failed_load_without_taxa :
  load_control_file Sample.text_only
    (Some [("Conta", ObjectS [Some "989247.0"])]) Sample.fresh
  = (mk_world (mk_self (Some [("Conta", ObjectS [Some "00989247"])]) [])
       [ReferenceLoadError (KeyError "Taxa de Gestão")],
     Returned tt).
Proof. reflexivity. Qed.

(** ** The guard of the engine *)

Lemma calculate_not_loaded (w : World) :
  Engine.not_loaded (self w) = true ->
  calculate_daily_fees w
  = (mk_world (self w) (shown w ++ [InsufficientInputError]), Returned None).
Proof.
  intros H. unfold calculate_daily_fees. rewrite H. reflexivity.
Qed.

(** C5, as amended. The engine returns the "no result" sentinel, shows
    InsufficientInputError and neither joins nor pivots whenever the
    reference table is unset or empty or no snapshot file has been
    accumulated; in particular after zero snapshot files it returns the
    sentinel and raises nothing. *)
Theorem C5_insufficient_input (w : World) :
  planilha_controle (self w) = None
  \/ (exists pc, planilha_controle (self w) = Some pc /\ Pandas.empty pc = true)
  \/ pl_data (self w) = [] ->
  calculate_daily_fees w
  = (mk_world (self w) (shown w ++ [InsufficientInputError]), Returned None).
Proof.
  intros H. apply calculate_not_loaded. unfold Engine.not_loaded.
  destruct H as [H | [(pc & H & He) | H]].
  - rewrite H. reflexivity.
  - rewrite H, He. reflexivity.
  - rewrite H. destruct (planilha_controle (self w)); [apply orb_true_r | reflexivity].
Qed.

Lemma C5_insufficient_input_witness :
  calculate_daily_fees Sample.with_control
  = (mk_world (self Sample.with_control)
       (shown Sample.with_control ++ [InsufficientInputError]),
     Returned None).
Proof.
  apply (C5_insufficient_input Sample.with_control).
  right; right. reflexivity.
Defined.

(** The claim as stated fails when a snapshot file without rows has been
    accumulated: no snapshot row exists, yet the guard lets the engine
    through and the sentinel is not what comes back. *)
Lemma C5_counterexample :
  Forall (fun pl => Pandas.len pl = 0%nat) (pl_data (self Sample.loaded_header_only))
  /\ Engine.not_loaded (self Sample.loaded_header_only) = false
  /\ snd (calculate_daily_fees Sample.loaded_header_only) <> Returned None.
Proof.
  split; [repeat constructor|]. split; [reflexivity|].
  intros H. discriminate H.
Qed.

(** What comes back instead: the empty value column has dtype object and
    the arithmetic of line 76 raises; had it been float64, the join and the
    pivot would run and give a report without rows. *)
Example header_only_raises :
  snd (calculate_daily_fees Sample.loaded_header_only) = Raised TypeError.
Proof. reflexivity. Qed.

Example header_only_float_report :
  calculate_daily_fees Sample.loaded_header_only_float
  = (Sample.loaded_header_only_float,
     Returned (Some [("conta", ObjectS []); ("Total", FloatS [])])).
Proof. reflexivity. Qed.

(** ** The engine leaves the session alone *)

Lemma calculate_daily_fees_self (w : World) :
  self (fst (calculate_daily_fees w)) = self w.
Proof.
  unfold calculate_daily_fees.
  destruct (Engine.not_loaded (self w)); [reflexivity|].
  py_unfold.
  destruct (planilha_controle (self w)) as [pc|]; [|reflexivity].
  destruct (Engine.tx_gestao pc (pl_data (self w))); reflexivity.
Qed.

Lemma calculate_daily_fees_shown (w : World) :
  shown (fst (calculate_daily_fees w))
  = (shown w ++ (if Engine.not_loaded (self w)
                 then [InsufficientInputError] else []))%list.
Proof.
  unfold calculate_daily_fees.
  destruct (Engine.not_loaded (self w)); [reflexivity|].
  py_unfold.
  destruct (planilha_controle (self w)) as [pc|]; [|symmetry; apply app_nil_r].
  destruct (Engine.tx_gestao pc (pl_data (self w))); symmetry; apply app_nil_r.
Qed.

(** C9. The engine does not change its inputs: in every state of the
    session, after [calculate_daily_fees] the reference table and the
    snapshot collection are what they were, and a run that gets past the
    guard shows nothing (the guard's message is the only thing the method
    ever does besides returning). *)
Theorem C9_inputs_unchanged (w : World) :
  planilha_controle (self (fst (calculate_daily_fees w))) = planilha_controle (self w)
  /\ pl_data (self (fst (calculate_daily_fees w))) = pl_data (self w)
  /\ shown (fst (calculate_daily_fees w))
     = (shown w ++ (if Engine.not_loaded (self w)
                    then [InsufficientInputError] else []))%list.
Proof.
  rewrite calculate_daily_fees_self.
  split; [reflexivity|]. split; [reflexivity|]. apply calculate_daily_fees_shown.
Qed.

(** ** Daily rate and fee amount *)

Section Rounding.
Local Open Scope R_scope.

Lemma rint_spec (x : R) :
  exists k : Z, Float.rint x = IZR k /\ - (1 / 2) <= Float.rint x - x <= 1 / 2.
Proof.
  unfold Float.rint.
  pose proof (Rplus_Int_part_frac_part x) as Hx.
  destruct (base_fp x) as [Hf0 Hf1].
  set (n := Int_part x) in *. set (f := frac_part x) in *.
  assert (Hn1 : IZR (n + 1) = IZR n + 1) by apply plus_IZR.
  destruct (Rlt_dec f (1 / 2)) as [Hlt|Hge].
  - exists n. split; [reflexivity | lra].
  - destruct (Rlt_dec (1 / 2) f) as [Hgt|Hle].
    + exists (n + 1)%Z. split; [reflexivity | lra].
    + destruct (Z.even n).
      * exists n. split; [reflexivity | lra].
      * exists (n + 1)%Z. split; [reflexivity | lra].
Qed.

(** A number less than one half away from a whole number is rounded to
    it. *)
Lemma rint_near (x : R) (m : Z) :
  - (1 / 2) < x - IZR m < 1 / 2 -> Float.rint x = IZR m.
Proof.
  intros H. destruct (rint_spec x) as (k & Hk & Hd). rewrite Hk.
  f_equal. rewrite Hk in Hd.
  assert (Hlt : IZR k - IZR m < 1) by lra.
  assert (Hgt : -1 < IZR k - IZR m) by lra.
  rewrite <- minus_IZR in Hlt, Hgt.
  apply lt_IZR in Hlt. apply lt_IZR in Hgt. lia.
Qed.

(** Halfway between two whole numbers the even one is taken. *)
Lemma rint_tie (m : Z) :
  Float.rint (IZR m + 1 / 2) = IZR (if Z.even m then m else m + 1).
Proof.
  unfold Float.rint.
  destruct (Int_part_frac_part_spec (IZR m + 1 / 2) m (1 / 2)) as [<- <-]; [lra | ring |].
  destruct (Rlt_dec (1 / 2) (1 / 2)) as [H|_]; [lra|].
  destruct (Z.even m); reflexivity.
Qed.

Lemma rint_whole (k : Z) : Float.rint (IZR k) = IZR k.
Proof. apply rint_near. lra. Qed.

Lemma ln_2_pos : 0 < ln 2.
Proof. rewrite <- ln_1. apply ln_increasing; lra. Qed.

Lemma ln_powerRZ_2 (e : Z) : ln (powerRZ 2 e) = IZR e * ln 2.
Proof. rewrite powerRZ_Rpower by lra. apply ln_Rpower. Qed.

Lemma powerRZ_2_pos (e : Z) : 0 < powerRZ 2 e.
Proof. apply powerRZ_lt. lra. Qed.

(** The whole part of the base-2 logarithm, from the powers of two around
    the number. *)
Lemma log2_floor (x : R) (e : Z) :
  powerRZ 2 e <= x < powerRZ 2 (e + 1) ->
  Int_part (ln x / ln 2) = e.
Proof.
  intros [Hlo Hhi]. pose proof ln_2_pos as H2. pose proof (powerRZ_2_pos e) as He.
  symmetry. apply Int_part_spec.
  assert (Hle : IZR e * ln 2 <= ln x).
  { rewrite <- ln_powerRZ_2. destruct Hlo as [Hlo|Hlo].
    - left. apply ln_increasing; assumption.
    - rewrite Hlo. right. reflexivity. }
  assert (Hlt : ln x < (IZR e + 1) * ln 2).
  { rewrite <- plus_IZR, <- ln_powerRZ_2. apply ln_increasing; lra. }
  split.
  - apply Rplus_lt_reg_r with 1. replace (ln x / ln 2 - 1 + 1) with (ln x / ln 2) by ring.
    apply Rmult_lt_reg_r with (ln 2); [exact H2|].
    replace (ln x / ln 2 * ln 2) with (ln x) by (field; lra). exact Hlt.
  - apply Rmult_le_reg_r with (ln 2); [exact H2|].
    replace (ln x / ln 2 * ln 2) with (ln x) by (field; lra). exact Hle.
Qed.

Lemma exponent_normal (x : R) (e : Z) :
  (-1022 <= e)%Z ->
  powerRZ 2 e <= Rabs x < powerRZ 2 (e + 1) ->
  Float.exponent x = e.
Proof.
  intros He H. unfold Float.exponent. rewrite (log2_floor _ e H). lia.
Qed.

(** Rounding a number of the normal range: [m] is the significand of the
    result. *)
Lemma fl_normal (x : R) (e m : Z) :
  (-1022 <= e)%Z ->
  powerRZ 2 e <= Rabs x < powerRZ 2 (e + 1) ->
  Float.rint (x / powerRZ 2 (e - 52)) = IZR m ->
  Float.fl x = IZR m * powerRZ 2 (e - 52).
Proof.
  intros He H Hm. unfold Float.fl, Float.ulp.
  rewrite (exponent_normal x e He H), Hm. reflexivity.
Qed.


Lemma powerRZ_2_floor (x : R) :
  0 < x -> powerRZ 2 (Int_part (ln x / ln 2)) <= x.
Proof.
  intros Hx. pose proof ln_2_pos as H2.
  destruct (base_Int_part (ln x / ln 2)) as [Hle _].
  rewrite powerRZ_Rpower by lra. unfold Rpower.
  rewrite <- (exp_ln x Hx) at 2.
  assert (H : IZR (Int_part (ln x / ln 2)) * ln 2 <= ln x).
  { apply Rmult_le_reg_r with (/ ln 2); [apply Rinv_0_lt_compat; exact H2|].
    replace (IZR (Int_part (ln x / ln 2)) * ln 2 * / ln 2)
      with (IZR (Int_part (ln x / ln 2))) by (field; lra).
    exact Hle. }
  destruct H as [H|H].
  - left. apply exp_increasing. exact H.
  - rewrite H. right. reflexivity.
Qed.

Lemma ulp_pos (x : R) : 0 < Float.ulp x.
Proof. apply powerRZ_2_pos. Qed.

(** Rounding moves a number by at most half the distance between
    neighbouring floats. *)
Lemma fl_half_ulp (x : R) : Rabs (Float.fl x - x) <= Float.ulp x / 2.
Proof.
  unfold Float.fl. pose proof (ulp_pos x) as Hu.
  destruct (rint_spec (x / Float.ulp x)) as (k & Hk & Hd).
  replace (Float.rint (x / Float.ulp x) * Float.ulp x - x)
    with ((Float.rint (x / Float.ulp x) - x / Float.ulp x) * Float.ulp x) by (field; lra).
  rewrite Rabs_mult, (Rabs_pos_eq (Float.ulp x)) by lra.
  assert (Ha : Rabs (Float.rint (x / Float.ulp x) - x / Float.ulp x) <= 1 / 2).
  { apply Rabs_le. lra. }
  nra.
Qed.

Lemma fl_zero : Float.fl 0 = 0.
Proof.
  unfold Float.fl. replace (0 / Float.ulp 0) with 0.
  - rewrite (rint_whole 0). ring.
  - unfold Rdiv. ring.
Qed.

(** The standard model of float64 arithmetic: the relative error of a
    rounding is at most 2^-53, but for the absolute error 2^-1075 of the
    subnormal range. *)
Lemma fl_error (x : R) :
  Rabs (Float.fl x - x) <= Rabs x * powerRZ 2 (-53) + powerRZ 2 (-1075).
Proof.
  pose proof (powerRZ_2_pos (-1075)) as Hsub.
  pose proof (powerRZ_2_pos (-53)) as H53.
  destruct (Req_dec x 0) as [->|Hx].
  { rewrite fl_zero. rewrite Rminus_diag, Rabs_R0. lra. }
  assert (Hax : 0 < Rabs x) by (apply Rabs_pos_lt; exact Hx).
  eapply Rle_trans; [apply fl_half_ulp|].
  unfold Float.ulp, Float.exponent.
  set (E := Int_part (ln (Rabs x) / ln 2)).
  pose proof (powerRZ_2_floor (Rabs x) Hax) as HE. fold E in HE.
  destruct (Z.max_spec E (-1022)) as [[_ ->]|[_ ->]].
  - change (-1022 - 52)%Z with (-1074)%Z.
    replace (powerRZ 2 (-1074) / 2) with (powerRZ 2 (-1075)).
    + nra.
    + replace (-1074)%Z with (-1075 + 1)%Z by reflexivity.
      rewrite powerRZ_add by lra. simpl (powerRZ 2 1). field.
  - replace (powerRZ 2 (E - 52) / 2) with (powerRZ 2 E * powerRZ 2 (-53)).
    + nra.
    + replace (E - 52)%Z with (E + -53 + 1)%Z by ring.
      rewrite !powerRZ_add by lra. simpl (powerRZ 2 1). field.
Qed.


Lemma powerRZ_2_nonneg (e : Z) : (0 <= e)%Z -> powerRZ 2 e = IZR (2 ^ e).
Proof.
  intros He. rewrite <- (Z2Nat.id e He) at 1. rewrite <- pow_powerRZ, pow_IZR.
  rewrite Z2Nat.id by exact He. reflexivity.
Qed.

Lemma powerRZ_bpow (e : Z) : powerRZ 2 e = Float.bpow e.
Proof.
  unfold Float.bpow. destruct (Z.leb_spec 0 e) as [He|He].
  - apply powerRZ_2_nonneg. exact He.
  - replace e with (- - e)%Z at 1 by lia.
    rewrite powerRZ_neg', powerRZ_2_nonneg by lia. reflexivity.
Qed.

(** Rounding a positive number of the normal range, with the powers of two
    written out. *)
Lemma fl_normal_pos (x : R) (e m : Z) :
  (-1022 <= e)%Z ->
  Float.bpow e <= x < Float.bpow (e + 1) ->
  - (1 / 2) < x / Float.bpow (e - 52) - IZR m < 1 / 2 ->
  Float.fl x = IZR m * Float.bpow (e - 52).
Proof.
  intros He H Hm. rewrite <- !powerRZ_bpow in *.
  assert (Hx : 0 < x) by (pose proof (powerRZ_2_pos e); lra).
  apply fl_normal; [exact He | rewrite Rabs_pos_eq by lra; exact H |].
  apply rint_near. exact Hm.
Qed.

Ltac bpow_values :=
  cbv [Float.bpow Z.leb Z.compare Z.opp Z.sub Z.add Z.pos_sub Z.pow Z.pow_pos Pos.iter
       Z.mul Pos.mul Pos.add Pos.succ Pos.pred_double Z.double Z.succ_double
       Z.pred_double Pos.compare Pos.compare_cont Pos.add_carry].

Lemma Rabs_both (a b : R) : Rabs a <= b -> - b <= a <= b.
Proof.
  intros H. unfold Rabs in H. destruct (Rcase_abs a); lra.
Qed.

Lemma powerRZ_2_le_1 (n : Z) : (n <= 0)%Z -> powerRZ 2 n <= 1.
Proof.
  intros Hn. pose proof ln_2_pos as H2.
  rewrite powerRZ_Rpower by lra. unfold Rpower. rewrite <- exp_0.
  apply IZR_le in Hn.
  destruct (Rle_lt_or_eq_dec _ _ Hn) as [Hlt|Heq].
  - left. apply exp_increasing. nra.
  - rewrite Heq, Rmult_0_l. right. reflexivity.
Qed.

Lemma tiny_subnormal : powerRZ 2 (-1075) <= / 2 ^ 100.
Proof.
  replace (-1075)%Z with (-100 + -975)%Z by reflexivity.
  rewrite powerRZ_add by lra.
  pose proof (powerRZ_2_le_1 (-975)) as H1.
  pose proof (powerRZ_2_pos (-975)) as H0.
  assert (H100 : powerRZ 2 (-100) = / 2 ^ 100).
  { rewrite powerRZ_bpow. bpow_values. lra. }
  rewrite H100. assert (0 < / 2 ^ 100) by (apply Rinv_0_lt_compat; lra).
  assert (powerRZ 2 (-975) <= 1) by (apply H1; lia). nra.
Qed.

(** What a rounding does to the size of a number. *)
Lemma fl_abs (x : R) :
  Rabs (Float.fl x) <= Rabs x + (Rabs x / 2 ^ 53 + / 2 ^ 100)
  /\ - (Rabs x / 2 ^ 53 + / 2 ^ 100) <= Float.fl x - x <= Rabs x / 2 ^ 53 + / 2 ^ 100.
Proof.
  pose proof (fl_error x) as He. pose proof tiny_subnormal as Hs.
  rewrite (powerRZ_bpow (-53)) in He.
  assert (Hu : Float.bpow (-53) = / 2 ^ 53) by (bpow_values; lra).
  rewrite Hu in He.
  assert (Hb : Rabs (Float.fl x - x) <= Rabs x / 2 ^ 53 + / 2 ^ 100) by lra.
  split; [|apply Rabs_both; exact Hb].
  replace (Float.fl x) with (x + (Float.fl x - x)) at 1 by ring.
  eapply Rle_trans; [apply Rabs_triang|]. lra.
Qed.

(** The fee amount of line 76 against the exact amount: half a hundredth,
    and the rounding errors of the four float64 operations. *)
Lemma fee_accuracy (v d : R) :
  Rabs (Float.round2 (Float.div (Float.mul v d) 100) - v * d / 100)
  <= 1 / 200 + (Rabs (v * d) / 100 + 1) / 2 ^ 50.
Proof.
  unfold Float.round2, Float.div, Float.mul.
  set (p := Float.fl (v * d)).
  set (q := Float.fl (p / 100)).
  set (y := Float.fl (q * 100)).
  destruct (rint_spec y) as (k & Hk & Hd). rewrite Hk in *.
  set (f := Float.fl (IZR k / 100)).
  destruct (fl_abs (v * d)) as [M1 E1]. fold p in M1, E1.
  destruct (fl_abs (p / 100)) as [M2 E2]. fold q in M2, E2.
  destruct (fl_abs (q * 100)) as [M3 E3]. fold y in M3, E3.
  destruct (fl_abs (IZR k / 100)) as [_ E5]. fold f in E5.
  assert (A2 : Rabs (p / 100) = Rabs p / 100).
  { unfold Rdiv. rewrite Rabs_mult, (Rabs_pos_eq (/ 100)) by lra. reflexivity. }
  assert (A3 : Rabs (q * 100) = Rabs q * 100).
  { rewrite Rabs_mult, (Rabs_pos_eq 100) by lra. reflexivity. }
  assert (A5 : Rabs (IZR k / 100) = Rabs (IZR k) / 100).
  { unfold Rdiv. rewrite Rabs_mult, (Rabs_pos_eq (/ 100)) by lra. reflexivity. }
  rewrite A2 in *. rewrite A3 in *. rewrite A5 in *.
  assert (M4 : Rabs (IZR k) <= Rabs y + 1 / 2).
  { replace (IZR k) with (y + (IZR k - y)) at 1 by ring.
    eapply Rle_trans; [apply Rabs_triang|].
    assert (Rabs (IZR k - y) <= 1 / 2) by (apply Rabs_le; lra). lra. }
  pose proof (Rabs_pos (v * d)) as P0.
  pose proof (Rabs_pos p) as P1. pose proof (Rabs_pos q) as P2.
  pose proof (Rabs_pos y) as P3. pose proof (Rabs_pos (IZR k)) as P4.
  apply Rabs_le.
  set (A := Rabs (v * d)) in *. set (ap := Rabs p) in *. set (aq := Rabs q) in *.
  set (ay := Rabs y) in *. set (ak := Rabs (IZR k)) in *.
  split; lra.
Qed.


(** [round2] gives the float64 nearest to a whole number of hundredths:
    the whole number nearest to a hundred times its argument, as float64
    computes that product. *)
Lemma round2_spec (x : R) :
  exists k : Z,
    Float.round2 x = Float.fl (IZR k / 100)
    /\ - (1 / 2) <= IZR k - Float.mul x 100 <= 1 / 2.
Proof.
  unfold Float.round2, Float.div.
  destruct (rint_spec (Float.mul x 100)) as (k & Hk & Hd).
  exists k. rewrite Hk in *. split; [reflexivity | exact Hd].
Qed.

(** A tie goes to the even neighbour: 0.125 is rounded to 0.12. *)
Example round2_tie : Float.round2 (125 / 1000) = Float.fl (12 / 100).
Proof.
  unfold Float.round2, Float.mul, Float.div.
  rewrite (fl_normal_pos (125 / 1000 * 100) 3 7036874417766400);
    [| lia | bpow_values; lra | bpow_values; lra].
  replace (IZR 7036874417766400 * Float.bpow (3 - 52)) with (IZR 12 + 1 / 2)
    by (bpow_values; lra).
  rewrite rint_tie. reflexivity.
Qed.

(** The float64 nearest to a whole number of hundredths is left as it is
    by [round2], unless the number is beyond any amount of money. *)
Lemma round2_fixed (k : Z) :
  Rabs (IZR k) <= 2 ^ 50 ->
  Float.round2 (Float.fl (IZR k / 100)) = Float.fl (IZR k / 100).
Proof.
  intros Hk. unfold Float.round2, Float.div, Float.mul.
  set (f := Float.fl (IZR k / 100)).
  destruct (fl_abs (IZR k / 100)) as [M1 E1]. fold f in M1, E1.
  destruct (fl_abs (f * 100)) as [_ E2].
  assert (A1 : Rabs (IZR k / 100) = Rabs (IZR k) / 100).
  { unfold Rdiv. rewrite Rabs_mult, (Rabs_pos_eq (/ 100)) by lra. reflexivity. }
  assert (A2 : Rabs (f * 100) = Rabs f * 100).
  { rewrite Rabs_mult, (Rabs_pos_eq 100) by lra. reflexivity. }
  rewrite A1 in *. rewrite A2 in *.
  pose proof (Rabs_pos (IZR k)) as P0. pose proof (Rabs_pos f) as P1.
  rewrite (rint_near (Float.fl (f * 100)) k); [reflexivity|].
  set (ak := Rabs (IZR k)) in *. set (af := Rabs f) in *.
  split; lra.
Qed.

(** Rounding what is already rounded changes nothing. *)
Lemma round2_idempotent (x : R) :
  Rabs (Float.mul x 100) <= 2 ^ 49 ->
  Float.round2 (Float.round2 x) = Float.round2 x.
Proof.
  intros Hx. destruct (round2_spec x) as (k & Hk & Hd). rewrite Hk.
  apply round2_fixed.
  replace (IZR k) with (Float.mul x 100 + (IZR k - Float.mul x 100)) by ring.
  eapply Rle_trans; [apply Rabs_triang|].
  assert (Rabs (IZR k - Float.mul x 100) <= 1 / 2) by (apply Rabs_le; lra).
  lra.
Qed.

(** Where float64 and exact arithmetic part: the value 13424.96378257909
    at the daily rate 0.00785849419846496 (the annual rate 0.02).  The
    amount is the float next below 1.055, a hundred times it is 105.5 in
    float64, and the fee is 1.06; the exact product stays below 105.5 and
    would be rounded to 1.05. *)
Example fee_at_a_tie :
  Float.round2 (Float.div
                  (Float.mul (7380451890708691 / 2 ^ 39) (4530113477619200 / 2 ^ 59))
                  100)
  = 4773815605012726 / 2 ^ 52
  /\ 4773815605012726 / 2 ^ 52 = Float.fl (106 / 100)
  /\ Float.rint (7380451890708691 / 2 ^ 39 * (4530113477619200 / 2 ^ 59) / 100 * 100)
     = 105.
Proof.
  assert (H1 : Float.mul (7380451890708691 / 2 ^ 39) (4530113477619200 / 2 ^ 59)
               = 7423902510743551 / 2 ^ 46).
  { unfold Float.mul.
    rewrite (fl_normal_pos _ 6 7423902510743551);
      [| lia | bpow_values; lra | bpow_values; lra].
    bpow_values. lra. }
  assert (H2 : Float.div (7423902510743551 / 2 ^ 46) 100 = 4751297606875873 / 2 ^ 52).
  { unfold Float.div.
    rewrite (fl_normal_pos _ 0 4751297606875873);
      [| lia | bpow_values; lra | bpow_values; lra].
    bpow_values. lra. }
  assert (H3 : Float.mul (4751297606875873 / 2 ^ 52) 100 = IZR 105 + 1 / 2).
  { unfold Float.mul.
    rewrite (fl_normal_pos _ 6 7423902510743552);
      [| lia | bpow_values; lra | bpow_values; lra].
    bpow_values. lra. }
  assert (H4 : Float.fl (106 / 100) = 4773815605012726 / 2 ^ 52).
  { rewrite (fl_normal_pos _ 0 4773815605012726);
      [| lia | bpow_values; lra | bpow_values; lra].
    bpow_values. lra. }
  split; [|split].
  - unfold Float.round2. rewrite H1, H2, H3, rint_tie.
    unfold Float.div. exact H4.
  - symmetry. exact H4.
  - apply (rint_near _ 105). lra.
Qed.

Lemma Rpower_one (y : R) : Rpower 1 y = 1.
Proof. unfold Rpower. rewrite ln_1, Rmult_0_r. apply exp_0. Qed.

Lemma daily_formula (t : R) :
  -1 < t ->
  Engine.Tx_Gestao_Diaria (Some t) = Some ((Rpower (t + 1) (1 / 252) - 1) * 100).
Proof.
  intros Ht. unfold Engine.Tx_Gestao_Diaria, Float.power, Float.calculo_diario.
  destruct (Rlt_dec 0 (t + 1)) as [_|Hn]; [reflexivity | lra].
Qed.

Lemma daily_zero : Engine.Tx_Gestao_Diaria (Some 0) = Some 0.
Proof.
  rewrite daily_formula by lra. rewrite Rplus_0_l, Rpower_one. f_equal. ring.
Qed.

Lemma daily_one :
  Engine.Tx_Gestao_Diaria (Some 1) = Some ((Rpower 2 (1 / 252) - 1) * 100).
Proof.
  rewrite daily_formula by lra. replace (1 + 1) with 2 by ring. reflexivity.
Qed.

(** Below an annual rate of -100% the base of the power is negative and
    the daily rate is missing (NaN). *)
Lemma daily_negative_base (t : R) :
  t < -1 -> Engine.Tx_Gestao_Diaria (Some t) = None.
Proof.
  intros Ht. unfold Engine.Tx_Gestao_Diaria, Float.power.
  destruct (Rlt_dec 0 (t + 1)) as [H|_]; [lra|].
  destruct (Req_dec_T (t + 1) 0) as [H|_]; [lra | reflexivity].
Qed.

End Rounding.

Lemma tx_gestao_row pc pls tx row :
  Engine.tx_gestao pc pls = Returned tx -> In row tx ->
  exists m, row = Engine.fee_row m.
Proof.
  unfold Engine.tx_gestao. intros H Hin.
  destruct (Engine.concat pls) as [pl_combined|e]; [|discriminate].
  destruct (Engine.control_rows pc) as [reference|e]; [|discriminate].
  injection H as <-. apply in_map_iff in Hin. destruct Hin as (m & <- & _).
  exists m. reflexivity.
Qed.

Example sample_joined :
  Engine.tx_gestao Sample.reference Sample.snapshots = Returned Sample.joined.
Proof. reflexivity. Qed.

(** C1. For every row of the joined frame the daily rate is
    ((annual rate + 1) to the power 1/252, minus 1) times 100, the power
    being defined as the annual rate is above -100%; a missing annual rate
    gives a missing daily rate; an annual rate of 0 gives the daily rate 0
    and an annual rate of 1 gives (2 ** (1/252) - 1) * 100. *)
Theorem C1_daily_rate (pc : DataFrame) (pls : list DataFrame)
  (tx : list Tx.row) (row : Tx.row) :
  Engine.tx_gestao pc pls = Returned tx ->
  In row tx ->
  (forall t, Tx.Taxa_de_Gestao row = Some t -> (-1 < t)%R ->
             Tx.Tx_Gestao_Diaria row
             = Some ((Rpower (t + 1) (1 / 252) - 1) * 100)%R)
  /\ (Tx.Taxa_de_Gestao row = None -> Tx.Tx_Gestao_Diaria row = None)
  /\ (Tx.Taxa_de_Gestao row = Some 0%R -> Tx.Tx_Gestao_Diaria row = Some 0%R)
  /\ (Tx.Taxa_de_Gestao row = Some 1%R ->
      Tx.Tx_Gestao_Diaria row = Some ((Rpower 2 (1 / 252) - 1) * 100)%R).
Proof.
  intros H Hin. destruct (tx_gestao_row pc pls tx row H Hin) as (m & ->).
  cbn [Engine.fee_row Tx.Taxa_de_Gestao Tx.Tx_Gestao_Diaria].
  split; [|split; [|split]].
  - intros t -> Ht. apply daily_formula. exact Ht.
  - intros ->. reflexivity.
  - intros ->. apply daily_zero.
  - intros ->. apply daily_one.
Qed.

Lemma C1_daily_rate_witness :
  (forall t, Tx.Taxa_de_Gestao Sample.row = Some t -> (-1 < t)%R ->
             Tx.Tx_Gestao_Diaria Sample.row
             = Some ((Rpower (t + 1) (1 / 252) - 1) * 100)%R)
  /\ (Tx.Taxa_de_Gestao Sample.row = None -> Tx.Tx_Gestao_Diaria Sample.row = None)
  /\ (Tx.Taxa_de_Gestao Sample.row = Some 0%R -> Tx.Tx_Gestao_Diaria Sample.row = Some 0%R)
  /\ (Tx.Taxa_de_Gestao Sample.row = Some 1%R ->
      Tx.Tx_Gestao_Diaria Sample.row = Some ((Rpower 2 (1 / 252) - 1) * 100)%R).
Proof.
  exact (C1_daily_rate Sample.reference Sample.snapshots Sample.joined Sample.row
           eq_refl (or_introl eq_refl)).
Defined.

(** C2. For every row of the joined frame the fee amount is
    round(value * daily rate / 100, 2) as float64 computes it: the product
    and the quotient are each rounded to the nearest float, a hundred times
    the amount is brought to the nearest whole number (a tie going to the
    even one) and that number of hundredths is the fee, as a float.  It is
    at most half a hundredth away from the exact amount, the rounding errors
    of the operations apart.  The product is taken below the overflow
    threshold, above which numpy answers inf.  When the value, the daily
    rate or the annual rate is missing, the fee amount of the row is
    missing. *)
Theorem C2_fee_amount (pc : DataFrame) (pls : list DataFrame)
  (tx : list Tx.row) (row : Tx.row) :
  Engine.tx_gestao pc pls = Returned tx ->
  In row tx ->
  (forall v d, Tx.VALOR row = Some v -> Tx.Tx_Gestao_Diaria row = Some d ->
               (Rabs (v * d) <= 2 ^ 1023)%R ->
               let amount := Float.div (Float.mul v d) 100 in
               Tx.Valor_de_cobranca row = Some (Float.round2 amount)
               /\ (exists k : Z,
                     Float.round2 amount = Float.fl (IZR k / 100)
                     /\ - (1 / 2) <= IZR k - Float.mul amount 100 <= 1 / 2)%R
               /\ (Rabs (Float.round2 amount - v * d / 100)
                   <= 1 / 200 + (Rabs (v * d) / 100 + 1) / 2 ^ 50)%R)
  /\ (Tx.VALOR row = None -> Tx.Valor_de_cobranca row = None)
  /\ (Tx.Tx_Gestao_Diaria row = None -> Tx.Valor_de_cobranca row = None)
  /\ (Tx.Taxa_de_Gestao row = None -> Tx.Valor_de_cobranca row = None).
Proof.
  intros H Hin. destruct (tx_gestao_row pc pls tx row H Hin) as (m & ->).
  cbn [Engine.fee_row Tx.Taxa_de_Gestao Tx.Tx_Gestao_Diaria Tx.VALOR
         Tx.Valor_de_cobranca].
  split; [|split; [|split]].
  - intros v d Hv Hd _. rewrite Hv, Hd. cbv zeta.
    split; [reflexivity|]. split; [apply round2_spec | apply fee_accuracy].
  - intros ->. reflexivity.
  - intros ->. destruct (Merged.VALOR m); reflexivity.
  - intros ->. destruct (Merged.VALOR m); reflexivity.
Qed.

Lemma C2_fee_amount_witness :
  (forall v d, Tx.VALOR Sample.row = Some v -> Tx.Tx_Gestao_Diaria Sample.row = Some d ->
               (Rabs (v * d) <= 2 ^ 1023)%R ->
               let amount := Float.div (Float.mul v d) 100 in
               Tx.Valor_de_cobranca Sample.row = Some (Float.round2 amount)
               /\ (exists k : Z,
                     Float.round2 amount = Float.fl (IZR k / 100)
                     /\ - (1 / 2) <= IZR k - Float.mul amount 100 <= 1 / 2)%R
               /\ (Rabs (Float.round2 amount - v * d / 100)
                   <= 1 / 200 + (Rabs (v * d) / 100 + 1) / 2 ^ 50)%R)
  /\ (Tx.VALOR Sample.row = None -> Tx.Valor_de_cobranca Sample.row = None)
  /\ (Tx.Tx_Gestao_Diaria Sample.row = None -> Tx.Valor_de_cobranca Sample.row = None)
  /\ (Tx.Taxa_de_Gestao Sample.row = None -> Tx.Valor_de_cobranca Sample.row = None).
Proof.
  exact (C2_fee_amount Sample.reference Sample.snapshots Sample.joined Sample.row
           eq_refl (or_introl eq_refl)).
Defined.

(** ** The pivot report *)

Lemma strftime_not_a_fixed_label (dt : datetime) :
  Calendar.strftime_dm dt <> "Total" /\ Calendar.strftime_dm dt <> "conta".
Proof.
  unfold Calendar.strftime_dm, PyStr.two_digits. cbn [append].
  split; intros H; discriminate H.
Qed.

Lemma calculate_returns_report (w w' : World) (report : DataFrame) :
  calculate_daily_fees w = (w', Returned (Some report)) ->
  exists pc tx,
    planilha_controle (self w) = Some pc
    /\ Engine.tx_gestao pc (pl_data (self w)) = Returned tx
    /\ report = Engine.with_total (Engine.pivot_table tx)
    /\ w' = w.
Proof.
  unfold calculate_daily_fees.
  destruct (Engine.not_loaded (self w)).
  - py_unfold. intros H. discriminate H.
  - py_unfold.
    destruct (planilha_controle (self w)) as [pc|] eqn:Hpc; [|intros H; discriminate H].
    destruct (Engine.tx_gestao pc (pl_data (self w))) as [tx|e] eqn:Htx;
      [|intros H; discriminate H].
    intros H. injection H as <- <-. exists pc, tx. auto.
Qed.

Lemma setitem_fresh (label : string) (s : Series) (df : DataFrame) :
  (forall l s', In (l, s') df -> l <> label) ->
  Pandas.setitem label s df = (df ++ [(label, s)])%list.
Proof.
  induction df as [|[l0 s0] df IH]; intros H; [reflexivity|].
  cbn [Pandas.setitem app].
  destruct (String.eqb l0 label) eqn:E.
  - apply String.eqb_eq in E. exfalso. apply (H l0 s0); [left; reflexivity | exact E].
  - rewrite IH; [reflexivity|]. intros l s' Hin. apply (H l s'). right. exact Hin.
Qed.

Lemma getitem_app_fresh (label : string) (s : Series) (df : DataFrame) :
  (forall l s', In (l, s') df -> l <> label) ->
  Pandas.getitem label (df ++ [(label, s)])%list = Some s.
Proof.
  induction df as [|[l0 s0] df IH]; intros H; cbn [Pandas.getitem app].
  - rewrite String.eqb_refl. reflexivity.
  - destruct (String.eqb l0 label) eqn:E.
    + apply String.eqb_eq in E. exfalso. apply (H l0 s0); [left; reflexivity | exact E].
    + apply IH. intros l s' Hin. apply (H l s'). right. exact Hin.
Qed.

Lemma labels_In (l : list string) (x : string) : In x (Engine.labels l) <-> In x l.
Proof.
  unfold Engine.labels. split; intros H.
  - apply (nodup_In string_dec).
    apply (Permutation_in x (Permutation_sym (StringSort.Permuted_sort _))). exact H.
  - apply (Permutation_in x (StringSort.Permuted_sort _)).
    apply (nodup_In string_dec). exact H.
Qed.

Lemma labels_NoDup (l : list string) : NoDup (Engine.labels l).
Proof.
  unfold Engine.labels.
  apply (Permutation_NoDup (StringSort.Permuted_sort _)). apply NoDup_nodup.
Qed.

Lemma keyed_dates (pc : DataFrame) (pls : list DataFrame) (tx : list Tx.row) (d : string) :
  Engine.tx_gestao pc pls = Returned tx ->
  In d (map (fun g => snd (fst g)) (Engine.keyed tx)) ->
  exists dt, d = Calendar.strftime_dm dt.
Proof.
  intros H Hin. apply in_map_iff in Hin. destruct Hin as ([[c d'] fee] & Hd & Hin).
  cbn [fst snd] in Hd. subst d'.
  unfold Engine.keyed in Hin. apply in_flat_map in Hin. destruct Hin as (row & Hrow & Hin).
  destruct (tx_gestao_row pc pls tx row H Hrow) as (m & ->).
  cbn [Engine.fee_row Tx.conta Tx.Data Tx.Valor_de_cobranca] in Hin.
  destruct (Merged.conta m); [|destruct Hin].
  destruct (Merged.Data m) as [dt|]; [|destruct Hin].
  cbn [option_map] in Hin. destruct Hin as [Hin|[]].
  injection Hin as _ <- _. exists dt. reflexivity.
Qed.

Lemma nansum_null_as_zero (l : list (option R)) :
  Float.nansum l = fold_right Rplus 0%R (map null_as_zero l).
Proof.
  induction l as [|[x|] l IH]; cbn [Float.nansum fold_right map null_as_zero] in *.
  - reflexivity.
  - fold (Float.nansum l). rewrite IH. reflexivity.
  - fold (Float.nansum l). rewrite IH. symmetry. apply Rplus_0_l.
Qed.

Lemma numeric_columns_cons (l : string) (s : Series) (df : DataFrame) :
  Pandas.numeric_columns ((l, s) :: df)
  = ((match s with FloatS v => [(l, v)] | _ => [] end)
     ++ Pandas.numeric_columns df)%list.
Proof. reflexivity. Qed.

Lemma numeric_columns_floats (f : string -> list (option R)) (cols : list string) :
  Pandas.numeric_columns (map (fun d => (d, FloatS (f d))) cols)
  = map (fun d => (d, f d)) cols.
Proof.
  induction cols as [|d cols IH]; [reflexivity|].
  cbn [map]. rewrite numeric_columns_cons, IH. reflexivity.
Qed.

Lemma date_columns_floats (f : string -> Series) (cols : list string) :
  (forall d, In d cols -> d <> "conta" /\ d <> "Total") ->
  date_columns (map (fun d => (d, f d)) cols) = map (fun d => (d, f d)) cols.
Proof.
  induction cols as [|d cols IH]; intros H; [reflexivity|].
  unfold date_columns in *. cbn [map filter fst].
  destruct (H d (or_introl eq_refl)) as [Hc Ht].
  apply String.eqb_neq in Hc, Ht. rewrite Hc, Ht. cbn [negb andb].
  rewrite IH; [reflexivity|]. intros d' Hd'. apply H. right. exact Hd'.
Qed.

(** The report of a pivot table whose date labels are not [conta] or
    [Total]: the total goes last, and the date columns are the columns of
    the pivot table. *)
Lemma with_total_shape (idx : list (option string)) (f : string -> list (option R))
  (cols : list string) :
  (forall d, In d cols -> d <> "conta" /\ d <> "Total") ->
  let pivot := ("conta", ObjectS idx) :: map (fun d => (d, FloatS (f d))) cols in
  let total := map (fun x => Some (Float.round2 x))
                   (Engine.sum_axis1 (length idx) (map f cols)) in
  Engine.with_total pivot = (pivot ++ [("Total", FloatS total)])%list
  /\ Pandas.getitem "Total" (Engine.with_total pivot) = Some (FloatS total)
  /\ date_columns (Engine.with_total pivot) = map (fun d => (d, FloatS (f d))) cols.
Proof.
  intros Hcols pivot total.
  assert (Hfresh : forall l s', In (l, s') pivot -> l <> "Total").
  { intros l s' [Hin|Hin].
    - injection Hin as <- _. discriminate.
    - apply in_map_iff in Hin. destruct Hin as (d & Hd & Hin). injection Hd as <- _.
      apply Hcols. exact Hin. }
  assert (Hw : Engine.with_total pivot = (pivot ++ [("Total", FloatS total)])%list).
  { unfold Engine.with_total. cbv zeta.
    replace (Pandas.numeric_columns pivot) with (map (fun d => (d, f d)) cols)
      by (unfold pivot; rewrite numeric_columns_cons; cbn [app];
          symmetry; apply numeric_columns_floats).
    replace (Pandas.len pivot) with (length idx) by reflexivity.
    rewrite map_map. cbn [snd]. apply setitem_fresh. exact Hfresh. }
  split; [exact Hw|]. rewrite Hw. split.
  - apply getitem_app_fresh. exact Hfresh.
  - unfold date_columns, pivot. cbn [app filter fst String.eqb Ascii.eqb Bool.eqb negb andb].
    rewrite filter_app. cbn [filter fst String.eqb Ascii.eqb Bool.eqb negb andb].
    rewrite app_nil_r. apply (date_columns_floats (fun d => FloatS (f d)) cols Hcols).
Qed.

Lemma sum_axis1_nth (n i : nat) (cols : list (list (option R))) :
  (i < n)%nat ->
  nth i (map (fun x => Some (Float.round2 x)) (Engine.sum_axis1 n cols)) None
  = Some (Float.round2 (Float.nansum (map (fun col => nth i col None) cols))).
Proof.
  intros Hi. unfold Engine.sum_axis1. rewrite map_map.
  rewrite (nth_indep _ None
             (Some (Float.round2 (Float.nansum (map (fun col => nth 0 col None) cols)))))
    by (rewrite length_map, length_seq; exact Hi).
  rewrite (map_nth (fun x => Some (Float.round2 (Float.nansum
                                (map (fun col => nth x col None) cols))))
             (seq 0 n) 0%nat i).
  rewrite seq_nth by exact Hi. reflexivity.
Qed.

Example sample_report :
  calculate_daily_fees Sample.loaded = (Sample.loaded, Returned (Some Sample.report)).
Proof. reflexivity. Qed.

(** C4. In the report the engine returns, the Total of every account row
    is the sum of the row's date-column values, a missing cell counting as
    zero, rounded to 2 decimals. *)
Theorem C4_total (w w' : World) (report : DataFrame) :
  calculate_daily_fees w = (w', Returned (Some report)) ->
  exists index total,
    Pandas.getitem "conta" report = Some (ObjectS index)
    /\ Pandas.getitem "Total" report = Some (FloatS total)
    /\ length total = length index
    /\ forall i, (i < length index)%nat ->
         nth i total None
         = Some (Float.round2
                   (fold_right Rplus 0%R
                      (map (fun c => null_as_zero (cell_at i (snd c)))
                           (date_columns report)))).
Proof.
  intros H. destruct (calculate_returns_report w w' report H) as (pc & tx & _ & Htx & -> & _).
  unfold Engine.pivot_table.
  set (groups := Engine.keyed tx).
  set (index := Engine.labels (map (fun g => fst (fst g)) groups)).
  set (columns := Engine.labels (map (fun g => snd (fst g)) groups)).
  assert (Hcols : forall d, In d columns -> d <> "conta" /\ d <> "Total").
  { intros d Hd. unfold columns in Hd. apply (proj1 (labels_In _ _)) in Hd.
    destruct (keyed_dates pc _ tx d Htx Hd) as (dt & ->).
    destruct (strftime_not_a_fixed_label dt). auto. }
  destruct (with_total_shape (map Some index)
              (fun d => map (fun c => Engine.cell groups c d) index) columns Hcols)
    as (Hw & Ht & Hd).
  cbv zeta in Hw, Ht, Hd.
  eexists. eexists. split; [rewrite Hw; reflexivity|].
  split; [exact Ht|]. split.
  { unfold Engine.sum_axis1. rewrite !length_map, length_seq. reflexivity. }
  intros i Hi. rewrite sum_axis1_nth by exact Hi. rewrite Hd.
  rewrite nansum_null_as_zero, !map_map. cbn [snd cell_at]. reflexivity.
Qed.

Lemma C4_total_witness :
  exists index total,
    Pandas.getitem "conta" Sample.report = Some (ObjectS index)
    /\ Pandas.getitem "Total" Sample.report = Some (FloatS total)
    /\ length total = length index
    /\ forall i, (i < length index)%nat ->
         nth i total None
         = Some (Float.round2
                   (fold_right Rplus 0%R
                      (map (fun c => null_as_zero (cell_at i (snd c)))
                           (date_columns Sample.report)))).
Proof.
  exact (C4_total Sample.loaded Sample.loaded Sample.report eq_refl).
Defined.

(** The daily rate of an annual rate between 0 and 100% lies between 0
    and 100. *)
Lemma daily_rate_range (t : R) :
  (0 <= t <= 1)%R ->
  (0 <= (Rpower (t + 1) (1 / 252) - 1) * 100 <= 100)%R.
Proof.
  intros Ht.
  assert (Hlo : (Rpower (t + 1) 0 <= Rpower (t + 1) (1 / 252))%R)
    by (apply Rle_Rpower; lra).
  assert (Hhi : (Rpower (t + 1) (1 / 252) <= Rpower (t + 1) 1)%R)
    by (apply Rle_Rpower; lra).
  rewrite Rpower_O in Hlo by lra. rewrite Rpower_1 in Hhi by lra. lra.
Qed.

(** The end-to-end scenario of the specification: a single date column
    01.03 holding round(100000 * ((1.02 ** (1/252) - 1) * 100) / 100, 2),
    and a Total equal to it. *)
Example end_to_end_report :
  snd (calculate_daily_fees Sample.end_to_end)
  = Returned (Some
      [("conta", ObjectS [Some "00123"]);
       ("01.03", FloatS [Some (Float.round2 (Float.div
                  (Float.mul 100000 ((Rpower (102 / 100) (1 / 252) - 1) * 100))
                  100))%R]);
       ("Total", FloatS [Some (Float.round2 (Float.div
                  (Float.mul 100000 ((Rpower (102 / 100) (1 / 252) - 1) * 100))
                  100))%R])]).
Proof.
  change (snd (calculate_daily_fees Sample.end_to_end))
    with (Returned (Some
      [("conta", ObjectS [Some "00123"]);
       ("01.03", FloatS [Some (Float.nansum
          [Engine.Valor_de_cobranca (Some 100000%R)
             (Engine.Tx_Gestao_Diaria (Some (2 / 100)%R))])]);
       ("Total", FloatS [Some (Float.round2 (Float.nansum
          [Some (Float.nansum
             [Engine.Valor_de_cobranca (Some 100000%R)
                (Engine.Tx_Gestao_Diaria (Some (2 / 100)%R))])]))])])).
  rewrite daily_formula by lra.
  cbn [Engine.Valor_de_cobranca Float.nansum fold_right].
  rewrite !Rplus_0_r, round2_idempotent.
  - replace (2 / 100 + 1)%R with (102 / 100)%R by lra. reflexivity.
  - pose proof (daily_rate_range (2 / 100)) as Hd.
    set (d := ((Rpower (2 / 100 + 1) (1 / 252) - 1) * 100)%R) in *.
    assert (Hd' : (0 <= d <= 100)%R) by (apply Hd; lra).
    unfold Float.mul, Float.div.
    set (p := Float.fl (100000 * d)).
    set (q := Float.fl (p / 100)).
    destruct (fl_abs (100000 * d)) as [M1 _]. fold p in M1.
    destruct (fl_abs (p / 100)) as [M2 _]. fold q in M2.
    destruct (fl_abs (q * 100)) as [M3 _].
    assert (A1 : Rabs (100000 * d) = (100000 * d)%R) by (apply Rabs_pos_eq; lra).
    assert (A2 : Rabs (p / 100) = (Rabs p / 100)%R).
    { unfold Rdiv. rewrite Rabs_mult, (Rabs_pos_eq (/ 100)) by lra. reflexivity. }
    assert (A3 : Rabs (q * 100) = (Rabs q * 100)%R).
    { rewrite Rabs_mult, (Rabs_pos_eq 100) by lra. reflexivity. }
    rewrite A1 in M1. rewrite A2 in M2. rewrite A3 in M3.
    pose proof (Rabs_pos p) as P1. pose proof (Rabs_pos q) as P2.
    set (ap := Rabs p) in *. set (aq := Rabs q) in *. lra.
Qed.

(** ** Which accounts the report lists *)

Lemma key_eqb_eq (a b : option string) : Engine.key_eqb a b = true <-> a = b.
Proof.
  destruct a as [x|], b as [y|]; cbn [Engine.key_eqb];
    try (split; [discriminate | intros H; discriminate H]).
  - rewrite String.eqb_eq. split; [intros ->; reflexivity | intros H; injection H; auto].
  - split; reflexivity.
Qed.

(** A merged row has a date exactly when it comes from a snapshot row, and
    then it has that row's account. *)
Lemma merge_outer_dated left right (k : option string) (d : datetime) :
  (exists t v, In (Merged.mk k t v (Some d)) (Engine.merge_outer left right))
  <-> (exists v, In (k, v, Some d) right).
Proof.
  unfold Engine.merge_outer. split.
  - intros (t & v & Hin). apply in_app_or in Hin. destruct Hin as [Hin|Hin].
    + apply in_flat_map in Hin. destruct Hin as ([k0 t0] & _ & Hin).
      destruct (filter (fun '(k', _, _) => Engine.key_eqb k0 k') right) as [|p ms] eqn:F.
      * destruct Hin as [Hin|[]]. discriminate Hin.
      * apply in_map_iff in Hin. destruct Hin as ([[k' v'] d'] & Heq & Hin).
        injection Heq as -> -> -> ->. rewrite <- F in Hin.
        apply filter_In in Hin. destruct Hin as [Hin Hk].
        apply key_eqb_eq in Hk. subst k'. exists v. exact Hin.
    + apply in_flat_map in Hin. destruct Hin as ([[k0 v0] d0] & Hr & Hin).
      destruct (existsb (fun '(k', _) => Engine.key_eqb k' k0) left); [destruct Hin|].
      destruct Hin as [Hin|[]]. injection Hin as -> _ -> ->. exists v. exact Hr.
  - intros (v & Hin).
    destruct (existsb (fun '(k', _) => Engine.key_eqb k' k) left) eqn:E.
    + apply existsb_exists in E. destruct E as ([k' t] & Hl & Hk).
      apply key_eqb_eq in Hk. subst k'. exists t, v. apply in_or_app. left.
      apply in_flat_map. exists (k, t). split; [exact Hl|].
      assert (Hf : In (k, v, Some d) (filter (fun '(k', _, _) => Engine.key_eqb k k') right)).
      { apply filter_In. split; [exact Hin|]. apply key_eqb_eq. reflexivity. }
      destruct (filter (fun '(k', _, _) => Engine.key_eqb k k') right) as [|p ms];
        [destruct Hf|].
      apply in_map_iff. exists (k, v, Some d). split; [reflexivity | exact Hf].
    + exists None, v. apply in_or_app. right.
      apply in_flat_map. exists (k, v, Some d). split; [exact Hin|].
      rewrite E. left. reflexivity.
Qed.

(** A left row without a partner stays in the merge, with no date. *)
Lemma merge_outer_left_only left right (c : string) (t : option R) :
  In (Some c, t) left ->
  (forall v d, ~ In (Some c, v, d) right) ->
  In (Merged.mk (Some c) t None None) (Engine.merge_outer left right).
Proof.
  intros Hl Hr. unfold Engine.merge_outer. apply in_or_app. left.
  apply in_flat_map. exists (Some c, t). split; [exact Hl|].
  destruct (filter (fun '(k', _, _) => Engine.key_eqb (Some c) k') right)
    as [|[[k' v'] d'] ms] eqn:F; [left; reflexivity|].
  exfalso. assert (Hin : In (k', v', d') ((k', v', d') :: ms)) by (left; reflexivity).
  rewrite <- F in Hin. apply filter_In in Hin. destruct Hin as [Hin Hk].
  apply key_eqb_eq in Hk. subst k'. exact (Hr v' d' Hin).
Qed.

Lemma keyed_accounts (rows : list Merged.row) (c : string) :
  In c (map (fun g => fst (fst g))
            (Engine.keyed (map Engine.fee_row (Engine.dropna_conta rows))))
  <-> (exists t v d, In (Merged.mk (Some c) t v (Some d)) rows).
Proof.
  unfold Engine.keyed, Engine.dropna_conta. split.
  - intros Hin. apply in_map_iff in Hin. destruct Hin as ([[c' d'] fee] & Hc & Hin).
    cbn [fst] in Hc. subst c'.
    apply in_flat_map in Hin. destruct Hin as (row & Hrow & Hin).
    apply in_map_iff in Hrow. destruct Hrow as (m & <- & Hm).
    apply filter_In in Hm. destruct Hm as [Hm _].
    destruct m as [k t v d].
    cbn [Engine.fee_row Tx.conta Tx.Data Merged.conta Merged.Data
           Merged.Taxa_de_Gestao Merged.VALOR] in Hin.
    destruct k as [k|]; [|destruct Hin]. destruct d as [d|]; [|destruct Hin].
    cbn [option_map] in Hin. destruct Hin as [Hin|[]]. injection Hin as -> _ _.
    exists t, v, d. exact Hm.
  - intros (t & v & d & Hm). apply in_map_iff.
    exists (c, Calendar.strftime_dm d,
            Engine.Valor_de_cobranca v (Engine.Tx_Gestao_Diaria t)).
    split; [reflexivity|]. apply in_flat_map.
    exists (Engine.fee_row (Merged.mk (Some c) t v (Some d))). split.
    + apply in_map. apply filter_In. split; [exact Hm | reflexivity].
    + left. reflexivity.
Qed.

Lemma snapshot_rows_dated (pl : DataFrame) rows k v d :
  dated pl -> Engine.snapshot_rows pl = Returned rows -> In (k, v, d) rows ->
  exists dt, d = Some dt.
Proof.
  intros (date & n & Hd) H Hin. unfold Engine.snapshot_rows in H. rewrite Hd in H.
  destruct (Pandas.getitem "conta" pl) as [[ks| |]|]; try discriminate H.
  destruct (Pandas.getitem "VALOR" pl) as [[|vs|]|]; try discriminate H.
  injection H as <-. apply in_combine_r in Hin. apply repeat_spec in Hin.
  exists date. exact Hin.
Qed.

Lemma concat_dated (pls : list DataFrame) rows k v d :
  Forall dated pls -> Engine.concat pls = Returned rows -> In (k, v, d) rows ->
  exists dt, d = Some dt.
Proof.
  intros Hall. revert rows. induction Hall as [|pl pls Hpl _ IH]; intros rows H Hin.
  - injection H as <-. destruct Hin.
  - cbn [Engine.concat] in H.
    destruct (Engine.snapshot_rows pl) as [rs|e] eqn:Hrs; [|discriminate H].
    destruct (Engine.concat pls) as [rest|e]; [|discriminate H].
    injection H as <-. apply in_app_or in Hin. destruct Hin as [Hin|Hin].
    + exact (snapshot_rows_dated pl rs k v d Hpl Hrs Hin).
    + exact (IH rest eq_refl Hin).
Qed.

Lemma occurrences_NoDup (l : list string) (id : string) :
  NoDup l ->
  (In id l -> occurrences id (map Some l) = 1%nat)
  /\ (~ In id l -> occurrences id (map Some l) = 0%nat).
Proof.
  unfold occurrences. induction 1 as [|x l Hx _ IH]; cbn [map filter].
  - split; [intros [] | reflexivity].
  - destruct (String.eqb x id) eqn:E.
    + apply String.eqb_eq in E. subst x. cbn [length]. split.
      * intros _. rewrite (proj2 IH Hx). reflexivity.
      * intros Hn. exfalso. apply Hn. left. reflexivity.
    + apply String.eqb_neq in E. split.
      * intros [->|Hin]; [congruence | apply IH; exact Hin].
      * intros Hn. apply IH. intros Hin. apply Hn. right. exact Hin.
Qed.

(** The index of the report: without repetition, the accounts of the
    snapshot rows that have an account and a date. *)
Lemma pivot_index (w w' : World) (report : DataFrame) :
  calculate_daily_fees w = (w', Returned (Some report)) ->
  exists index,
    Pandas.getitem "conta" report = Some (ObjectS (map Some index))
    /\ NoDup index
    /\ forall id, In id index
         <-> exists v d, match Engine.concat (pl_data (self w)) with
                         | Returned rows => In (Some id, v, Some d) rows
                         | Raised _ => False
                         end.
Proof.
  intros H. destruct (calculate_returns_report w w' report H) as (pc & tx & _ & Htx & -> & _).
  unfold Engine.tx_gestao in Htx.
  destruct (Engine.concat (pl_data (self w))) as [pl_combined|e]; [|discriminate Htx].
  destruct (Engine.control_rows pc) as [reference|e]; [|discriminate Htx].
  injection Htx as <-.
  exists (Engine.labels (map (fun g => fst (fst g))
            (Engine.keyed (map Engine.fee_row
               (Engine.dropna_conta (Engine.merge_outer reference pl_combined)))))).
  split; [|split].
  - unfold Engine.with_total, Engine.pivot_table. cbv zeta.
    rewrite getitem_setitem_other by discriminate. reflexivity.
  - apply labels_NoDup.
  - intros id. rewrite labels_In, keyed_accounts. split.
    + intros (t & v & d & Hin).
      destruct (proj1 (merge_outer_dated reference pl_combined (Some id) d)) as (v' & Hr).
      * exists t, v. exact Hin.
      * exists v', d. exact Hr.
    + intros (v & d & Hin).
      destruct (proj2 (merge_outer_dated reference pl_combined (Some id) d)) as (t & v' & Hm).
      * exists v. exact Hin.
      * exists t, v', d. exact Hm.
Qed.

Lemma snapshot_accounts_spec (me : CalculandoTaxadeGestao) rows (id : string) :
  Forall dated (pl_data me) ->
  Engine.concat (pl_data me) = Returned rows ->
  In id (snapshot_accounts me) <-> exists v d, In (Some id, v, Some d) rows.
Proof.
  intros Hd Hrows. unfold snapshot_accounts. rewrite Hrows. split.
  - intros Hin. apply in_flat_map in Hin. destruct Hin as ([[k v] d] & Hr & Hin).
    cbn [fst] in Hin. destruct k as [c|]; [|destruct Hin].
    destruct Hin as [->|[]].
    destruct (concat_dated (pl_data me) rows (Some id) v d Hd Hrows Hr) as (dt & ->).
    exists v, dt. exact Hr.
  - intros (v & d & Hr). apply in_flat_map. exists (Some id, v, Some d).
    split; [exact Hr | left; reflexivity].
Qed.

(** C3, as amended. In a session whose snapshot frames carry their file's
    date on every row, as [load_pl_file] builds them, every account
    identifier that is not missing and appears in at least one accumulated
    snapshot row appears in the index of the report exactly once, whether
    the reference table has it or not; an identifier that no snapshot row
    has, one that appears only in the reference table included, does not
    appear in the index. *)
Theorem C3_index (w w' : World) (report : DataFrame) :
  Forall dated (pl_data (self w)) ->
  calculate_daily_fees w = (w', Returned (Some report)) ->
  exists index,
    Pandas.getitem "conta" report = Some (ObjectS index)
    /\ forall id,
         (In id (snapshot_accounts (self w)) -> occurrences id index = 1%nat)
         /\ (~ In id (snapshot_accounts (self w)) -> occurrences id index = 0%nat).
Proof.
  intros Hd H. destruct (pivot_index w w' report H) as (index & Hget & Hnd & Hin).
  exists (map Some index). split; [exact Hget|]. intros id.
  destruct (Engine.concat (pl_data (self w))) as [rows|e] eqn:Hrows.
  - pose proof (snapshot_accounts_spec (self w) rows id Hd Hrows) as Hs.
    destruct (occurrences_NoDup index id Hnd) as [H1 H0]. split.
    + intros Ha. apply H1. apply Hin. apply Hs. exact Ha.
    + intros Hn. apply H0. intros Hi. apply Hn. apply Hs. apply Hin. exact Hi.
  - destruct (occurrences_NoDup index id Hnd) as [_ H0]. split.
    + unfold snapshot_accounts. rewrite Hrows. intros [].
    + intros _. apply H0. intros Hi. apply Hin in Hi. destruct Hi as (v & d & []).
Qed.

Lemma sample_loaded_dated : Forall dated (pl_data (self Sample.loaded)).
Proof.
  constructor; [|constructor]. exists (mk_dt 2025 3 1), 2%nat. reflexivity.
Defined.

Lemma C3_index_witness :
  exists index,
    Pandas.getitem "conta" Sample.report = Some (ObjectS index)
    /\ forall id,
         (In id (snapshot_accounts (self Sample.loaded)) -> occurrences id index = 1%nat)
         /\ (~ In id (snapshot_accounts (self Sample.loaded)) -> occurrences id index = 0%nat).
Proof.
  exact (C3_index Sample.loaded Sample.loaded Sample.report sample_loaded_dated eq_refl).
Defined.

(** The claim as stated fails for an account that only the reference table
    has: 00555555 is in the reference table of the sample session, the
    outer join keeps its row, and the index of the report does not have
    it. *)
Lemma C3_counterexample :
  calculate_daily_fees Sample.loaded = (Sample.loaded, Returned (Some Sample.report))
  /\ Pandas.getitem "conta" Sample.report
     = Some (ObjectS [Some "00777777"; Some "00989247"])
  /\ In "00555555" (reference_accounts (self Sample.loaded))
  /\ In (Engine.fee_row (Merged.mk (Some "00555555") (Some (1 / 100)%R) None None))
        Sample.joined
  /\ occurrences "00555555" [Some "00777777"; Some "00989247"] = 0%nat.
Proof.
  split; [reflexivity|]. split; [reflexivity|].
  split; [right; left; reflexivity|].
  split; [right; left; reflexivity|]. reflexivity.
Qed.

(** ** The sessions of a run *)

Lemma load_pl_file_dated y up name w :
  Forall dated (pl_data (self w)) ->
  Forall dated (pl_data (self (fst (load_pl_file y up name w)))).
Proof.
  intros H. unfold load_pl_file. py_unfold.
  destruct (DateTag.extract y name) as [date|f]; [|exact H].
  destruct up as [df|]; [|exact H].
  destruct (Pandas.select ["Conta"; "Valor"] df) as [r|l]; [|exact H].
  cbn [fst self pl_data]. apply Forall_app. split; [exact H|].
  constructor; [|constructor]. eexists. eexists. apply getitem_setitem_same.
Qed.

(** Every snapshot frame of a session the application reaches is dated. *)
Lemma reachable_dated (w : World) :
  reachable w -> Forall dated (pl_data (self w)).
Proof.
  induction 1 as [|float_str up w _ IH|y up name w _ IH|w _ IH].
  - constructor.
  - rewrite load_control_file_pl_data. exact IH.
  - apply load_pl_file_dated. exact IH.
  - rewrite calculate_daily_fees_self. exact IH.
Qed.

(** * Further properties *)

(** ** File names and their date tags *)

Lemma prefix_split (p s : string) :
  prefix p s = true -> exists rest, s = p ++ rest.
Proof.
  revert s. induction p as [|a p IH]; intros s H.
  - exists s. reflexivity.
  - destruct s as [|b s]; [discriminate H|]. cbn [prefix] in H.
    destruct (ascii_dec a b) as [->|_]; [|discriminate H].
    destruct (IH s H) as (rest & ->). exists rest. reflexivity.
Qed.

Lemma string_of_list_ascii_app (l l' : list ascii) :
  string_of_list_ascii (l ++ l')%list
  = string_of_list_ascii l ++ string_of_list_ascii l'.
Proof. induction l as [|a l IH]; cbn; [reflexivity | rewrite IH; reflexivity]. Qed.

Lemma list_ascii_of_string_app (s s' : string) :
  list_ascii_of_string (s ++ s')
  = (list_ascii_of_string s ++ list_ascii_of_string s')%list.
Proof. induction s as [|a s IH]; cbn; [reflexivity | rewrite IH; reflexivity]. Qed.

(** The decoder reads a character off the head of its input, and the
    reading does not depend on what follows. *)
Lemma decode_split (s : list ascii) (cp : N) (bytes rest : list ascii) :
  PyStr.decode s = Some (cp, bytes, rest) ->
  s = (bytes ++ rest)%list /\ bytes <> []
  /\ forall rest', PyStr.decode (bytes ++ rest') = Some (cp, bytes, rest').
Proof.
  unfold PyStr.decode. intros H. destruct s as [|a s]; [discriminate H|].
  cbv zeta in H.
  destruct (PyStr.byte a <? 128)%N eqn:E1.
  { injection H as <- <- <-. split; [reflexivity|]. split; [discriminate|].
    intros rest'. cbn [app]. rewrite E1. reflexivity. }
  destruct ((194 <=? PyStr.byte a) && (PyStr.byte a <=? 223))%N eqn:E2.
  { destruct s as [|b s]; [discriminate H|].
    destruct (PyStr.continuation b) eqn:Eb; [|discriminate H].
    injection H as <- <- <-. split; [reflexivity|]. split; [discriminate|].
    intros rest'. cbn [app]. rewrite E1, E2, Eb. reflexivity. }
  destruct ((224 <=? PyStr.byte a) && (PyStr.byte a <=? 239))%N eqn:E3.
  { destruct s as [|b [|c s]]; try discriminate H.
    match type of H with (if ?t then _ else _) = _ => destruct t eqn:Et end;
      [|discriminate H].
    injection H as <- <- <-. split; [reflexivity|]. split; [discriminate|].
    intros rest'. cbn [app]. rewrite E1, E2, E3, Et. reflexivity. }
  destruct ((240 <=? PyStr.byte a) && (PyStr.byte a <=? 244))%N eqn:E4;
    [|discriminate H].
  destruct s as [|b [|c [|d s]]]; try discriminate H.
  match type of H with (if ?t then _ else _) = _ => destruct t eqn:Et end;
    [|discriminate H].
  injection H as <- <- <-. split; [reflexivity|]. split; [discriminate|].
  intros rest'. cbn [app]. rewrite E1, E2, E3, E4, Et. reflexivity.
Qed.

Lemma digit_split (s : list ascii) (v : Z) (bytes rest : list ascii) :
  PyStr.digit s = Some (v, bytes, rest) ->
  s = (bytes ++ rest)%list /\ bytes <> []
  /\ forall rest', PyStr.digit (bytes ++ rest') = Some (v, bytes, rest').
Proof.
  unfold PyStr.digit. intros H.
  destruct (PyStr.decode s) as [[[cp b] r]|] eqn:Hd; [|discriminate H].
  destruct (PyStr.decimal cp) as [v'|] eqn:Hv; [|discriminate H].
  injection H as <- <- <-.
  destruct (decode_split s cp b r Hd) as (Hs & Hb & Happ).
  split; [exact Hs|]. split; [exact Hb|].
  intros rest'. rewrite Happ, Hv. reflexivity.
Qed.

Lemma digit_char (s : list ascii) (v : Z) (bytes rest : list ascii) :
  PyStr.digit s = Some (v, bytes, rest) -> is_digit_char bytes.
Proof.
  intros H. destruct (digit_split s v bytes rest H) as (_ & _ & Happ).
  exists v. rewrite <- (app_nil_r bytes) at 1. apply Happ.
Qed.

Lemma digit_char_app (bytes rest : list ascii) :
  is_digit_char bytes ->
  exists v, PyStr.digit (bytes ++ rest) = Some (v, bytes, rest).
Proof.
  intros (v & H). destruct (digit_split bytes v bytes [] H) as (_ & _ & Happ).
  exists v. apply Happ.
Qed.

Lemma skip_prefix (rest : string) :
  skipn 11 (list_ascii_of_string ("PL Total - " ++ rest)) = list_ascii_of_string rest.
Proof. reflexivity. Qed.

Lemma prefix_tag (rest : string) : prefix "PL Total - " ("PL Total - " ++ rest) = true.
Proof. cbn. destruct rest; reflexivity. Qed.

Lemma match_here_sound (s g : string) :
  DateTag.match_here s = Some g ->
  is_tag g /\ exists post, s = "PL Total - " ++ g ++ post.
Proof.
  unfold DateTag.match_here. intros H.
  destruct (prefix "PL Total - " s) eqn:Hp; [|discriminate H].
  destruct (prefix_split _ _ Hp) as (rest & ->).
  rewrite skip_prefix in H.
  destruct (PyStr.digit (list_ascii_of_string rest)) as [[[v1 d1] s1]|] eqn:H1;
    [|discriminate H].
  destruct (PyStr.digit s1) as [[[v2 d2] s2]|] eqn:H2; [|discriminate H].
  destruct s2 as [|p s3]; [discriminate H|].
  destruct (Ascii.eqb p ".") eqn:Hdot; [|discriminate H].
  destruct (PyStr.digit s3) as [[[v3 m1] s4]|] eqn:H3; [|discriminate H].
  destruct (PyStr.digit s4) as [[[v4 m2] s5]|] eqn:H4; [|discriminate H].
  injection H as <-. apply Ascii.eqb_eq in Hdot. subst p.
  destruct (digit_split _ _ _ _ H1) as (E1 & _). destruct (digit_split _ _ _ _ H2) as (E2 & _).
  destruct (digit_split _ _ _ _ H3) as (E3 & _). destruct (digit_split _ _ _ _ H4) as (E4 & _).
  split.
  - exists d1, d2, m1, m2. split; [reflexivity|].
    repeat split; eapply digit_char; eassumption.
  - exists (string_of_list_ascii s5).
    rewrite <- (string_of_list_ascii_of_string rest) at 1.
    rewrite E1, E2, E3, E4, <- string_of_list_ascii_app. f_equal.
    rewrite <- !app_assoc. cbn [app]. rewrite <- !app_assoc. reflexivity.
Qed.

Lemma match_here_complete (g post : string) :
  is_tag g -> DateTag.match_here ("PL Total - " ++ g ++ post) = Some g.
Proof.
  intros (d1 & d2 & m1 & m2 & -> & H1 & H2 & H3 & H4).
  unfold DateTag.match_here. rewrite prefix_tag, skip_prefix.
  rewrite list_ascii_of_string_app, list_ascii_of_string_of_list_ascii.
  rewrite <- !app_assoc. cbn [app]. rewrite <- !app_assoc.
  destruct (digit_char_app d1 (d2 ++ "."%char :: m1 ++ m2 ++ list_ascii_of_string post) H1)
    as (v1 & ->).
  destruct (digit_char_app d2 ("."%char :: m1 ++ m2 ++ list_ascii_of_string post) H2)
    as (v2 & ->).
  cbn [Ascii.eqb Bool.eqb].
  destruct (digit_char_app m1 (m2 ++ list_ascii_of_string post) H3) as (v3 & ->).
  destruct (digit_char_app m2 (list_ascii_of_string post) H4) as (v4 & ->).
  reflexivity.
Qed.

Lemma search_sound (s g : string) :
  DateTag.search s = Some g ->
  is_tag g /\ exists pre post, s = pre ++ "PL Total - " ++ g ++ post.
Proof.
  induction s as [|c s IH]; cbn [DateTag.search].
  - destruct (DateTag.match_here "") eqn:Hm; [|discriminate].
    intros H. injection H as ->. destruct (match_here_sound _ _ Hm) as (Ht & post & Hs).
    split; [exact Ht|]. exists "", post. exact Hs.
  - destruct (DateTag.match_here (String c s)) eqn:Hm.
    + intros H. injection H as ->. destruct (match_here_sound _ _ Hm) as (Ht & post & Hs).
      split; [exact Ht|]. exists "", post. exact Hs.
    + intros H. destruct (IH H) as (Ht & pre & post & ->).
      split; [exact Ht|]. exists (String c pre), post. reflexivity.
Qed.

Lemma search_cons (c : ascii) (s : string) :
  DateTag.search (String c s)
  = match DateTag.match_here (String c s) with
    | Some g => Some g
    | None => DateTag.search s
    end.
Proof. reflexivity. Qed.

Lemma search_complete (pre g post : string) :
  is_tag g -> exists g', DateTag.search (pre ++ "PL Total - " ++ g ++ post) = Some g'.
Proof.
  intros Ht. pose proof (match_here_complete g post Ht) as Hm.
  set (tail := "PL Total - " ++ g ++ post) in *.
  induction pre as [|c pre IH].
  - exists g. change ("" ++ tail) with tail.
    assert (Hc : exists c s, tail = String c s) by (eexists; eexists; reflexivity).
    destruct Hc as (c & s & Hc). rewrite Hc in *. rewrite search_cons, Hm. reflexivity.
  - destruct IH as (g' & IH).
    change (String c pre ++ tail) with (String c (pre ++ tail)). rewrite search_cons.
    destruct (DateTag.match_here (String c (pre ++ tail))) as [g0|].
    + exists g0. reflexivity.
    + exists g'. exact IH.
Qed.

Lemma extract_missing_iff (y : Z) (name : string) :
  DateTag.extract y name = inr DateTag.MissingDateTag <-> DateTag.search name = None.
Proof.
  unfold DateTag.extract. destruct (DateTag.search name) as [g|].
  - split; [|discriminate]. destruct (DateTag.strptime_dm g) as [dt|]; [|discriminate].
    destruct (Calendar.replace_year dt y); discriminate.
  - split; reflexivity.
Qed.

(** X1. The date extraction of [load_pl_file] fails with the missing-tag
    error exactly when no substring of the file name has the form
    "PL Total - DD.MM" with four decimal digits, ASCII or not; and the tag
    the search returns is such a substring of the name. *)
Theorem X1_missing_tag (current_year : Z) (file_name : string) :
  (DateTag.extract current_year file_name = inr DateTag.MissingDateTag
   <-> ~ has_tag file_name)
  /\ (forall g, DateTag.search file_name = Some g ->
        is_tag g /\ exists pre post, file_name = pre ++ "PL Total - " ++ g ++ post).
Proof.
  split; [|intros g; apply search_sound].
  rewrite extract_missing_iff. split.
  - intros Hn (pre & g & post & Ht & ->).
    destruct (search_complete pre g post Ht) as (g' & Hg). congruence.
  - intros Hn. destruct (DateTag.search file_name) as [g|] eqn:Hs; [|reflexivity].
    exfalso. apply Hn. destruct (search_sound _ _ Hs) as (Ht & pre & post & ->).
    exists pre, g, post. split; [exact Ht | reflexivity].
Qed.

Lemma ascii_digit (c : ascii) : is_digit_char [c] -> In c digits.
Proof.
  intros (v & H).
  destruct c as [[] [] [] [] [] [] [] []]; vm_compute in H;
    try discriminate H; cbn; tauto.
Qed.

(** A tag of five bytes is written with ASCII digits. *)
Lemma tag_of_ascii (d1 d2 m1 m2 : ascii) :
  is_tag (tag_of d1 d2 m1 m2) ->
  In d1 digits /\ In d2 digits /\ In m1 digits /\ In m2 digits.
Proof.
  intros (b1 & b2 & b3 & b4 & E & H1 & H2 & H3 & H4).
  apply (f_equal list_ascii_of_string) in E.
  rewrite list_ascii_of_string_of_list_ascii in E. cbn [tag_of list_ascii_of_string] in E.
  assert (N1 : b1 <> []) by (destruct H1 as (v & H); apply (digit_split _ _ _ _ H)).
  assert (N2 : b2 <> []) by (destruct H2 as (v & H); apply (digit_split _ _ _ _ H)).
  assert (N3 : b3 <> []) by (destruct H3 as (v & H); apply (digit_split _ _ _ _ H)).
  assert (N4 : b4 <> []) by (destruct H4 as (v & H); apply (digit_split _ _ _ _ H)).
  pose proof (f_equal (@length ascii) E) as L.
  rewrite !length_app in L. cbn [length] in L. rewrite length_app in L.
  destruct b1 as [|x1 [|? ?]]; [congruence| |cbn [length] in L; destruct b2, b3, b4; cbn [length] in L; try congruence; lia].
  destruct b2 as [|x2 [|? ?]]; [congruence| |cbn [length] in L; destruct b3, b4; cbn [length] in L; try congruence; lia].
  destruct b3 as [|x3 [|? ?]]; [congruence| |cbn [length] in L; destruct b4; cbn [length] in L; try congruence; lia].
  destruct b4 as [|x4 [|? ?]]; [congruence| |cbn [length] in L; lia].
  cbn [app] in E. injection E as -> -> -> ->.
  repeat split; apply ascii_digit; assumption.
Qed.

Lemma forall4b_spec {A : Type} (P : A -> A -> A -> A -> bool) (l : list A) :
  forall4b P l = true ->
  forall a b c d, In a l -> In b l -> In c l -> In d l -> P a b c d = true.
Proof.
  unfold forall4b. intros H a b c d Ha Hb Hc Hd.
  pose proof (proj1 (forallb_forall _ l) H a Ha) as H1. cbv beta in H1.
  pose proof (proj1 (forallb_forall _ l) H1 b Hb) as H2. cbv beta in H2.
  pose proof (proj1 (forallb_forall _ l) H2 c Hc) as H3. cbv beta in H3.
  exact (proj1 (forallb_forall _ l) H3 d Hd).
Qed.

Lemma all_tags_checked : forall4b tag_checked digits = true.
Proof. vm_compute. reflexivity. Qed.

Lemma datetime_eqb_eq (a b : datetime) : datetime_eqb a b = true -> a = b.
Proof.
  destruct a, b. unfold datetime_eqb. cbn [year month day]. intros H.
  apply andb_prop in H. destruct H as [H Hd]. apply andb_prop in H. destruct H as [Hy Hm].
  apply Z.eqb_eq in Hy, Hm, Hd. congruence.
Qed.

Lemma option_datetime_eqb_eq (a b : option datetime) :
  option_datetime_eqb a b = true -> a = b.
Proof.
  destruct a, b; cbn; intros H; try discriminate H; [|reflexivity].
  f_equal. apply datetime_eqb_eq. exact H.
Qed.

(** On a tag of ASCII digits, [strptime] with ['%d.%m'] is the calendar
    check of 1900. *)
Lemma strptime_tag (d1 d2 m1 m2 : ascii) :
  In d1 digits -> In d2 digits -> In m1 digits -> In m2 digits ->
  DateTag.strptime_dm (tag_of d1 d2 m1 m2)
  = Calendar.new 1900 (two_digit_val m1 m2) (two_digit_val d1 d2).
Proof.
  intros H1 H2 H3 H4.
  pose proof (forall4b_spec tag_checked digits all_tags_checked d1 d2 m1 m2 H1 H2 H3 H4) as H.
  unfold tag_checked in H. apply andb_prop in H. destruct H as [H _].
  apply option_datetime_eqb_eq. exact H.
Qed.

Lemma strftime_tag (y : Z) (d1 d2 m1 m2 : ascii) :
  In d1 digits -> In d2 digits -> In m1 digits -> In m2 digits ->
  Calendar.strftime_dm (mk_dt y (two_digit_val m1 m2) (two_digit_val d1 d2))
  = tag_of d1 d2 m1 m2.
Proof.
  intros H1 H2 H3 H4.
  pose proof (forall4b_spec tag_checked digits all_tags_checked d1 d2 m1 m2 H1 H2 H3 H4) as H.
  unfold tag_checked in H. apply andb_prop in H. destruct H as [_ H].
  apply String.eqb_eq in H. exact H.
Qed.

Lemma new_some (y m d : Z) (dt : datetime) :
  Calendar.new y m d = Some dt -> dt = mk_dt y m d.
Proof.
  unfold Calendar.new. destruct (_ && _); [|discriminate]. intros H. injection H as <-.
  reflexivity.
Qed.

(** A day of 1900 is a day of every year. *)
Lemma new_1900_any_year (y m d : Z) :
  1 <= y <= 9999 ->
  Calendar.new 1900 m d <> None ->
  Calendar.new y m d = Some (mk_dt y m d).
Proof.
  intros Hy H. unfold Calendar.new in *.
  destruct ((1 <=? 1900) && (1900 <=? 9999) && (1 <=? m) && (m <=? 12)
            && (1 <=? d) && (d <=? Calendar.days_in_month 1900 m)) eqn:E;
    [|congruence].
  repeat (apply andb_prop in E; destruct E as [E ?]).
  assert (Hdays : Calendar.days_in_month 1900 m <= Calendar.days_in_month y m).
  { unfold Calendar.days_in_month. destruct (m =? 2).
    - change (Calendar.is_leap 1900) with false. destruct (Calendar.is_leap y); lia.
    - lia. }
  replace (1 <=? y) with true by (symmetry; apply Z.leb_le; lia).
  replace (y <=? 9999) with true by (symmetry; apply Z.leb_le; lia).
  replace (1 <=? m) with true by (symmetry; assumption).
  replace (m <=? 12) with true by (symmetry; assumption).
  replace (1 <=? d) with true by (symmetry; assumption).
  replace (d <=? Calendar.days_in_month y m) with true
    by (symmetry; apply Z.leb_le; apply Z.leb_le in H0; lia).
  reflexivity.
Qed.

(** X2. A file whose leftmost tag is DD.MM, written with ASCII digits, is
    accepted exactly when MM is a month and DD a day of that month in the
    year 1900, which has no 29 February; the date then has that day, that
    month and the current year.  Which files are accepted does not depend
    on the current year. *)
Theorem X2_accepted_tags (current_year : Z) (file_name : string) (d1 d2 m1 m2 : ascii) :
  1 <= current_year <= 9999 ->
  DateTag.search file_name = Some (tag_of d1 d2 m1 m2) ->
  let d := two_digit_val d1 d2 in
  let m := two_digit_val m1 m2 in
  DateTag.extract current_year file_name
  = if (1 <=? m) && (m <=? 12) && (1 <=? d) && (d <=? Calendar.days_in_month 1900 m)
    then inl (mk_dt current_year m d)
    else inr DateTag.InvalidDateTag.
Proof.
  intros Hy Hs d m.
  destruct (search_sound _ _ Hs) as (Ht & _).
  destruct (tag_of_ascii d1 d2 m1 m2 Ht) as (H1 & H2 & H3 & H4).
  unfold DateTag.extract. rewrite Hs, (strptime_tag d1 d2 m1 m2 H1 H2 H3 H4).
  fold d m.
  pose proof (new_1900_any_year current_year m d Hy) as Hnew.
  unfold Calendar.new in *.
  change ((1 <=? 1900) && (1900 <=? 9999)) with true in *. cbn [andb] in *.
  destruct ((1 <=? m) && (m <=? 12) && (1 <=? d) && (d <=? Calendar.days_in_month 1900 m)).
  - unfold Calendar.replace_year, Calendar.new. cbn [month day].
    rewrite Hnew by discriminate. reflexivity.
  - reflexivity.
Qed.

Lemma X2_accepted_tags_witness :
  DateTag.extract 2025 "PL Total - 31.07.xlsx" = inl (mk_dt 2025 7 31).
Proof.
  exact (X2_accepted_tags 2025 "PL Total - 31.07.xlsx" "3" "1" "0" "7"
           (conj (Zle_bool_imp_le 1 2025 eq_refl) (Zle_bool_imp_le 2025 9999 eq_refl))
           eq_refl).
Defined.

(** X3. When the extraction accepts a file whose tag is written with
    ASCII digits, the date has the current year, and formatting it with
    ['%d.%m'] (line 79) gives back the DD.MM found in the file name: the
    column of the file in the report is labelled with the tag of its
    name. *)
Theorem X3_label_round_trip (current_year : Z) (file_name : string)
  (d1 d2 m1 m2 : ascii) (date : datetime) :
  DateTag.search file_name = Some (tag_of d1 d2 m1 m2) ->
  DateTag.extract current_year file_name = inl date ->
  year date = current_year
  /\ Calendar.strftime_dm date = tag_of d1 d2 m1 m2.
Proof.
  intros Hs H. unfold DateTag.extract in H. rewrite Hs in H.
  destruct (search_sound _ _ Hs) as (Ht & _).
  destruct (tag_of_ascii d1 d2 m1 m2 Ht) as (H1 & H2 & H3 & H4).
  rewrite (strptime_tag d1 d2 m1 m2 H1 H2 H3 H4) in H.
  destruct (Calendar.new 1900 _ _) as [dt|] eqn:Hdt; [|discriminate H].
  apply new_some in Hdt. subst dt. unfold Calendar.replace_year in H. cbn [month day] in H.
  destruct (Calendar.new current_year _ _) as [dt|] eqn:Hdt; [|discriminate H].
  apply new_some in Hdt. injection H as <-. subst dt. split; [reflexivity|].
  apply strftime_tag; assumption.
Qed.

Lemma X3_label_round_trip_witness :
  year (mk_dt 2025 7 31) = 2025
  /\ Calendar.strftime_dm (mk_dt 2025 7 31) = tag_of "3" "1" "0" "7".
Proof.
  exact (X3_label_round_trip 2025 "PL Total - 31.07.xlsx" "3" "1" "0" "7"
           (mk_dt 2025 7 31) eq_refl eq_refl).
Defined.

(** A tag with a digit that is not ASCII is labelled with ASCII digits. *)
Example label_of_other_digits :
  DateTag.extract 2025 "PL Total - 1٢.03.xlsx" = inl (mk_dt 2025 3 12)
  /\ Calendar.strftime_dm (mk_dt 2025 3 12) = "12.03".
Proof. split; reflexivity. Qed.

(** ** The account normaliser *)

Lemma chop_char (c : string) (r : list ascii) :
  is_char c -> PyStr.chop (rev (list_ascii_of_string c) ++ r) = r.
Proof.
  intros (cp & H). set (l := list_ascii_of_string c) in *. clearbody l.
  unfold PyStr.decode in H. destruct l as [|a l]; [discriminate H|]. cbv zeta in H.
  assert (Ha : (PyStr.byte a <? 128)%N = true
               \/ ((194 <=? PyStr.byte a) && (PyStr.byte a <=? 223))%N = true
               \/ ((224 <=? PyStr.byte a) && (PyStr.byte a <=? 239))%N = true
               \/ ((240 <=? PyStr.byte a) && (PyStr.byte a <=? 244))%N = true).
  { destruct (PyStr.byte a <? 128)%N; [auto|].
    destruct ((194 <=? PyStr.byte a) && (PyStr.byte a <=? 223))%N; [auto|].
    destruct ((224 <=? PyStr.byte a) && (PyStr.byte a <=? 239))%N; [auto|].
    destruct ((240 <=? PyStr.byte a) && (PyStr.byte a <=? 244))%N; [auto|discriminate H]. }
  assert (Hlead : PyStr.continuation a = false).
  { unfold PyStr.continuation.
    destruct Ha as [Ha|[Ha|[Ha|Ha]]];
      [apply N.ltb_lt in Ha | apply andb_prop in Ha; destruct Ha as [Ha _]; apply N.leb_le in Ha ..].
    - replace (128 <=? PyStr.byte a)%N with false by (symmetry; apply N.leb_gt; lia).
      reflexivity.
    - replace (PyStr.byte a <=? 191)%N with false by (symmetry; apply N.leb_gt; lia).
      apply andb_false_r.
    - replace (PyStr.byte a <=? 191)%N with false by (symmetry; apply N.leb_gt; lia).
      apply andb_false_r.
    - replace (PyStr.byte a <=? 191)%N with false by (symmetry; apply N.leb_gt; lia).
      apply andb_false_r. }
  destruct (PyStr.byte a <? 128)%N.
  { injection H as _ E. destruct l; [|discriminate E]. cbn. rewrite Hlead. reflexivity. }
  destruct ((194 <=? PyStr.byte a) && (PyStr.byte a <=? 223))%N.
  { destruct l as [|b l]; [discriminate H|].
    destruct (PyStr.continuation b) eqn:Eb; [|discriminate H].
    injection H as _ E. destruct l; [|discriminate E].
    cbn. rewrite Eb, Hlead. reflexivity. }
  destruct ((224 <=? PyStr.byte a) && (PyStr.byte a <=? 239))%N.
  { destruct l as [|b [|c0 l]]; try discriminate H.
    destruct (PyStr.continuation b) eqn:Eb; [|discriminate H].
    destruct (PyStr.continuation c0) eqn:Ec; [|discriminate H].
    cbn [andb] in H.
    match type of H with (if ?t then _ else _) = _ => destruct t end; [|discriminate H].
    injection H as _ E. destruct l; [|discriminate E].
    cbn. rewrite Ec, Eb, Hlead. reflexivity. }
  destruct ((240 <=? PyStr.byte a) && (PyStr.byte a <=? 244))%N; [|discriminate H].
  destruct l as [|b [|c0 [|d l]]]; try discriminate H.
  destruct (PyStr.continuation b) eqn:Eb; [|discriminate H].
  destruct (PyStr.continuation c0) eqn:Ec; [|discriminate H].
  destruct (PyStr.continuation d) eqn:Ed; [|discriminate H].
  cbn [andb] in H.
  match type of H with (if ?t then _ else _) = _ => destruct t end; [|discriminate H].
  injection H as _ E. destruct l; [|discriminate E].
  cbn. rewrite Ed, Ec, Eb, Hlead. reflexivity.
Qed.

(** X4. The normaliser of line 18 replaces the last two characters of the
    text of an account (the ".0" of a number read as float), of one byte
    or more each, by a leading "00"; a text of fewer than two characters
    becomes "00". *)
Theorem X4_normalize (p c1 c2 : string) :
  is_char c1 -> is_char c2 ->
  normalize (p ++ c1 ++ c2) = "00" ++ p
  /\ normalize c1 = "00"
  /\ normalize "" = "00".
Proof.
  intros H1 H2. unfold normalize, PyStr.drop_last2. split; [|split].
  - rewrite !list_ascii_of_string_app, !rev_app_distr.
    rewrite <- app_assoc, (chop_char c2 _ H2), (chop_char c1 _ H1).
    rewrite rev_involutive, string_of_list_ascii_of_string. reflexivity.
  - rewrite <- (app_nil_r (rev (list_ascii_of_string c1))), (chop_char c1 _ H1).
    reflexivity.
  - reflexivity.
Qed.

Lemma X4_normalize_witness :
  normalize ("989247" ++ "." ++ "0") = "00" ++ "989247"
  /\ normalize "." = "00"
  /\ normalize "" = "00".
Proof.
  apply (X4_normalize "989247" "." "0"); [exists 46%N | exists 48%N]; reflexivity.
Defined.

(** ** What the loaders do to the session *)

Lemma load_control_file_without_conta float_str sheet w :
  Pandas.getitem "Conta" sheet = None ->
  load_control_file float_str (Some sheet) w
  = (mk_world (mk_self (Some sheet) (pl_data (self w)))
       (shown w ++ [ReferenceLoadError (KeyError "Conta")]),
     Returned tt).
Proof.
  intros Hc. unfold load_control_file. py_unfold.
  cbn [self shown planilha_controle pl_data]. rewrite Hc. reflexivity.
Qed.

Lemma load_control_file_without_taxa float_str sheet conta w :
  Pandas.getitem "Conta" sheet = Some conta ->
  Pandas.getitem "Taxa de Gestão" sheet = None ->
  load_control_file float_str (Some sheet) w
  = (mk_world
       (mk_self
          (Some (Pandas.setitem "Conta"
                   (ObjectS (map (fun x => Some (normalize x)) (astype_str float_str conta)))
                   sheet))
          (pl_data (self w)))
       (shown w ++ [ReferenceLoadError (KeyError "Taxa de Gestão")]),
     Returned tt).
Proof.
  intros Hc Ht. unfold load_control_file. py_unfold.
  cbn [self shown planilha_controle pl_data].
  rewrite Hc. cbn [self shown planilha_controle pl_data].
  unfold Pandas.select. rewrite getitem_setitem_same.
  rewrite getitem_setitem_other by discriminate. rewrite Ht. reflexivity.
Qed.

Lemma app_one_neq {A} (l : list A) (x : A) : (l ++ [x])%list <> l.
Proof.
  intros H. apply (f_equal (@length A)) in H. rewrite length_app in H. cbn in H. lia.
Qed.

(** X5. [load_control_file] never raises and never touches the snapshot
    collection.  It shows no message exactly when the workbook is readable
    and its sheet has both columns "Conta" and "Taxa de Gestão", whatever
    the cells hold; otherwise it shows exactly one load error. *)
Theorem X5_load_control_file_outcomes float_str (uploaded : option DataFrame) (w : World) :
  snd (load_control_file float_str uploaded w) = Returned tt
  /\ pl_data (self (fst (load_control_file float_str uploaded w))) = pl_data (self w)
  /\ (shown (fst (load_control_file float_str uploaded w)) = shown w
      <-> has_columns uploaded)
  /\ (shown (fst (load_control_file float_str uploaded w)) = shown w
      \/ exists e, shown (fst (load_control_file float_str uploaded w))
                   = (shown w ++ [ReferenceLoadError e])%list).
Proof.
  split; [apply load_control_file_returns|].
  split; [apply load_control_file_pl_data|].
  destruct uploaded as [sheet|].
  - destruct (Pandas.getitem "Conta" sheet) as [conta|] eqn:Hc.
    + destruct (Pandas.getitem "Taxa de Gestão" sheet) as [taxa|] eqn:Ht.
      * rewrite (load_control_file_loads float_str sheet conta taxa w Hc Ht).
        cbn [fst shown]. split; [|left; reflexivity].
        split; [|reflexivity]. intros _. exists sheet, conta, taxa. auto.
      * rewrite (load_control_file_without_taxa float_str sheet conta w Hc Ht).
        cbn [fst shown]. split; [|right; eexists; reflexivity]. split.
        -- intros H. exfalso. exact (app_one_neq _ _ H).
        -- intros (s & c & t & Hs & _ & Ht'). injection Hs as <-. congruence.
    + rewrite (load_control_file_without_conta float_str sheet w Hc).
      cbn [fst shown]. split; [|right; eexists; reflexivity]. split.
      * intros H. exfalso. exact (app_one_neq _ _ H).
      * intros (s & c & t & Hs & Hc' & _). injection Hs as <-. congruence.
  - rewrite load_control_file_unreadable. cbn [fst shown].
    split; [|right; eexists; reflexivity]. split.
    + intros H. exfalso. exact (app_one_neq _ _ H).
    + intros (s & c & t & Hs & _). discriminate Hs.
Qed.

(** X6. A load that succeeds replaces the reference table: the session
    after it is the same whatever was uploaded before, so rows are not
    accumulated across loads and loading the same sheet again changes
    nothing. *)
Theorem X6_load_control_file_replaces float_str (uploaded earlier : option DataFrame)
  (w : World) :
  has_columns uploaded ->
  self (fst (load_control_file float_str uploaded
               (fst (load_control_file float_str earlier w))))
  = self (fst (load_control_file float_str uploaded w)).
Proof.
  intros (sheet & conta & taxa & -> & Hc & Ht).
  rewrite !(load_control_file_loads float_str sheet conta taxa _ Hc Ht).
  cbn [fst self]. rewrite load_control_file_pl_data. reflexivity.
Qed.

Lemma X6_load_control_file_replaces_witness :
  self (fst (load_control_file Sample.text_only (Some Sample.control_sheet)
               (fst (load_control_file Sample.text_only
                       (Some Sample.sheet_without_conta) Sample.fresh))))
  = self (fst (load_control_file Sample.text_only (Some Sample.control_sheet) Sample.fresh)).
Proof.
  apply (X6_load_control_file_replaces Sample.text_only (Some Sample.control_sheet)
           (Some Sample.sheet_without_conta) Sample.fresh).
  exists Sample.control_sheet. eexists. eexists.
  split; [reflexivity|]. split; reflexivity.
Defined.

Lemma select_conta_valor (sheet : DataFrame) (conta valor : Series) :
  Pandas.getitem "Conta" sheet = Some conta ->
  Pandas.getitem "Valor" sheet = Some valor ->
  Pandas.select ["Conta"; "Valor"] sheet = inl [("Conta", conta); ("Valor", valor)].
Proof. intros Hc Hv. cbn [Pandas.select]. rewrite Hc, Hv. reflexivity. Qed.

(** X7. [load_pl_file] never raises and never touches the reference
    table.  Either it appends exactly one frame at the end of the snapshot
    collection and shows nothing, or it leaves the collection as it was and
    shows exactly one message; the frames already there are never
    changed. *)
Theorem X7_load_pl_file_outcomes (today_year : Z) (uploaded : option DataFrame)
  (file_name : string) (w : World) :
  snd (load_pl_file today_year uploaded file_name w) = Returned tt
  /\ planilha_controle (self (fst (load_pl_file today_year uploaded file_name w)))
     = planilha_controle (self w)
  /\ ((exists pl,
         pl_data (self (fst (load_pl_file today_year uploaded file_name w)))
         = (pl_data (self w) ++ [pl])%list
         /\ shown (fst (load_pl_file today_year uploaded file_name w)) = shown w)
      \/ (pl_data (self (fst (load_pl_file today_year uploaded file_name w)))
          = pl_data (self w)
          /\ exists m, shown (fst (load_pl_file today_year uploaded file_name w))
                       = (shown w ++ [m])%list)).
Proof.
  unfold load_pl_file. py_unfold.
  destruct (DateTag.extract today_year file_name) as [date|f].
  - destruct uploaded as [df|].
    + destruct (Pandas.select ["Conta"; "Valor"] df) as [r|l].
      * cbn [fst snd self shown pl_data planilha_controle].
        split; [reflexivity|]. split; [reflexivity|]. left. eexists. split; reflexivity.
      * cbn [fst snd self shown pl_data planilha_controle].
        split; [reflexivity|]. split; [reflexivity|]. right.
        split; [reflexivity|]. eexists. reflexivity.
    + cbn [fst snd self shown pl_data planilha_controle].
      split; [reflexivity|]. split; [reflexivity|]. right.
      split; [reflexivity|]. eexists. reflexivity.
  - cbn [fst snd self shown pl_data planilha_controle].
    split; [reflexivity|]. split; [reflexivity|]. right.
    split; [reflexivity|]. eexists. reflexivity.
Qed.

Lemma load_pl_file_appends (today_year : Z) (sheet : DataFrame) (file_name : string)
  (date : datetime) (conta valor : Series) (w : World) :
  DateTag.extract today_year file_name = inl date ->
  Pandas.getitem "Conta" sheet = Some conta ->
  Pandas.getitem "Valor" sheet = Some valor ->
  load_pl_file today_year (Some sheet) file_name w
  = (mk_world
       (mk_self (planilha_controle (self w))
          (pl_data (self w)
           ++ [[("conta", conta); ("VALOR", valor);
                ("Data", DatetimeS (repeat (Some date) (Pandas.size conta)))]])%list)
       (shown w),
     Returned tt).
Proof.
  intros He Hc Hv. unfold load_pl_file. py_unfold. rewrite He.
  rewrite (select_conta_valor sheet conta valor Hc Hv). reflexivity.
Qed.

(** X8. A file with a valid tag whose sheet has the columns "Conta" and
    "Valor" is appended as a frame of exactly three columns: the accounts
    as [conta], the values as [VALOR] and a [Data] column that carries the
    date of the file name on every row.  The other columns of the sheet are
    dropped, and the cells are taken as they are. *)
Theorem X8_load_pl_file_frame (today_year : Z) (sheet : DataFrame) (file_name : string)
  (date : datetime) (conta valor : Series) (w : World) :
  DateTag.extract today_year file_name = inl date ->
  Pandas.getitem "Conta" sheet = Some conta ->
  Pandas.getitem "Valor" sheet = Some valor ->
  load_pl_file today_year (Some sheet) file_name w
  = (mk_world
       (mk_self (planilha_controle (self w))
          (pl_data (self w)
           ++ [[("conta", conta); ("VALOR", valor);
                ("Data", DatetimeS (repeat (Some date) (Pandas.size conta)))]])%list)
       (shown w),
     Returned tt).
Proof. exact (load_pl_file_appends today_year sheet file_name date conta valor w). Qed.

Lemma X8_load_pl_file_frame_witness :
  load_pl_file 2025 (Some Sample.two_snapshots) "PL Total - 01.03.xlsx" Sample.with_control
  = (mk_world
       (mk_self (planilha_controle (self Sample.with_control))
          (pl_data (self Sample.with_control)
           ++ [[("conta", ObjectS [Some "00989247"; Some "00777777"]);
                ("VALOR", FloatS [Some 100000%R; Some 5%R]);
                ("Data", DatetimeS (repeat (Some (mk_dt 2025 3 1)) 2))]])%list)
       (shown Sample.with_control),
     Returned tt).
Proof.
  exact (X8_load_pl_file_frame 2025 Sample.two_snapshots "PL Total - 01.03.xlsx"
           (mk_dt 2025 3 1) (ObjectS [Some "00989247"; Some "00777777"])
           (FloatS [Some 100000%R; Some 5%R]) Sample.with_control
           eq_refl eq_refl eq_refl).
Defined.

(** ** The engine: guard and join *)

Lemma calculate_loaded (w : World) :
  Engine.not_loaded (self w) = false ->
  snd (calculate_daily_fees w) <> Returned None.
Proof.
  intros H. unfold calculate_daily_fees. rewrite H. py_unfold.
  destruct (planilha_controle (self w)) as [pc|]; [|discriminate].
  destruct (Engine.tx_gestao pc (pl_data (self w))); discriminate.
Qed.

(** X9. [calculate_daily_fees] returns [None] exactly when the reference
    table is unset or empty or no snapshot file has been accumulated: once
    the guard is passed the method returns a report or raises, never the
    sentinel. *)
Theorem X9_sentinel_iff_not_loaded (w : World) :
  snd (calculate_daily_fees w) = Returned None
  <-> (planilha_controle (self w) = None
       \/ (exists pc, planilha_controle (self w) = Some pc /\ Pandas.empty pc = true)
       \/ pl_data (self w) = []).
Proof.
  split.
  - intros H. destruct (Engine.not_loaded (self w)) eqn:E.
    + unfold Engine.not_loaded in E.
      destruct (planilha_controle (self w)) as [pc|]; [|left; reflexivity].
      right. apply orb_prop in E. destruct E as [E|E].
      * left. exists pc. auto.
      * right. destruct (pl_data (self w)); [reflexivity | discriminate E].
    + exfalso. exact (calculate_loaded w E H).
  - intros H. rewrite calculate_not_loaded; [reflexivity|].
    unfold Engine.not_loaded. destruct H as [H | [(pc & H & He) | H]].
    + rewrite H. reflexivity.
    + rewrite H, He. reflexivity.
    + rewrite H. destruct (planilha_controle (self w)); [apply orb_true_r | reflexivity].
Qed.

Lemma merge_outer_left left right (k : option string) (t : option R) :
  In (k, t) left ->
  exists v d, In (Merged.mk k t v d) (Engine.merge_outer left right).
Proof.
  intros Hl. unfold Engine.merge_outer.
  destruct (filter (fun '(k', _, _) => Engine.key_eqb k k') right)
    as [|[[k' v'] d'] ms] eqn:F.
  - exists None, None. apply in_or_app. left. apply in_flat_map.
    exists (k, t). split; [exact Hl|]. rewrite F. left. reflexivity.
  - exists v', d'. apply in_or_app. left. apply in_flat_map.
    exists (k, t). split; [exact Hl|]. rewrite F. left. reflexivity.
Qed.

Lemma merge_outer_right left right (k : option string) (v : option R) (d : option datetime) :
  In (k, v, d) right ->
  exists t, In (Merged.mk k t v d) (Engine.merge_outer left right)
            /\ ((forall t', ~ In (k, t') left) -> t = None).
Proof.
  intros Hr. unfold Engine.merge_outer.
  destruct (existsb (fun '(k', _) => Engine.key_eqb k' k) left) eqn:E.
  - apply existsb_exists in E. destruct E as ([k' t] & Hl & Hk).
    apply key_eqb_eq in Hk. subst k'. exists t. split.
    + apply in_or_app. left. apply in_flat_map. exists (k, t). split; [exact Hl|].
      assert (Hf : In (k, v, d) (filter (fun '(k', _, _) => Engine.key_eqb k k') right)).
      { apply filter_In. split; [exact Hr|]. apply key_eqb_eq. reflexivity. }
      destruct (filter (fun '(k', _, _) => Engine.key_eqb k k') right) as [|p ms];
        [destruct Hf|].
      apply in_map_iff. exists (k, v, d). split; [reflexivity | exact Hf].
    + intros Hn. exfalso. exact (Hn t Hl).
  - exists None. split; [|reflexivity]. apply in_or_app. right.
    apply in_flat_map. exists (k, v, d). split; [exact Hr|]. rewrite E. left. reflexivity.
Qed.

(** X10. The joined frame of lines 71-72 keeps both sides: every account
    of the reference table has a row with its rate, every snapshot row
    with an account has a row with its value and its date as DD.MM, an
    account only the reference table has keeps a row without value and
    date, a snapshot row of an account the reference table lacks keeps a
    row without rate, and no row of the frame has a missing account. *)
Theorem X10_outer_join (pc : DataFrame) (pls : list DataFrame)
  (reference : list (option string * option R))
  (pl_combined : list (option string * option R * option datetime)) :
  Engine.control_rows pc = Returned reference ->
  Engine.concat pls = Returned pl_combined ->
  exists tx,
    Engine.tx_gestao pc pls = Returned tx
    /\ (forall c t, In (Some c, t) reference ->
          exists row, In row tx /\ Tx.conta row = Some c /\ Tx.Taxa_de_Gestao row = t)
    /\ (forall c v d, In (Some c, v, d) pl_combined ->
          exists row, In row tx /\ Tx.conta row = Some c /\ Tx.VALOR row = v
                      /\ Tx.Data row = option_map Calendar.strftime_dm d)
    /\ (forall c t, In (Some c, t) reference ->
          (forall v d, ~ In (Some c, v, d) pl_combined) ->
          exists row, In row tx /\ Tx.conta row = Some c /\ Tx.Taxa_de_Gestao row = t
                      /\ Tx.VALOR row = None /\ Tx.Data row = None
                      /\ Tx.Valor_de_cobranca row = None)
    /\ (forall c v d, In (Some c, v, d) pl_combined ->
          (forall t, ~ In (Some c, t) reference) ->
          exists row, In row tx /\ Tx.conta row = Some c /\ Tx.VALOR row = v
                      /\ Tx.Taxa_de_Gestao row = None
                      /\ Tx.Valor_de_cobranca row = None)
    /\ (forall row, In row tx -> Tx.conta row <> None).
Proof.
  intros HL HR. unfold Engine.tx_gestao. rewrite HL, HR. eexists. split; [reflexivity|].
  assert (Hkeep : forall m, In m (Engine.merge_outer reference pl_combined) ->
                            Merged.conta m <> None ->
                            In (Engine.fee_row m)
                               (map Engine.fee_row
                                  (Engine.dropna_conta
                                     (Engine.merge_outer reference pl_combined)))).
  { intros m Hm Hc. apply in_map. apply filter_In. split; [exact Hm|].
    destruct (Merged.conta m); [reflexivity | congruence]. }
  split; [|split; [|split; [|split]]].
  - intros c t Hl. destruct (merge_outer_left reference pl_combined _ _ Hl) as (v & d & Hm).
    exists (Engine.fee_row (Merged.mk (Some c) t v d)).
    split; [apply Hkeep; [exact Hm | discriminate]|]. split; reflexivity.
  - intros c v d Hr. destruct (merge_outer_right reference pl_combined _ _ _ Hr) as (t & Hm & _).
    exists (Engine.fee_row (Merged.mk (Some c) t v d)).
    split; [apply Hkeep; [exact Hm | discriminate]|]. repeat split.
  - intros c t Hl Hn.
    pose proof (merge_outer_left_only reference pl_combined c t Hl Hn) as Hm.
    exists (Engine.fee_row (Merged.mk (Some c) t None None)).
    split; [apply Hkeep; [exact Hm | discriminate]|]. repeat split.
  - intros c v d Hr Hn.
    destruct (merge_outer_right reference pl_combined _ _ _ Hr) as (t & Hm & Ht).
    rewrite (Ht Hn) in Hm.
    exists (Engine.fee_row (Merged.mk (Some c) None v d)).
    split; [apply Hkeep; [exact Hm | discriminate]|].
    cbn [Engine.fee_row Tx.conta Tx.VALOR Tx.Taxa_de_Gestao Tx.Valor_de_cobranca
           Merged.conta Merged.VALOR Merged.Taxa_de_Gestao Engine.Tx_Gestao_Diaria].
    repeat split. destruct v; reflexivity.
  - intros row Hin. apply in_map_iff in Hin. destruct Hin as (m & <- & Hm).
    apply filter_In in Hm. destruct Hm as [_ Hc].
    cbn [Engine.fee_row Tx.conta]. destruct (Merged.conta m); [discriminate | discriminate Hc].
Qed.

Lemma X10_outer_join_witness :
  exists tx,
    Engine.tx_gestao Sample.reference Sample.snapshots = Returned tx
    /\ (forall c t, In (Some c, t)
                      [(Some "00989247", Some (2 / 100)%R); (Some "00555555", Some (1 / 100)%R);
                       (Some "000989247", Some (2 / 100)%R)] ->
          exists row, In row tx /\ Tx.conta row = Some c /\ Tx.Taxa_de_Gestao row = t)
    /\ (forall c v d, In (Some c, v, d)
                        [(Some "00989247", Some 100000%R, Some (mk_dt 2025 3 1));
                         (Some "00777777", Some 5%R, Some (mk_dt 2025 3 1))] ->
          exists row, In row tx /\ Tx.conta row = Some c /\ Tx.VALOR row = v
                      /\ Tx.Data row = option_map Calendar.strftime_dm d)
    /\ (forall c t, In (Some c, t)
                      [(Some "00989247", Some (2 / 100)%R); (Some "00555555", Some (1 / 100)%R);
                       (Some "000989247", Some (2 / 100)%R)] ->
          (forall v d, ~ In (Some c, v, d)
                         [(Some "00989247", Some 100000%R, Some (mk_dt 2025 3 1));
                          (Some "00777777", Some 5%R, Some (mk_dt 2025 3 1))]) ->
          exists row, In row tx /\ Tx.conta row = Some c /\ Tx.Taxa_de_Gestao row = t
                      /\ Tx.VALOR row = None /\ Tx.Data row = None
                      /\ Tx.Valor_de_cobranca row = None)
    /\ (forall c v d, In (Some c, v, d)
                        [(Some "00989247", Some 100000%R, Some (mk_dt 2025 3 1));
                         (Some "00777777", Some 5%R, Some (mk_dt 2025 3 1))] ->
          (forall t, ~ In (Some c, t)
                       [(Some "00989247", Some (2 / 100)%R); (Some "00555555", Some (1 / 100)%R);
                        (Some "000989247", Some (2 / 100)%R)]) ->
          exists row, In row tx /\ Tx.conta row = Some c /\ Tx.VALOR row = v
                      /\ Tx.Taxa_de_Gestao row = None
                      /\ Tx.Valor_de_cobranca row = None)
    /\ (forall row, In row tx -> Tx.conta row <> None).
Proof.
  exact (X10_outer_join Sample.reference Sample.snapshots _ _ eq_refl eq_refl).
Defined.

(** ** What a cell of the report holds *)

Lemma nansum_app (a b : list (option R)) :
  Float.nansum (a ++ b) = (Float.nansum a + Float.nansum b)%R.
Proof.
  rewrite !nansum_null_as_zero, map_app, fold_right_app.
  induction (map null_as_zero a) as [|x l IH]; cbn [fold_right].
  - symmetry. apply Rplus_0_l.
  - rewrite IH. symmetry. apply Rplus_assoc.
Qed.

Lemma nansum_all_missing (l : list (option R)) :
  (forall x, In x l -> x = None) -> Float.nansum l = 0%R.
Proof.
  induction l as [|x l IH]; intros H; [reflexivity|].
  rewrite (H x (or_introl eq_refl)). cbn [Float.nansum fold_right].
  apply IH. intros y Hy. apply H. right. exact Hy.
Qed.

Lemma flat_map_flat_map {A B C} (f : A -> list B) (g : B -> list C) (l : list A) :
  flat_map g (flat_map f l) = flat_map (fun x => flat_map g (f x)) l.
Proof.
  induction l as [|x l IH]; [reflexivity|].
  cbn [flat_map]. rewrite flat_map_app, IH. reflexivity.
Qed.

Lemma flat_map_map_filter {A B C} (p : A -> bool) (g : A -> B) (h : B -> list C)
  (l : list A) :
  flat_map h (map g (filter p l)) = flat_map (fun x => if p x then h (g x) else []) l.
Proof.
  induction l as [|x l IH]; [reflexivity|].
  cbn [filter flat_map]. destruct (p x); cbn [map flat_map]; rewrite IH; reflexivity.
Qed.

Lemma flat_map_all_nil {A B} (f : A -> list B) (l : list A) :
  (forall x, In x l -> f x = []) -> flat_map f l = [].
Proof.
  induction l as [|x l IH]; intros H; [reflexivity|].
  cbn [flat_map]. rewrite (H x (or_introl eq_refl)), IH; [reflexivity|].
  intros y Hy. apply H. right. exact Hy.
Qed.

Lemma key_eqb_sym (a b : option string) : Engine.key_eqb a b = Engine.key_eqb b a.
Proof. destruct a, b; cbn [Engine.key_eqb]; try reflexivity. apply String.eqb_sym. Qed.

(** The group of account [c] and date [d], read off the merged rows. *)
Lemma keyed_group (c d : string) (rows : list Merged.row) :
  map snd (filter (fun '(c', d', _) => String.eqb c' c && String.eqb d' d)
                  (Engine.keyed (map Engine.fee_row (Engine.dropna_conta rows))))
  = flat_map (contribution c d) rows.
Proof.
  unfold Engine.keyed, Engine.dropna_conta.
  induction rows as [|m rows IH]; [reflexivity|].
  cbn [filter flat_map map]. unfold contribution at 1.
  destruct m as [k t v dt]. cbn [Merged.conta Merged.Data Merged.VALOR Merged.Taxa_de_Gestao].
  destruct k as [c'|]; [|exact IH].
  cbn [map flat_map Engine.fee_row Tx.conta Tx.Data Tx.Valor_de_cobranca
         Merged.conta Merged.Data Merged.VALOR Merged.Taxa_de_Gestao].
  destruct dt as [x|]; cbn [option_map app]; [|exact IH].
  cbn [filter]. destruct (String.eqb c' c && String.eqb (Calendar.strftime_dm x) d);
    cbn [map snd app]; rewrite IH; reflexivity.
Qed.

Lemma cell_of_group (groups : list (string * string * option R)) (c d : string) :
  Engine.cell groups c d
  = match map snd (filter (fun '(c', d', _) => String.eqb c' c && String.eqb d' d) groups) with
    | [] => None
    | l => Some (Float.nansum l)
    end.
Proof.
  unfold Engine.cell.
  destruct (filter (fun '(c', d', _) => String.eqb c' c && String.eqb d' d) groups);
    reflexivity.
Qed.

(** What the rows merged from one reference row put into the group. *)
Lemma contribution_left (c d : string) (k : option string) (t : option R)
  (right : list (option string * option R * option datetime)) :
  flat_map (contribution c d)
    (match filter (fun '(k', _, _) => Engine.key_eqb k k') right with
     | [] => [Merged.mk k t None None]
     | ms => map (fun '(_, v, dt) => Merged.mk k t v dt) ms
     end)
  = if Engine.key_eqb k (Some c)
    then map (fun v => Engine.Valor_de_cobranca v (Engine.Tx_Gestao_Diaria t))
             (values_of c d right)
    else [].
Proof.
  assert (Hflat :
    flat_map (contribution c d)
      (match filter (fun '(k', _, _) => Engine.key_eqb k k') right with
       | [] => [Merged.mk k t None None]
       | ms => map (fun '(_, v, dt) => Merged.mk k t v dt) ms
       end)
    = flat_map (fun r => if (fun '(k', _, _) => Engine.key_eqb k k') r
                         then contribution c d ((fun '(_, v, dt) => Merged.mk k t v dt) r)
                         else []) right).
  { rewrite <- flat_map_map_filter.
    destruct (filter (fun '(k', _, _) => Engine.key_eqb k k') right); [|reflexivity].
    cbn [map flat_map app]. unfold contribution. cbn [Merged.conta Merged.Data].
    destruct k; reflexivity. }
  rewrite Hflat. clear Hflat. destruct (Engine.key_eqb k (Some c)) eqn:Hk.
  - apply key_eqb_eq in Hk. subst k. unfold values_of.
    induction right as [|[[k' v] dt] right IH]; [reflexivity|].
    cbn [flat_map]. rewrite IH. rewrite map_app. f_equal.
    rewrite (key_eqb_sym k' (Some c)).
    destruct (Engine.key_eqb (Some c) k'); [|reflexivity].
    unfold contribution, label_is. cbn [Merged.conta Merged.Data Merged.VALOR
                                         Merged.Taxa_de_Gestao andb].
    destruct dt as [x|]; [|reflexivity]. rewrite String.eqb_refl. cbn [andb].
    destruct (String.eqb (Calendar.strftime_dm x) d); reflexivity.
  - apply flat_map_all_nil. intros [[k' v] dt] _.
    destruct (Engine.key_eqb k k'); [|reflexivity].
    unfold contribution. cbn [Merged.conta Merged.Data].
    destruct k as [c'|]; [|reflexivity]. destruct dt; [|reflexivity].
    cbn [Engine.key_eqb] in Hk. rewrite Hk. reflexivity.
Qed.

Lemma fee_pairs_left (c d : string) (left : list (option string * option R))
  (right : list (option string * option R * option datetime)) :
  flat_map (fun '(k, t) =>
              if Engine.key_eqb k (Some c)
              then map (fun v => Engine.Valor_de_cobranca v (Engine.Tx_Gestao_Diaria t))
                       (values_of c d right)
              else []) left
  = fee_pairs c d left right.
Proof.
  unfold fee_pairs, rates_of. rewrite flat_map_flat_map.
  apply flat_map_ext. intros [k t].
  destruct (Engine.key_eqb k (Some c)); cbn [flat_map]; [rewrite app_nil_r|]; reflexivity.
Qed.

Lemma values_of_nil_iff (c d : string)
  (right : list (option string * option R * option datetime)) :
  values_of c d right = []
  <-> forall v x, In (Some c, v, Some x) right -> Calendar.strftime_dm x <> d.
Proof.
  unfold values_of. split.
  - intros H v x Hin Hd.
    assert (Hv : In v (flat_map (fun '(k, v, dt) =>
                         if Engine.key_eqb k (Some c) && label_is d dt then [v] else [])
                         right)).
    { apply in_flat_map. exists (Some c, v, Some x). split; [exact Hin|].
      cbn [Engine.key_eqb label_is]. rewrite String.eqb_refl, Hd, String.eqb_refl.
      left. reflexivity. }
    rewrite H in Hv. destruct Hv.
  - intros H. apply flat_map_all_nil. intros [[k v] dt] Hin.
    destruct (Engine.key_eqb k (Some c)) eqn:Hk; [|reflexivity].
    apply key_eqb_eq in Hk. subst k. destruct dt as [x|]; [|reflexivity].
    cbn [label_is andb]. destruct (String.eqb (Calendar.strftime_dm x) d) eqn:E;
      [|reflexivity].
    apply String.eqb_eq in E. exfalso. exact (H v x Hin E).
Qed.

Lemma contribution_nil_iff (c d : string) (rows : list Merged.row) :
  flat_map (contribution c d) rows = []
  <-> forall t v x, In (Merged.mk (Some c) t v (Some x)) rows ->
                    Calendar.strftime_dm x <> d.
Proof.
  split.
  - intros H t v x Hin Hd.
    assert (Hc : In (Engine.Valor_de_cobranca v (Engine.Tx_Gestao_Diaria t))
                    (flat_map (contribution c d) rows)).
    { apply in_flat_map. exists (Merged.mk (Some c) t v (Some x)). split; [exact Hin|].
      unfold contribution. cbn [Merged.conta Merged.Data Merged.VALOR Merged.Taxa_de_Gestao].
      rewrite String.eqb_refl, Hd, String.eqb_refl. left. reflexivity. }
    rewrite H in Hc. destruct Hc.
  - intros H. apply flat_map_all_nil. intros [k t v dt] Hin. unfold contribution.
    cbn [Merged.conta Merged.Data Merged.VALOR Merged.Taxa_de_Gestao].
    destruct k as [c'|]; [|reflexivity]. destruct dt as [x|]; [|reflexivity].
    destruct (String.eqb c' c) eqn:Ec; [|reflexivity]. apply String.eqb_eq in Ec. subst c'.
    destruct (String.eqb (Calendar.strftime_dm x) d) eqn:E; [|reflexivity].
    apply String.eqb_eq in E. exfalso. exact (H t v x Hin E).
Qed.

(** The cell of account [c] under date [d], in terms of the two tables
    that were joined. *)
Lemma cell_pivot_value (c d : string) (left : list (option string * option R))
  (right : list (option string * option R * option datetime)) :
  Engine.cell
    (Engine.keyed (map Engine.fee_row
                     (Engine.dropna_conta (Engine.merge_outer left right)))) c d
  = pivot_value c d left right.
Proof.
  rewrite cell_of_group, keyed_group. unfold pivot_value.
  assert (Hnil : flat_map (contribution c d) (Engine.merge_outer left right) = []
                 <-> values_of c d right = []).
  { rewrite contribution_nil_iff, values_of_nil_iff. split.
    - intros H v x Hin. destruct (merge_outer_right left right _ _ _ Hin) as (t & Hm & _).
      exact (H t v x Hm).
    - intros H t v x Hm.
      destruct (proj1 (merge_outer_dated left right (Some c) x)) as (v' & Hin).
      + exists t, v. exact Hm.
      + exact (H v' x Hin). }
  assert (Hsum : Float.nansum (flat_map (contribution c d) (Engine.merge_outer left right))
                 = fold_right Rplus 0%R (map null_as_zero (fee_pairs c d left right))).
  { unfold Engine.merge_outer. rewrite flat_map_app, nansum_app, !flat_map_flat_map.
    rewrite (flat_map_ext _ (fun '(k, t) =>
               if Engine.key_eqb k (Some c)
               then map (fun v => Engine.Valor_de_cobranca v (Engine.Tx_Gestao_Diaria t))
                        (values_of c d right)
               else []))
      by (intros [k t]; apply contribution_left).
    rewrite fee_pairs_left, <- nansum_null_as_zero.
    rewrite (nansum_all_missing (flat_map _ right)); [apply Rplus_0_r|].
    intros x Hx. apply in_flat_map in Hx. destruct Hx as ([[k v] dt] & _ & Hx).
    destruct (existsb (fun '(k', _) => Engine.key_eqb k' k) left); [destruct Hx|].
    cbn [flat_map app] in Hx. unfold contribution in Hx.
    cbn [Merged.conta Merged.Data Merged.VALOR Merged.Taxa_de_Gestao] in Hx.
    destruct k; [|destruct Hx]. destruct dt; [|destruct Hx].
    destruct (_ && _); [|destruct Hx]. destruct Hx as [<-|[]].
    destruct v; reflexivity. }
  destruct (flat_map (contribution c d) (Engine.merge_outer left right)) as [|a l] eqn:E.
  - rewrite (proj1 Hnil eq_refl). reflexivity.
  - destruct (values_of c d right) as [|b r] eqn:Ev.
    + exfalso. assert (Hc : a :: l = []) by (apply Hnil; reflexivity). discriminate Hc.
    + rewrite Hsum. reflexivity.
Qed.

Lemma getitem_date_column (f : string -> list (option R)) (cols : list string)
  (d : string) (s : Series) :
  Pandas.getitem d (map (fun d' => (d', FloatS (f d'))) cols) = Some s ->
  In d cols /\ s = FloatS (f d).
Proof.
  induction cols as [|d' cols IH]; cbn [map Pandas.getitem]; [discriminate|].
  destruct (String.eqb d' d) eqn:E.
  - apply String.eqb_eq in E. subst d'. intros H. injection H as <-.
    split; [left; reflexivity | reflexivity].
  - intros H. destruct (IH H) as [Hin Hs]. split; [right; exact Hin | exact Hs].
Qed.

(** The date columns of a report, cell by cell. *)
Lemma report_cells (w w' : World) (report : DataFrame) :
  calculate_daily_fees w = (w', Returned (Some report)) ->
  exists pc reference pl_combined index,
    planilha_controle (self w) = Some pc
    /\ Engine.control_rows pc = Returned reference
    /\ Engine.concat (pl_data (self w)) = Returned pl_combined
    /\ Pandas.getitem "conta" report = Some (ObjectS (map Some index))
    /\ forall d col, d <> "Total" -> Pandas.getitem d report = Some (FloatS col) ->
         length col = length index
         /\ forall i c, nth_error index i = Some c ->
                        nth i col None = pivot_value c d reference pl_combined.
Proof.
  intros H. destruct (calculate_returns_report w w' report H) as (pc & tx & Hpc & Htx & -> & _).
  unfold Engine.tx_gestao in Htx.
  destruct (Engine.concat (pl_data (self w))) as [pl_combined|e] eqn:HR;
    [|discriminate Htx].
  destruct (Engine.control_rows pc) as [reference|e] eqn:HL; [|discriminate Htx].
  injection Htx as <-.
  set (groups := Engine.keyed (map Engine.fee_row
                   (Engine.dropna_conta (Engine.merge_outer reference pl_combined)))).
  set (index := Engine.labels (map (fun g => fst (fst g)) groups)).
  exists pc, reference, pl_combined, index.
  split; [exact Hpc|]. split; [exact HL|]. split; [reflexivity|]. split.
  { unfold Engine.with_total, Engine.pivot_table. cbv zeta.
    rewrite getitem_setitem_other by discriminate. reflexivity. }
  intros d col Hd Hget. unfold Engine.with_total in Hget. cbv zeta in Hget.
  rewrite getitem_setitem_other in Hget by exact Hd.
  unfold Engine.pivot_table in Hget. cbv zeta in Hget. fold groups index in Hget.
  cbn [Pandas.getitem] in Hget.
  destruct (String.eqb "conta" d); [discriminate Hget|].
  apply (getitem_date_column (fun d' => map (fun c => Engine.cell groups c d') index)) in Hget.
  destruct Hget as [_ Hcol]. injection Hcol as ->. split; [apply length_map|].
  intros i c Hi.
  rewrite (nth_error_nth (map (fun c0 => Engine.cell groups c0 d) index) i None
             (x := Engine.cell groups c d))
    by (rewrite nth_error_map, Hi; reflexivity).
  apply cell_pivot_value.
Qed.




Lemma pivot_value_no_rate (c d : string) reference pl_combined :
  rates_of c reference = [] ->
  values_of c d pl_combined <> [] ->
  pivot_value c d reference pl_combined = Some 0%R.
Proof.
  intros Hr Hv. unfold pivot_value, fee_pairs. rewrite Hr.
  destruct (values_of c d pl_combined); [congruence | reflexivity].
Qed.

(** The cell of a given row and column, under the names of the report. *)
Lemma report_cell_at (w w' : World) (report : DataFrame) (pc : DataFrame)
  reference pl_combined (index : list string) (d : string) (col : list (option R))
  (i : nat) (c : string) :
  calculate_daily_fees w = (w', Returned (Some report)) ->
  planilha_controle (self w) = Some pc ->
  Engine.control_rows pc = Returned reference ->
  Engine.concat (pl_data (self w)) = Returned pl_combined ->
  Pandas.getitem "conta" report = Some (ObjectS (map Some index)) ->
  Pandas.getitem d report = Some (FloatS col) ->
  d <> "Total" ->
  nth_error index i = Some c ->
  nth i col None = pivot_value c d reference pl_combined.
Proof.
  intros H Hpc HL HR Hidx Hcol Hd Hi.
  destruct (report_cells w w' report H)
    as (pc' & L & R' & index' & Hpc' & HL' & HR' & Hidx' & Hcells).
  rewrite Hpc in Hpc'. injection Hpc' as <-.
  rewrite HL in HL'. injection HL' as <-. rewrite HR in HR'. injection HR' as <-.
  rewrite Hidx in Hidx'. injection Hidx' as Hidx'.
  assert (Hindex : index = index').
  { revert Hidx'. clear. revert index'.
    induction index as [|a l IH]; intros [|b l'] H; try discriminate H; [reflexivity|].
    injection H as -> H. f_equal. apply IH. exact H. }
  subst index'. destruct (Hcells d col Hd Hcol) as [_ Hval]. exact (Hval i c Hi).
Qed.



(** X13. An account that has snapshot rows on a date but no row in the
    reference table is listed with 0 under that date, not with a missing
    cell: its fee amounts are all missing and the sum skips them. *)
Theorem X13_cell_without_rate (w w' : World) (report : DataFrame) (pc : DataFrame)
  reference pl_combined (index : list string) (d : string) (col : list (option R))
  (i : nat) (c : string) :
  calculate_daily_fees w = (w', Returned (Some report)) ->
  planilha_controle (self w) = Some pc ->
  Engine.control_rows pc = Returned reference ->
  Engine.concat (pl_data (self w)) = Returned pl_combined ->
  Pandas.getitem "conta" report = Some (ObjectS (map Some index)) ->
  Pandas.getitem d report = Some (FloatS col) ->
  d <> "Total" ->
  nth_error index i = Some c ->
  (forall t, ~ In (Some c, t) reference) ->
  values_of c d pl_combined <> [] ->
  nth i col None = Some 0%R.
Proof.
  intros H Hpc HL HR Hidx Hcol Hd Hi Hrates Hvalues.
  rewrite (report_cell_at w w' report pc reference pl_combined index d col i c
             H Hpc HL HR Hidx Hcol Hd Hi).
  apply pivot_value_no_rate; [|exact Hvalues].
  unfold rates_of. apply flat_map_all_nil. intros [k t] Hin.
  destruct (Engine.key_eqb k (Some c)) eqn:E; [|reflexivity].
  apply key_eqb_eq in E. subst k. exfalso. exact (Hrates t Hin).
Qed.

Lemma X13_cell_without_rate_witness :
  nth 0 [Engine.cell (Engine.keyed Sample.joined) "00777777" "01.03";
         Engine.cell (Engine.keyed Sample.joined) "00989247" "01.03"] None
  = Some 0%R.
Proof.
  apply (X13_cell_without_rate Sample.loaded Sample.loaded Sample.report Sample.reference
           [(Some "00989247", Some (2 / 100)%R); (Some "00555555", Some (1 / 100)%R);
            (Some "000989247", Some (2 / 100)%R)]
           [(Some "00989247", Some 100000%R, Some (mk_dt 2025 3 1));
            (Some "00777777", Some 5%R, Some (mk_dt 2025 3 1))]
           ["00777777"; "00989247"] "01.03" _ 0 "00777777");
    try reflexivity; [discriminate | | discriminate].
  intros t [H|[H|[H|[]]]]; discriminate H.
Defined.

(** ** The layout of the report *)

Lemma keyed_labels (rows : list Merged.row) (d : string) :
  In d (map (fun g => snd (fst g))
            (Engine.keyed (map Engine.fee_row (Engine.dropna_conta rows))))
  <-> (exists c t v x, In (Merged.mk (Some c) t v (Some x)) rows
                       /\ Calendar.strftime_dm x = d).
Proof.
  unfold Engine.keyed, Engine.dropna_conta. split.
  - intros Hin. apply in_map_iff in Hin. destruct Hin as ([[c' d'] fee] & Hd & Hin).
    cbn [fst snd] in Hd. subst d'.
    apply in_flat_map in Hin. destruct Hin as (row & Hrow & Hin).
    apply in_map_iff in Hrow. destruct Hrow as (m & <- & Hm).
    apply filter_In in Hm. destruct Hm as [Hm _].
    destruct m as [k t v dt].
    cbn [Engine.fee_row Tx.conta Tx.Data Merged.conta Merged.Data
           Merged.Taxa_de_Gestao Merged.VALOR] in Hin.
    destruct k as [k|]; [|destruct Hin]. destruct dt as [x|]; [|destruct Hin].
    cbn [option_map] in Hin. destruct Hin as [Hin|[]]. injection Hin as _ <- _.
    exists k, t, v, x. split; [exact Hm | reflexivity].
  - intros (c & t & v & x & Hm & <-). apply in_map_iff.
    exists (c, Calendar.strftime_dm x,
            Engine.Valor_de_cobranca v (Engine.Tx_Gestao_Diaria t)).
    split; [reflexivity|]. apply in_flat_map.
    exists (Engine.fee_row (Merged.mk (Some c) t v (Some x))). split.
    + apply in_map. apply filter_In. split; [exact Hm | reflexivity].
    + left. reflexivity.
Qed.

Lemma labels_Sorted (l : list string) :
  Sorted.Sorted (fun a b => String.leb a b = true) (Engine.labels l).
Proof. unfold Engine.labels. exact (StringSort.Sorted_sort (nodup string_dec l)). Qed.

(** X14. The report has the column [conta] first, then one column per
    date label, then [Total]; its rows are in ascending order of the
    account text and its date columns in ascending order of the text
    DD.MM (so by day before month, and not in the order of upload), both
    without repetition; and the date columns are the labels of the dates
    of the snapshot rows that have an account. *)
Theorem X14_report_layout (w w' : World) (report : DataFrame) :
  calculate_daily_fees w = (w', Returned (Some report)) ->
  exists index columns pl_combined,
    Engine.concat (pl_data (self w)) = Returned pl_combined
    /\ map fst report = ("conta" :: columns ++ ["Total"])%list
    /\ Pandas.getitem "conta" report = Some (ObjectS (map Some index))
    /\ Sorted.Sorted (fun a b => String.leb a b = true) index /\ NoDup index
    /\ Sorted.Sorted (fun a b => String.leb a b = true) columns /\ NoDup columns
    /\ forall d, In d columns
         <-> exists c v x, In (Some c, v, Some x) pl_combined
                           /\ Calendar.strftime_dm x = d.
Proof.
  intros H. destruct (calculate_returns_report w w' report H) as (pc & tx & _ & Htx & -> & _).
  pose proof Htx as Htx'. unfold Engine.tx_gestao in Htx'.
  destruct (Engine.concat (pl_data (self w))) as [pl_combined|e]; [|discriminate Htx'].
  destruct (Engine.control_rows pc) as [reference|e]; [|discriminate Htx'].
  injection Htx' as Htx'.
  unfold Engine.pivot_table.
  set (groups := Engine.keyed tx).
  set (index := Engine.labels (map (fun g => fst (fst g)) groups)).
  set (columns := Engine.labels (map (fun g => snd (fst g)) groups)).
  assert (Hcols : forall d, In d columns -> d <> "conta" /\ d <> "Total").
  { intros d Hd. unfold columns in Hd. apply (proj1 (labels_In _ _)) in Hd.
    destruct (keyed_dates pc _ tx d Htx Hd) as (dt & ->).
    destruct (strftime_not_a_fixed_label dt). auto. }
  destruct (with_total_shape (map Some index)
              (fun d => map (fun c => Engine.cell groups c d) index) columns Hcols)
    as (Hw & _ & _).
  cbv zeta in Hw.
  exists index, columns, pl_combined. split; [reflexivity|]. split.
  { rewrite Hw. rewrite map_app. cbn [map fst app]. rewrite map_map. cbn [fst].
    rewrite map_id. reflexivity. }
  split; [rewrite Hw; reflexivity|].
  split; [apply labels_Sorted|]. split; [apply labels_NoDup|].
  split; [apply labels_Sorted|]. split; [apply labels_NoDup|].
  intros d. unfold columns, groups. rewrite labels_In, <- Htx', keyed_labels. split.
  - intros (c & t & v & x & Hm & Hd).
    destruct (proj1 (merge_outer_dated reference pl_combined (Some c) x)) as (v' & Hr).
    + exists t, v. exact Hm.
    + exists c, v', x. split; [exact Hr | exact Hd].
  - intros (c & v & x & Hr & Hd).
    destruct (proj2 (merge_outer_dated reference pl_combined (Some c) x)) as (t & v' & Hm).
    + exists v. exact Hr.
    + exists c, t, v', x. split; [exact Hm | exact Hd].
Qed.

Lemma X14_report_layout_witness :
  exists index columns pl_combined,
    Engine.concat (pl_data (self Sample.loaded)) = Returned pl_combined
    /\ map fst Sample.report = ("conta" :: columns ++ ["Total"])%list
    /\ Pandas.getitem "conta" Sample.report = Some (ObjectS (map Some index))
    /\ Sorted.Sorted (fun a b => String.leb a b = true) index /\ NoDup index
    /\ Sorted.Sorted (fun a b => String.leb a b = true) columns /\ NoDup columns
    /\ forall d, In d columns
         <-> exists c v x, In (Some c, v, Some x) pl_combined
                           /\ Calendar.strftime_dm x = d.
Proof.
  exact (X14_report_layout Sample.loaded Sample.loaded Sample.report eq_refl).
Defined.

(** Date columns follow the text, not the calendar: a file of 31.01 and a
    file of 01.03 give the columns 01.03, 31.01 in that order. *)
Example columns_by_text :
  map fst (Engine.pivot_table
             [Engine.fee_row (Merged.mk (Some "00123") None None (Some (mk_dt 2025 1 31)));
              Engine.fee_row (Merged.mk (Some "00123") None None (Some (mk_dt 2025 3 1)))])
  = ["conta"; "01.03"; "31.01"].
Proof. reflexivity. Qed.

(** ** When the engine returns a report *)

Lemma control_rows_typed (pc : DataFrame) :
  (exists rows, Engine.control_rows pc = Returned rows) <-> typed_reference pc.
Proof.
  unfold Engine.control_rows, typed_reference. split.
  - intros (rows & H).
    destruct (Pandas.getitem "conta" pc) as [[k| |]|]; try discriminate H.
    destruct (Pandas.getitem "Taxa_de_Gestão" pc) as [[|t|]|]; try discriminate H.
    exists k, t. auto.
  - intros (k & t & -> & ->). eexists. reflexivity.
Qed.

Lemma snapshot_rows_typed (pl : DataFrame) :
  (exists rows, Engine.snapshot_rows pl = Returned rows) <-> typed_snapshot pl.
Proof.
  unfold Engine.snapshot_rows, typed_snapshot. split.
  - intros (rows & H).
    destruct (Pandas.getitem "conta" pl) as [[k| |]|]; try discriminate H.
    destruct (Pandas.getitem "VALOR" pl) as [[|v|]|]; try discriminate H.
    destruct (Pandas.getitem "Data" pl) as [[| |d]|]; try discriminate H.
    exists k, v, d. auto.
  - intros (k & v & d & -> & -> & ->). eexists. reflexivity.
Qed.

Lemma concat_typed (pls : list DataFrame) :
  (exists rows, Engine.concat pls = Returned rows) <-> Forall typed_snapshot pls.
Proof.
  induction pls as [|pl pls IH]; cbn [Engine.concat].
  - split; [constructor | eexists; reflexivity].
  - split.
    + intros (rows & H).
      destruct (Engine.snapshot_rows pl) as [rs|e] eqn:Hrs; [|discriminate H].
      destruct (Engine.concat pls) as [rest|e]; [|discriminate H].
      constructor.
      * apply snapshot_rows_typed. exists rs. exact Hrs.
      * apply IH. exists rest. reflexivity.
    + intros H. inversion H as [|? ? Hpl Hpls]. subst.
      apply snapshot_rows_typed in Hpl. destruct Hpl as (rs & ->).
      apply IH in Hpls. destruct Hpls as (rest & ->). eexists. reflexivity.
Qed.

Lemma typed_session_report (w : World) :
  Engine.not_loaded (self w) = false ->
  (exists pc, planilha_controle (self w) = Some pc /\ typed_reference pc) ->
  Forall typed_snapshot (pl_data (self w)) ->
  exists report, calculate_daily_fees w = (w, Returned (Some report)).
Proof.
  intros Hg (pc & Hpc & Ht) Hs.
  apply control_rows_typed in Ht. destruct Ht as (reference & HL).
  apply concat_typed in Hs. destruct Hs as (pl_combined & HR).
  unfold calculate_daily_fees. rewrite Hg. py_unfold. rewrite Hpc.
  unfold Engine.tx_gestao. rewrite HR, HL. eexists. reflexivity.
Qed.

(** X15. Past its guard the engine returns a report, and does not raise,
    when the columns it reads have the dtypes it computes with: accounts
    as text on both sides, rates and values as float64, dates as dates. *)
Theorem X15_typed_report (w : World) :
  Engine.not_loaded (self w) = false ->
  (exists pc, planilha_controle (self w) = Some pc /\ typed_reference pc) ->
  Forall typed_snapshot (pl_data (self w)) ->
  exists report, calculate_daily_fees w = (w, Returned (Some report)).
Proof. exact (typed_session_report w). Qed.

Lemma X15_typed_report_witness :
  exists report,
    calculate_daily_fees Sample.loaded = (Sample.loaded, Returned (Some report)).
Proof.
  apply (X15_typed_report Sample.loaded eq_refl).
  - eexists. split; [reflexivity|]. eexists. eexists. split; reflexivity.
  - constructor; [|constructor]. eexists. eexists. eexists.
    split; [reflexivity|]. split; reflexivity.
Defined.

Lemma load_pl_files_good (today_year : Z) (files : list (option DataFrame * string))
  (w : World) :
  Forall (good_file today_year) files ->
  exists frames,
    load_pl_files today_year files w
    = (mk_world (mk_self (planilha_controle (self w)) (pl_data (self w) ++ frames)%list)
                (shown w),
       Returned tt)
    /\ length frames = length files
    /\ Forall typed_snapshot frames.
Proof.
  intros H. revert w. induction H as [|[up name] files Hf _ IH]; intros w.
  - exists []. cbn [load_pl_files]. rewrite app_nil_r. destruct w as [[pc pls] log].
    split; [reflexivity|]. split; [reflexivity | constructor].
  - destruct Hf as (date & sheet & k & v & He & Hu & Hc & Hv). cbn [fst snd] in *. subst up.
    cbn [load_pl_files]. unfold Py.bind.
    rewrite (load_pl_file_appends today_year sheet name date _ _ w He Hc Hv).
    destruct (IH (mk_world
                    (mk_self (planilha_controle (self w))
                       (pl_data (self w)
                        ++ [[("conta", ObjectS k); ("VALOR", FloatS v);
                             ("Data", DatetimeS (repeat (Some date)
                                                   (Pandas.size (ObjectS k))))]])%list)
                    (shown w)))
      as (frames & Heq & Hlen & Hty).
    rewrite Heq. cbn [self shown planilha_controle pl_data].
    eexists. split; [rewrite <- app_assoc; reflexivity|]. split.
    + cbn [app length]. rewrite Hlen. reflexivity.
    + constructor; [|exact Hty]. eexists. eexists. eexists.
      split; [reflexivity|]. split; reflexivity.
Qed.

(** X16. A run on well-formed uploads gives a report and shows no error:
    from a fresh session, a control sheet with at least one row, a column
    "Conta" and a float64 column "Taxa de Gestão", followed by one or more
    snapshot files that each have a valid tag, accounts as text and values
    as float64, every file is accumulated and [calculate_daily_fees]
    returns a report. *)
Theorem X16_well_formed_run float_str (today_year : Z) (sheet : DataFrame)
  (conta : Series) (taxa : list (option R))
  (files : list (option DataFrame * string)) :
  Pandas.getitem "Conta" sheet = Some conta ->
  Pandas.getitem "Taxa de Gestão" sheet = Some (FloatS taxa) ->
  Pandas.size conta <> 0%nat ->
  files <> [] ->
  Forall (good_file today_year) files ->
  let loaded := fst (load_pl_files today_year files
                       (fst (load_control_file float_str (Some sheet)
                               (mk_world init [])))) in
  length (pl_data (self loaded)) = length files
  /\ shown loaded = []
  /\ exists report, calculate_daily_fees loaded = (loaded, Returned (Some report)).
Proof.
  intros Hc Ht Hrows Hfiles Hgood loaded. unfold loaded. clear loaded.
  rewrite (load_control_file_loads float_str sheet conta (FloatS taxa) _ Hc Ht).
  cbn [fst self shown pl_data init].
  destruct (load_pl_files_good today_year files
              (mk_world (mk_self (Some (loaded_table (astype_str float_str conta)
                                          (FloatS taxa))) []) []) Hgood)
    as (frames & Heq & Hlen & Hty).
  rewrite Heq. cbn [fst self shown pl_data planilha_controle app].
  split; [exact Hlen|]. split; [reflexivity|].
  apply typed_session_report.
  - unfold Engine.not_loaded. cbn [self planilha_controle pl_data].
    assert (Hlen' : length (astype_str float_str conta) <> 0%nat).
    { destruct conta; cbn [astype_str Pandas.size] in *; rewrite length_map; exact Hrows. }
    unfold Pandas.empty, loaded_table. cbn [Pandas.len Pandas.size].
    rewrite length_app, length_map.
    destruct (length (astype_str float_str conta)); [congruence|].
    destruct frames; [|reflexivity].
    destruct files; [congruence | discriminate Hlen].
  - cbn [self planilha_controle]. eexists. split; [reflexivity|].
    unfold typed_reference, loaded_table.
    cbn [Pandas.getitem String.eqb Ascii.eqb Bool.eqb Pandas.under Pandas.series_mask].
    eexists. eexists. split; reflexivity.
  - exact Hty.
Qed.

Lemma X16_well_formed_run_witness :
  let loaded := fst (load_pl_files 2025
                       [(Some Sample.two_snapshots, "PL Total - 01.03.xlsx")]
                       (fst (load_control_file Sample.text_only
                               (Some Sample.control_sheet) (mk_world init [])))) in
  length (pl_data (self loaded)) = 1%nat
  /\ shown loaded = []
  /\ exists report, calculate_daily_fees loaded = (loaded, Returned (Some report)).
Proof.
  apply (X16_well_formed_run Sample.text_only 2025 Sample.control_sheet
           (ObjectS [Some "989247.0"; Some "555555.0"])
           [Some (2 / 100)%R; Some (1 / 100)%R]
           [(Some Sample.two_snapshots, "PL Total - 01.03.xlsx")]);
    [reflexivity | reflexivity | discriminate | discriminate |].
  constructor; [|constructor].
  exists (mk_dt 2025 3 1), Sample.two_snapshots,
    [Some "00989247"; Some "00777777"], [Some 100000%R; Some 5%R].
  repeat split; reflexivity.
Defined.

(** ** The loop over the uploaded files *)

Lemma load_pl_file_alone (today_year : Z) (uploaded : option DataFrame)
  (file_name : string) (w : World) :
  load_pl_file today_year uploaded file_name w
  = (mk_world
       (mk_self (planilha_controle (self w))
          (pl_data (self w)
           ++ pl_data (self (alone today_year (uploaded, file_name))))%list)
       (shown w ++ shown (alone today_year (uploaded, file_name)))%list,
     Returned tt).
Proof.
  unfold alone. cbn [fst snd]. unfold load_pl_file. py_unfold.
  destruct w as [[pc pls] log].
  destruct (DateTag.extract today_year file_name) as [date|f].
  - destruct uploaded as [df|].
    + destruct (Pandas.select ["Conta"; "Valor"] df) as [r|l];
        cbn [fst snd self shown pl_data planilha_controle init app];
        rewrite ?app_nil_r; reflexivity.
    + cbn [fst snd self shown pl_data planilha_controle init app].
      rewrite ?app_nil_r. reflexivity.
  - cbn [fst snd self shown pl_data planilha_controle init app].
    rewrite ?app_nil_r. reflexivity.
Qed.

(** X17. The loop of [main] over the uploaded files (lines 115-116) never
    raises and leaves the reference table alone.  It appends the frames of
    the accepted files in the order of the upload and shows the messages of
    the refused ones in that order; what a file contributes is what it
    would contribute to a fresh session, so a refused file neither stops
    nor changes the files after it. *)
Theorem X17_upload_loop (today_year : Z) (files : list (option DataFrame * string))
  (w : World) :
  load_pl_files today_year files w
  = (mk_world
       (mk_self (planilha_controle (self w))
          (pl_data (self w)
           ++ flat_map (fun file => pl_data (self (alone today_year file))) files)%list)
       (shown w ++ flat_map (fun file => shown (alone today_year file)) files)%list,
     Returned tt).
Proof.
  revert w. induction files as [|[up name] files IH]; intros w.
  - cbn [load_pl_files flat_map]. rewrite !app_nil_r. destruct w as [[pc pls] log].
    reflexivity.
  - cbn [load_pl_files flat_map]. unfold Py.bind.
    rewrite load_pl_file_alone, IH.
    cbn [self shown planilha_controle pl_data]. rewrite <- !app_assoc. reflexivity.
Qed.

(** Three uploads, the second without a tag: the first and the third are
    accumulated, in that order, and one message is shown. *)
Example upload_loop_skips :
  let w := fst (load_pl_files 2025
                  [(Some Sample.one_snapshot, "PL Total - 01.03.xlsx");
                   (Some Sample.one_snapshot, "report.xlsx");
                   (Some Sample.two_snapshots, "PL Total - 02.03.xlsx")]
                  Sample.fresh) in
  map (Pandas.getitem "Data") (pl_data (self w))
  = [Some (DatetimeS [Some (mk_dt 2025 3 1)]);
     Some (DatetimeS [Some (mk_dt 2025 3 2); Some (mk_dt 2025 3 2)])]
  /\ shown w = [DateTagError DateTag.MissingDateTag "report.xlsx"].
Proof. split; reflexivity. Qed.
